(** * MineBloom: the journal store, affirmation providers, action stack,
      session login and red-flag scoring of [mainbloom.py]

    A shallow embedding of the business logic of [mainbloom.py] (classes
    [User], [DailyAffirmationProvider], [StackManager], and the closures
    [do_login] and [next_q] of [MineBloomApp]), with the properties of the
    specification stated and proved over it.

    Conventions.
    - Python [int] is [Z]; [str] is [string]; a [dict] with string keys is a
      [gmap string _]; a [list] is a [list] in Python order (append at the
      end).
    - Code that reads the clock or the file system runs in the monad [M]:
      a state monad over [world] whose results are either a value or a raised
      exception.  [try_except] is Python's [try: ... except Exception: ...].
    - [datetime] values are naive (no time zone): what
      [datetime.datetime.now()] and [datetime.datetime(y, m, d, h, mi)]
      produce, and what [datetime.datetime.fromisoformat] returns for the
      strings [isoformat] writes for them.  For a string that carries a UTC
      offset the library returns an offset-aware value, which this type does
      not hold: properties that depend on the timestamp read from a file are
      stated for dates the model covers ([date_unparseable],
      [dates_in_model]), and those that order timestamps for stores of
      well-formed naive ones ([entries_ok]).
    - Library behaviour is that of CPython 3.11; text typed in a form is
      ASCII where a property depends on [strip] or [int] ([is_ascii]). *)

From Stdlib Require Import ZArith String Ascii List Lia Permutation Bool.
From stdpp Require Import gmap strings list.

#[local] Set Warnings "-register-all".
#[local] Open Scope string_scope.
#[local] Open Scope Z_scope.
#[local] Open Scope list_scope.

(** ** Python values, as [json.load] produces them *)

Module Py.

(** The values a JSON document decodes to.  A float is carried as an opaque
    bit pattern: the program never computes with one. *)
Inductive pyval : Type :=
  | PyNone
  | PyBool (b : bool)
  | PyInt (z : Z)
  | PyFloat (bits : Z)
  | PyStr (s : string)
  | PyList (l : list pyval)
  | PyDict (d : gmap string pyval).

(** The exceptions the modelled code can meet; all derive from [Exception]. *)
Inductive exn : Type :=
  | OSError
  | JSONDecodeError
  | TypeError
  | AttributeError
  | ValueError
  | IndexError
  | ZeroDivisionError.

Inductive result (A : Type) : Type :=
  | Ok (a : A)
  | Raise (e : exn).
Arguments Ok {A} a.
Arguments Raise {A} e.

Definition is_str (v : pyval) : bool :=
  match v with PyStr _ => true | _ => false end.

Definition is_dict (v : pyval) : bool :=
  match v with PyDict _ => true | _ => false end.

End Py.
Export Py.

(** ** Calendar dates and timestamps ([datetime.date], [datetime.datetime]) *)

Module Datetime.

Record date : Type := mkdate { d_year : Z; d_month : Z; d_day : Z }.

Record datetime : Type := mkdatetime {
  year : Z; month : Z; day : Z;
  hour : Z; minute : Z; second : Z; microsecond : Z
}.

Definition is_leap (y : Z) : bool :=
  (y mod 4 =? 0) && (negb (y mod 100 =? 0) || (y mod 400 =? 0)).

Definition days_in_month (y m : Z) : Z :=
  if m =? 2 then (if is_leap y then 29 else 28)
  else if (m =? 4) || (m =? 6) || (m =? 9) || (m =? 11) then 30
  else 31.

(** [_DAYS_BEFORE_MONTH] of the library. *)
Definition days_before_month_table (m : Z) : Z :=
  match m with
  | 1 => 0 | 2 => 31 | 3 => 59 | 4 => 90 | 5 => 120 | 6 => 151
  | 7 => 181 | 8 => 212 | 9 => 243 | 10 => 273 | 11 => 304 | 12 => 334
  | _ => 0
  end.

Definition days_before_year (y : Z) : Z :=
  let y' := y - 1 in y' * 365 + y' / 4 - y' / 100 + y' / 400.

Definition days_before_month (y m : Z) : Z :=
  days_before_month_table m + (if (2 <? m) && is_leap y then 1 else 0).

(** [date.toordinal()]: 1 for 0001-01-01. *)
Definition toordinal (d : date) : Z :=
  days_before_year (d_year d) + days_before_month (d_year d) (d_month d) + d_day d.

(** The range checks of the [date] and [datetime] constructors. *)
Definition date_fields_ok (y m d : Z) : bool :=
  (1 <=? y) && (y <=? 9999) && (1 <=? m) && (m <=? 12)
  && (1 <=? d) && (d <=? days_in_month y m).

Definition time_fields_ok (h mi s us : Z) : bool :=
  (0 <=? h) && (h <=? 23) && (0 <=? mi) && (mi <=? 59)
  && (0 <=? s) && (s <=? 59) && (0 <=? us) && (us <=? 999999).

Definition date_ok (d : date) : bool :=
  date_fields_ok (d_year d) (d_month d) (d_day d).

Definition datetime_ok (t : datetime) : bool :=
  date_fields_ok (year t) (month t) (day t)
  && time_fields_ok (hour t) (minute t) (second t) (microsecond t).

(** [datetime.datetime(y, m, d, h, mi, s, us)]: [None] stands for the
    [ValueError] of an out-of-range field. *)
Definition datetime_new (y m d h mi s us : Z) : option datetime :=
  if date_fields_ok y m d && time_fields_ok h mi s us
  then Some (mkdatetime y m d h mi s us) else None.

(** [dt.date()]. *)
Definition date_of (t : datetime) : date := mkdate (year t) (month t) (day t).

(** [datetime.datetime(date.year, date.month, date.day)]: midnight. *)
Definition midnight (d : date) : datetime :=
  mkdatetime (d_year d) (d_month d) (d_day d) 0 0 0 0.

(** The timestamp with seconds and microseconds dropped. *)
Definition truncate_to_minute (t : datetime) : datetime :=
  mkdatetime (year t) (month t) (day t) (hour t) (minute t) 0 0.

(** *** [isoformat]: fixed-width decimal fields *)

Definition digit_of (d : Z) : ascii := ascii_of_N (Z.to_N (48 + d)).

Definition digit_val (c : ascii) : option Z :=
  let n := Z.of_N (N_of_ascii c) in
  if (48 <=? n) && (n <=? 57) then Some (n - 48) else None.

(** ["%0kd" % n] for a field [0 <= n < 10^k]. *)
Fixpoint zfill (k : nat) (n : Z) : list ascii :=
  match k with
  | O => []
  | S k' => zfill k' (n / 10) ++ [digit_of (n mod 10)]
  end.

Definition isoformat_chars (t : datetime) : list ascii :=
  zfill 4 (year t) ++ "-"%char :: zfill 2 (month t) ++ "-"%char :: zfill 2 (day t)
  ++ "T"%char :: zfill 2 (hour t) ++ ":"%char :: zfill 2 (minute t)
  ++ ":"%char :: zfill 2 (second t)
  ++ (if microsecond t =? 0 then [] else "."%char :: zfill 6 (microsecond t)).

(** [dt.isoformat()]: [YYYY-MM-DDTHH:MM:SS], with [.ffffff] appended when
    the microsecond field is not zero. *)
Definition isoformat (t : datetime) : string :=
  string_of_list_ascii (isoformat_chars t).

(** *** [fromisoformat]

    The layouts [isoformat] emits for naive values, read the way the
    library's parser does: the date [YYYY-MM-DD] in the first ten
    characters, alone or followed by one separator character and
    [HH[:MM[:SS[.fff[fff]]]]], and last the range checks of the constructor.
    A separator with nothing after it is refused, as the library does.

    The library reads more than these layouts: the basic formats
    ([YYYYMMDD], [HHMMSS]), week dates, fractions of other lengths, and a
    trailing [Z] or UTC offset, for which it returns an offset-aware value.
    Those strings are outside the model; [None] below is the library's
    [ValueError] only for the strings of [unparseable] further down, which
    the library refuses whatever follows their first ten characters. *)

Fixpoint int_of_digits (acc : Z) (cs : list ascii) : option Z :=
  match cs with
  | [] => Some acc
  | c :: cs' =>
      match digit_val c with
      | Some d => int_of_digits (10 * acc + d) cs'
      | None => None
      end
  end.

Definition parse_int (cs : list ascii) : option Z :=
  match cs with
  | [] => None
  | _ => int_of_digits 0 cs
  end.

Definition take_int (k : nat) (cs : list ascii) : option (Z * list ascii) :=
  if (length (take k cs) =? k)%nat
  then n ← parse_int (take k cs); Some (n, drop k cs)
  else None.

Definition expect (c : ascii) (cs : list ascii) : option (list ascii) :=
  match cs with
  | c' :: r => if Ascii.eqb c c' then Some r else None
  | [] => None
  end.

Definition parse_isoformat_date (cs : list ascii)
  : option (Z * Z * Z * list ascii) :=
  '(y, r) ← take_int 4 cs;
  r ← expect "-"%char r;
  '(m, r) ← take_int 2 r;
  r ← expect "-"%char r;
  '(d, r) ← take_int 2 r;
  Some (y, m, d, r).

Definition parse_fraction (r : list ascii) : option Z :=
  if (length r =? 6)%nat then parse_int r
  else if (length r =? 3)%nat then n ← parse_int r; Some (n * 1000)
  else None.

Definition parse_hh_mm_ss_ff (cs : list ascii) : option (Z * Z * Z * Z) :=
  '(h, r) ← take_int 2 cs;
  match r with
  | [] => Some (h, 0, 0, 0)
  | _ =>
      r ← expect ":"%char r;
      '(mi, r) ← take_int 2 r;
      match r with
      | [] => Some (h, mi, 0, 0)
      | _ =>
          r ← expect ":"%char r;
          '(s, r) ← take_int 2 r;
          match r with
          | [] => Some (h, mi, s, 0)
          | _ => r ← expect "."%char r; us ← parse_fraction r; Some (h, mi, s, us)
          end
      end
  end.

Definition fromisoformat_chars (cs : list ascii) : option datetime :=
  '(y, m, d, r) ← parse_isoformat_date cs;
  '(h, mi, s, us) ←
    match r with
    | [] => Some (0, 0, 0, 0)
    | _sep :: tstr => parse_hh_mm_ss_ff tstr
    end;
  datetime_new y m d h mi s us.

(** [datetime.datetime.fromisoformat(s)] on a string of the layouts above;
    [None] stands for its [ValueError]. *)
Definition fromisoformat (s : string) : option datetime :=
  fromisoformat_chars (list_ascii_of_string s).

(** A decimal digit. *)
Definition is_digit (c : ascii) : bool :=
  match digit_val c with Some _ => true | None => false end.

(** The string begins with a four-digit year, as every string the library
    parses does. *)
Definition starts_with_year (cs : list ascii) : bool :=
  match cs with
  | a :: b :: c :: d :: _ => is_digit a && is_digit b && is_digit c && is_digit d
  | _ => false
  end.

(** Strings the library refuses with [ValueError] whatever their other
    characters are: those that do not begin with a four-digit year, and
    those that begin with [YYYY-MM-DD] for a day that is not in the
    calendar (year 0, month 13, 30 February). *)
Definition unparseable (s : string) : bool :=
  let cs := list_ascii_of_string s in
  negb (starts_with_year cs)
  || match parse_isoformat_date cs with
     | Some (y, m, d, _) => negb (date_fields_ok y m d)
     | None => false
     end.

End Datetime.
Export Datetime.

(** ** The world: clock and files, and the monad of effectful code *)

Module IO.

(** What a path holds: a document [json.load] rejects (not JSON, not UTF-8,
    or not readable), or one it decodes to a value. *)
Inductive file_state : Type :=
  | Unreadable
  | Json (v : pyval).

(** What happens to the next [open(path, 'w')] ... [json.dump]: it succeeds,
    [open] fails (the file is untouched), or the write fails after [open]
    truncated the file. *)
Inductive fault : Type :=
  | NoFault
  | OpenFails
  | DumpFails.

Record world : Type := mkworld {
  files : gmap string file_state;
  clock : nat -> datetime;   (* the successive readings of the system clock *)
  ticks : nat;               (* how many readings were taken *)
  faults : list fault        (* outcomes of the coming writes; none = success *)
}.

Definition M (A : Type) : Type := world -> result A * world.

Definition ret {A} (a : A) : M A := fun w => (Ok a, w).

Definition raise {A} (e : exn) : M A := fun w => (Raise e, w).

Definition bind {A B} (m : M A) (k : A -> M B) : M B :=
  fun w =>
    match m w with
    | (Ok a, w') => k a w'
    | (Raise e, w') => (Raise e, w')
    end.

(** [try: m except Exception: h]. *)
Definition try_except {A} (m : M A) (h : exn -> M A) : M A :=
  fun w =>
    match m w with
    | (Ok a, w') => (Ok a, w')
    | (Raise e, w') => h e w'
    end.

Notation "'do' x <~ m ; k" := (bind m (fun x => k))
  (at level 10, x name, m at level 100, k at level 200).

(** [datetime.datetime.now()]. *)
Definition now : M datetime :=
  fun w => (Ok (clock w (ticks w)),
            mkworld (files w) (clock w) (S (ticks w)) (faults w)).

(** [datetime.date.today()]. *)
Definition today : M date :=
  do t <~ now ; ret (date_of t).

(** [os.path.exists(path)]. *)
Definition path_exists (path : string) : M bool :=
  fun w => (Ok (bool_decide (is_Some (files w !! path))), w).

(** [with open(path, 'r', encoding='utf-8') as f: json.load(f)]. *)
Definition json_load_file (path : string) : M pyval :=
  fun w =>
    match files w !! path with
    | Some (Json v) => (Ok v, w)
    | Some Unreadable => (Raise JSONDecodeError, w)
    | None => (Raise OSError, w)
    end.

(** [with open(path, 'w', encoding='utf-8') as f: json.dump(data, f, ...)]. *)
Definition json_dump_file (path : string) (data : pyval) : M unit :=
  fun w =>
    match faults w with
    | [] =>
        (Ok tt, mkworld (<[path := Json data]> (files w)) (clock w) (ticks w) [])
    | NoFault :: fs =>
        (Ok tt, mkworld (<[path := Json data]> (files w)) (clock w) (ticks w) fs)
    | OpenFails :: fs =>
        (Raise OSError, mkworld (files w) (clock w) (ticks w) fs)
    | DumpFails :: fs =>
        (Raise OSError,
         mkworld (<[path := Unreadable]> (files w)) (clock w) (ticks w) fs)
    end.

(** [item.get(key, default)]: only a dict has the method. *)
Definition py_get (item : pyval) (key : string) (dflt : pyval) : M pyval :=
  match item with
  | PyDict d => ret (default dflt (d !! key))
  | _ => raise AttributeError
  end.

(** [for item in data]: the items a value iterates over. *)
Definition py_iter (data : pyval) : M (list pyval) :=
  match data with
  | PyList l => ret l
  | PyDict d => ret (map (fun kv => PyStr (fst kv)) (map_to_list d))
  | PyStr s => ret (map (fun c => PyStr (String c EmptyString)) (list_ascii_of_string s))
  | _ => raise TypeError
  end.

(** [datetime.datetime.fromisoformat(v)]: [TypeError] unless [v] is a
    string, [ValueError] when the string does not parse. *)
Definition datetime_fromisoformat (v : pyval) : M datetime :=
  match v with
  | PyStr s =>
      match fromisoformat s with
      | Some t => ret t
      | None => raise ValueError
      end
  | _ => raise TypeError
  end.

End IO.
Export IO.

(** ** Strings: [str.strip], [str.rstrip], [str.isalnum] on ASCII text *)

Module Str.

Definition code (c : ascii) : Z := Z.of_N (N_of_ascii c).

(** [c.isspace()] of an ASCII character: tab to carriage return, the four
    separators, space.  Python counts white space beyond ASCII too (U+0085,
    U+00A0, U+2000 to U+200A, U+3000 and others), so [strip] below is
    [str.strip] on ASCII text ([is_ascii]); the properties that depend on
    what [strip] removes are stated for such text. *)
Definition isspace (c : ascii) : bool :=
  ((9 <=? code c) && (code c <=? 13))
  || ((28 <=? code c) && (code c <=? 32)).

(** [c.isalnum()] of an ASCII character: a digit or a letter.  Python
    counts letters and digits beyond ASCII too. *)
Definition isalnum (c : ascii) : bool :=
  ((48 <=? code c) && (code c <=? 57))
  || ((65 <=? code c) && (code c <=? 90))
  || ((97 <=? code c) && (code c <=? 122)).

Fixpoint dropwhile (p : ascii -> bool) (cs : list ascii) : list ascii :=
  match cs with
  | [] => []
  | c :: r => if p c then dropwhile p r else cs
  end.

Definition lstrip_chars (cs : list ascii) : list ascii := dropwhile isspace cs.

Definition rstrip_chars (cs : list ascii) : list ascii :=
  rev (dropwhile isspace (rev cs)).

Definition rstrip (s : string) : string :=
  string_of_list_ascii (rstrip_chars (list_ascii_of_string s)).

Definition strip (s : string) : string :=
  string_of_list_ascii (rstrip_chars (lstrip_chars (list_ascii_of_string s))).

(** [not s]: the empty string is falsy. *)
Definition is_empty (s : string) : bool :=
  match s with EmptyString => true | _ => false end.

End Str.
Export Str.

(** ** class [User]: the journal store of one session *)

Module Journal.

(** A journal entry is the tuple [(date, content)]. *)
Definition journal_entry : Type := datetime * pyval.

Record User : Type := mkUser {
  _username : string;
  _partner : string;
  _journal_password : option string;        (* [None] until set *)
  _journal_entries : list journal_entry;
  _journal_file : string
}.

Definition with_entries (u : User) (es : list journal_entry) : User :=
  mkUser (_username u) (_partner u) (_journal_password u) es (_journal_file u).

(** The [date] argument of [add_journal_entry] when it is given: a
    [datetime.date] that is not a [datetime.datetime], or a
    [datetime.datetime]. *)
Inductive date_arg : Type :=
  | ADate (d : date)
  | ADatetime (t : datetime).

(** The [safe_name] of [__init__]: the characters kept, then [rstrip]. *)
Definition safe_name (username : string) : string :=
  rstrip (string_of_list_ascii
            (filter (fun c => isalnum c || Ascii.eqb c " " || Ascii.eqb c "."
                              || Ascii.eqb c "_")
                    (list_ascii_of_string username))).

(** [journals_<safe_name>.json], in the working directory. *)
Definition journal_file_of (username : string) : string :=
  ("journals_" ++ safe_name username ++ ".json")%string.

Definition set_journal_password (u : User) (pwd : string) : User :=
  mkUser (_username u) (_partner u) (Some pwd) (_journal_entries u)
         (_journal_file u).

(** [self._journal_password == pwd]. *)
Definition check_journal_password (u : User) (pwd : string) : bool :=
  match _journal_password u with
  | Some p => String.eqb p pwd
  | None => false
  end.

(** One record of the saved document. *)
Definition record_of (e : journal_entry) : pyval :=
  PyDict (<["content" := snd e]> (<["date" := PyStr (isoformat (fst e))]> ∅)).

Definition _save_journals (u : User) : M unit :=
  let data := PyList (map record_of (_journal_entries u)) in
  try_except (json_dump_file (_journal_file u) data) (fun _ => ret tt).

Definition add_journal_entry (u : User) (entry : string)
    (date : option date_arg) : M User :=
  do dt <~ match date with
        | None => now
        | Some (ADate d) => ret (midnight d)
        | Some (ADatetime t) => ret t
        end ;
  let u' := with_entries u (_journal_entries u ++ [(dt, PyStr entry)]) in
  do _ <~ try_except (_save_journals u') (fun _ => ret tt) ;
  ret u'.

Definition get_journal_entries (u : User) : list journal_entry := _journal_entries u.

(** The body of the [for item in data] loop, over the entries appended so
    far. *)
Fixpoint load_items (items : list pyval) (acc : list journal_entry) : M (list journal_entry) :=
  match items with
  | [] => ret acc
  | item :: rest =>
      do dt <~ try_except
              (do d <~ py_get item "date" PyNone ; datetime_fromisoformat d)
              (fun _ => now) ;
      do c <~ py_get item "content" (PyStr EmptyString) ;
      load_items rest (acc ++ [(dt, c)])
  end.

Definition _load_journals (u : User) : M User :=
  do present <~ path_exists (_journal_file u) ;
  if negb present then ret u
  else
    try_except
      (do data <~ json_load_file (_journal_file u) ;
       do items <~ py_iter data ;
       do es <~ load_items items [] ;
       ret (with_entries u es))
      (fun _ => ret (with_entries u [])).

(** [User(username, partner)]. *)
Definition User_init (username partner : string) : M User :=
  _load_journals (mkUser username partner None [] (journal_file_of username)).

End Journal.
Export Journal.

(** ** class [DailyAffirmationProvider] *)

Module Affirmation.

(** [self.affirmations] of the application. *)
Definition affirmations : list string :=
  [ "Kamu cantik, di dalam dan di luar.";
    "Kamu hebat dalam caramu sendiri.";
    "Kamu kuat lebih dari yang kamu kira.";
    "Kamu baik dan penuh kasih sayang.";
    "Kamu layak dicintai dan diperlakukan baik.";
    "Kamu pantas menerima ketenangan.";
    "Kamu cukup apa adanya.";
    "Kamu berharga.";
    "Kamu tidak sendiri.";
    "Kamu boleh istirahat hari ini.";
    "Kamu berhak atas batasan yang sehat.";
    "Kamu boleh memilih diri sendiri.";
    "Kamu tidak harus sempurna untuk dicintai.";
    "Kamu berani karena kamu terus mencoba.";
    "Kamu punya kekuatan dalam kelembutan.";
    "Kamu boleh menetapkan batas.";
    "Kamu layak mendapatkan rasa aman.";
    "Kamu berhak merasa tenang.";
    "Kamu mampu mengatasi ini perlahan-lahan.";
    "Kamu pantas mendapat dukungan." ].

(** [ordinal % len(self._affirmations)]; Python's [%] by a positive number
    is [Z.modulo]. *)
Definition daily_index (ordinal : Z) (n : nat) : Z := ordinal mod Z.of_nat n.

(** [self._affirmations[index]] for an index that is not negative. *)
Definition list_index {A} (l : list A) (i : Z) : M A :=
  match l !! Z.to_nat i with
  | Some a => ret a
  | None => raise IndexError
  end.

(** [DailyAffirmationProvider.get_affirmation]. *)
Definition get_affirmation (_affirmations : list string) : M string :=
  do d <~ today ;
  if (length _affirmations =? 0)%nat then raise ZeroDivisionError
  else list_index _affirmations (daily_index (toordinal d) (length _affirmations)).

End Affirmation.
Export Affirmation.

(** ** class [StackManager] *)

Module Stack.

Section StackManager.
Context {A : Type}.

Record StackManager : Type := mkStack { _stack : list A }.

Definition new_stack : StackManager := mkStack [].

(** [self._stack.append(item)]. *)
Definition push (s : StackManager) (item : A) : StackManager :=
  mkStack (_stack s ++ [item]).

(** [l.pop()] of a Python list: [IndexError] on the empty list. *)
Definition list_pop (l : list A) : result (A * list A) :=
  match last l with
  | Some x => Ok (x, removelast l)
  | None => Raise IndexError
  end.

(** [l[-1]]. *)
Definition list_last (l : list A) : result A :=
  match last l with
  | Some x => Ok x
  | None => Raise IndexError
  end.

(** [bool(l)]: a list is truthy when it is not empty. *)
Definition truthy (l : list A) : bool :=
  match l with [] => false | _ => true end.

(** [pop]: the item, or [None] when the stack is empty. *)
Definition pop (s : StackManager) : result (option A * StackManager) :=
  if truthy (_stack s) then
    match list_pop (_stack s) with
    | Ok (x, l') => Ok (Some x, mkStack l')
    | Raise e => Raise e
    end
  else Ok (None, s).

(** [peek]. *)
Definition peek (s : StackManager) : result (option A) :=
  if truthy (_stack s) then
    match list_last (_stack s) with
    | Ok x => Ok (Some x)
    | Raise e => Raise e
    end
  else Ok None.

Definition list_all (s : StackManager) : list A := _stack s.

End StackManager.
Arguments StackManager A : clear implicits.

End Stack.
Export Stack.

(** ** [do_login]: the login button of the application *)

Module Login.

(** The placeholder texts of the two entry fields. *)
Definition username_placeholder : string := "Masukkan nama kamu...".
Definition partner_placeholder : string := "Nama pasangan (opsional)...".

(** The fallback journal password. *)
Definition fallback_password : string := "mine123".

Record App : Type := mkApp { current_user : option User }.

(** [do_login], given the texts [username_entry.get()] and
    [partner_entry.get()].  The warning box and the screen change are
    presentation and left out. *)
Definition do_login (app : App) (username_text partner_text : string) : M App :=
  let uname := strip username_text in
  let partner := strip partner_text in
  if is_empty uname || String.eqb uname username_placeholder then ret app
  else
    do u <~ User_init uname partner ;
    if negb (is_empty partner) && negb (String.eqb partner partner_placeholder)
    then ret (mkApp (Some (set_journal_password u partner)))
    else ret (mkApp (Some (set_journal_password u fallback_password))).

End Login.
Export Login.

(** ** The red-flag checker: [ans_yes], [ans_no], [next_q] *)

Module RedFlag.

(** The five questions of [_open_red_flag_detector]. *)
Definition n_items : Z := 5.

(** What the result box shows. *)
Record verdict : Type := mkverdict {
  v_count : Z; v_level : string; v_suggestion : string
}.

Record checker : Type := mkchecker {
  idx : Z;                      (* the [IntVar] *)
  answers : list Z;
  shown : option verdict        (* the result box, once it was shown *)
}.

Definition start : checker := mkchecker 0 [] None.

(** [sum(answers)]. *)
Definition sum (l : list Z) : Z := fold_left Z.add l 0.

(** The tier labels of the result box. *)
Definition level_safe : string := "Hijau (Aman)".
Definition level_caution : string := "Kuning (Waspada)".
Definition level_risk : string := "Merah (Berisiko)".

(** The [if count == 0 ... elif count <= 2 ... else ...] of [next_q]. *)
Definition classify (count : Z) : verdict :=
  if count =? 0 then
    mkverdict count level_safe "Terus pertahankan batas sehat."
  else if count <=? 2 then
    mkverdict count level_caution "Waspadai, bicarakan dengan orang terpercaya."
  else
    mkverdict count level_risk
      "Pertimbangkan dukungan profesional dan rencana keselamatan.".

Definition next_q (c : checker) : checker :=
  let i := idx c + 1 in
  if i <? n_items then mkchecker i (answers c) (shown c)
  else mkchecker (idx c) (answers c) (Some (classify (sum (answers c)))).

Definition ans_yes (c : checker) : checker :=
  next_q (mkchecker (idx c) (answers c ++ [1]) (shown c)).

Definition ans_no (c : checker) : checker :=
  next_q (mkchecker (idx c) (answers c ++ [0]) (shown c)).

(** A run of button presses ([true] is the yes button); once the result is
    shown the screen is replaced and the buttons are gone. *)
Fixpoint press (c : checker) (clicks : list bool) : checker :=
  match clicks with
  | [] => c
  | b :: rest =>
      match shown c with
      | Some _ => c
      | None => press (if b then ans_yes c else ans_no c) rest
      end
  end.

(** The number of yes answers. *)
Definition yes_count (clicks : list bool) : Z :=
  Z.of_nat (length (filter (fun b => Is_true b) clicks)).

End RedFlag.
Export RedFlag.

(** ** Vocabulary of the properties *)

Module Props.

(** The timestamp [add_journal_entry] stores for its [date] argument, in
    world [w]. *)
Definition stamp_of (date : option date_arg) (w : world) : datetime :=
  match date with
  | None => clock w (ticks w)
  | Some (ADate d) => midnight d
  | Some (ADatetime t) => t
  end.

(** The pair a round trip is compared on: content, and the timestamp cut
    to the minute. *)
Definition minute_key (e : journal_entry) : pyval * datetime :=
  (snd e, truncate_to_minute (fst e)).

(** The coming write to the journal file goes through. *)
Definition next_write_succeeds (w : world) : bool :=
  match faults w with
  | [] | NoFault :: _ => true
  | _ => false
  end.

(** The timestamp a record carries, when it carries a string of the
    layouts [fromisoformat] reads. *)
Definition parsed_date (d : gmap string pyval) : option datetime :=
  match d !! "date" with
  | Some (PyStr s) => fromisoformat s
  | _ => None
  end.

(** The record carries no timestamp the library can parse: it has no
    [date] (the default [None] is not a string), its [date] is not a
    string, or it is a string of [unparseable]. *)
Definition date_unparseable (d : gmap string pyval) : bool :=
  match d !! "date" with
  | Some (PyStr s) => unparseable s
  | _ => true
  end.

(** What the loop of this model does with record [item], read while the
    clock went from reading [lo] to reading [hi] of world [w]: the content
    of entry [e] is the record's, or the empty string when the key is
    missing; the timestamp is the one [fromisoformat] reads, or else a
    clock reading taken during the load. *)
Definition loaded_from (w : world) (lo hi : nat) (item : pyval) (e : journal_entry) : Prop :=
  exists d, item = PyDict d
    /\ snd e = default (PyStr EmptyString) (d !! "content")
    /\ match parsed_date d with
       | Some t => fst e = t
       | None => exists k, (lo <= k < hi)%nat /\ fst e = clock w k
       end.


(** A world with no files, a clock stuck at 2024-03-09 07:05:30, and no
    write faults ahead. *)
Definition quiet_world : world :=
  mkworld ∅ (fun _ => mkdatetime 2024 3 9 7 5 30 0) 0 [].

End Props.
Export Props.

(** One step of the option monad on a known value. *)
Ltac option_step := cbn [mbind option_bind].

(** ** More of the application: the screens around the core *)

From Stdlib Require Import Sorted.
From stdpp Require Import pretty.

#[local] Open Scope Z_scope.
#[local] Open Scope list_scope.

(** *** Runs of stack operations *)

Module StackRuns.

Section Runs.
Context {A : Type}.

(** [push] called on each item in turn. *)
Definition push_all (s : StackManager A) (items : list A) : StackManager A :=
  fold_left push items s.

(** [pop] called [n] times; the values returned, first pop first. *)
Fixpoint pop_n (n : nat) (s : StackManager A)
  : result (list (option A) * StackManager A) :=
  match n with
  | O => Ok ([], s)
  | S n' =>
      match pop s with
      | Ok (x, s') =>
          match pop_n n' s' with
          | Ok (xs, s'') => Ok (x :: xs, s'')
          | Raise e => Raise e
          end
      | Raise e => Raise e
      end
  end.

End Runs.

End StackRuns.
Export StackRuns.

(** *** [_add_placeholder]: the focus handlers of an entry field *)

Module Placeholder.

(** What happens to an entry field: it gains or loses the focus, or the
    user edits its text. *)
Inductive field_event : Type :=
  | FocusIn
  | FocusOut
  | Edit (text : string).

(** [entry.insert(0, placeholder)] on the text of the entry. *)
Definition _add_placeholder (placeholder : string) (text : string) : string :=
  (placeholder ++ text)%string.

(** [on_focus_in]: a field showing the placeholder is cleared. *)
Definition on_focus_in (placeholder : string) (text : string) : string :=
  if String.eqb text placeholder then EmptyString else text.

(** [on_focus_out]: an empty field shows the placeholder again. *)
Definition on_focus_out (placeholder : string) (text : string) : string :=
  if is_empty text then placeholder else text.

Definition field_step (placeholder : string) (text : string) (ev : field_event)
  : string :=
  match ev with
  | FocusIn => on_focus_in placeholder text
  | FocusOut => on_focus_out placeholder text
  | Edit t => t
  end.

(** The text of a new entry field after [_add_placeholder] and a run of
    events. *)
Definition field_text (placeholder : string) (evs : list field_event) : string :=
  fold_left (field_step placeholder) evs (_add_placeholder placeholder EmptyString).

(** The user never edited the field. *)
Definition untouched (evs : list field_event) : Prop :=
  Forall (fun ev => match ev with Edit _ => False | _ => True end) evs.

End Placeholder.
Export Placeholder.

(** *** [_open_healing_journal]: the password gate of the journal screen *)

Module Gate.

Inductive gate : Type :=
  | Cancelled        (* the dialog was dismissed *)
  | NoPartner        (* error box: no partner name was given at login *)
  | WrongPassword    (* error box: wrong password *)
  | Opened.          (* the journal screen is built *)

(** The checks at the head of [_open_healing_journal]; [pwd] is what
    [simpledialog.askstring] returned. *)
Definition _open_healing_journal (u : User) (pwd : option string) : gate :=
  match pwd with
  | None => Cancelled
  | Some pwd =>
      let partner_name := _partner u in
      if is_empty partner_name
         || String.eqb (strip partner_name) EmptyString
         || String.eqb partner_name partner_placeholder
      then NoPartner
      else if negb (String.eqb pwd partner_name) then WrongPassword
      else Opened
  end.

End Gate.
Export Gate.

(** *** Red-flag answers as the list holds them *)

Module RedFlagRuns.

(** What a button press appends to [answers]. *)
Definition answer_bit (b : bool) : Z := if b then 1 else 0.

End RedFlagRuns.
Export RedFlagRuns.

(** *** Well-formed timestamps *)

Module Wellformed.

(** Every reading of the clock is a real calendar date-time, as
    [datetime.datetime.now()] guarantees. *)
Definition clock_ok (w : world) : Prop :=
  forall k : nat, datetime_ok (clock w k) = true.

(** Every timestamp of a store is a real calendar date-time. *)
Definition entries_ok (es : list journal_entry) : Prop :=
  Forall (fun e => datetime_ok (fst e) = true) es.

(** The [date] argument is a real calendar date or date-time. *)
Definition date_arg_ok (date : option date_arg) : Prop :=
  match date with
  | None => True
  | Some (ADate d) => date_ok d = true
  | Some (ADatetime t) => datetime_ok t = true
  end.

(** The record's [date] is one the model covers: a timestamp of the
    layouts [fromisoformat] reads, or one the library cannot parse. *)
Definition date_in_model (d : gmap string pyval) : bool :=
  date_unparseable d
  || match parsed_date d with Some _ => true | None => false end.

(** Every object of a JSON array carries a [date] the model covers.  A
    [date] with a UTC offset is not one: the library parses it into an
    offset-aware value. *)
Definition dates_in_model (v : pyval) : bool :=
  match v with
  | PyList items =>
      forallb (fun item => match item with
                           | PyDict d => date_in_model d
                           | _ => true
                           end) items
  | _ => true
  end.

(** A document that is a JSON array of objects. *)
Definition is_record_array (v : pyval) : bool :=
  match v with
  | PyList items => forallb is_dict items
  | _ => false
  end.

(** The character passes the test of [safe_name]. *)
Definition kept_in_file_name (c : ascii) : bool :=
  isalnum c || Ascii.eqb c " " || Ascii.eqb c "." || Ascii.eqb c "_".

End Wellformed.
Export Wellformed.

(** *** ASCII text *)

Module Text.

(** Every character of the string is an ASCII character; on such strings
    [isalnum], [isspace] and [strip] are exactly Python's. *)
Definition is_ascii (s : string) : Prop :=
  Forall (fun c => code c < 128) (list_ascii_of_string s).

End Text.
Export Text.

(** *** [group_by_date]: the entries of the journey screen, by day *)

Module Journey.

(** Comparison of two tuples of integers, first difference first. *)
Fixpoint lex_compare (a b : list Z) : comparison :=
  match a, b with
  | [], [] => Eq
  | [], _ :: _ => Lt
  | _ :: _, [] => Gt
  | x :: a', y :: b' =>
      match x ?= y with
      | Eq => lex_compare a' b'
      | c => c
      end
  end.

Definition lex_ltb (a b : list Z) : bool :=
  match lex_compare a b with Lt => true | _ => false end.

(** The tuple two naive [datetime] values are compared on. *)
Definition datetime_fields (t : datetime) : list Z :=
  [year t; month t; day t; hour t; minute t; second t; microsecond t].

(** The code points two strings are compared on. *)
Definition str_codes (s : string) : list Z := map code (list_ascii_of_string s).

Section Sort.
Context {A : Type} (key : A -> list Z).

(** Where a stable sort puts [x], which stood before all of the sorted
    [l]: after the items whose key is smaller, before the others. *)
Fixpoint insert_by (x : A) (l : list A) : list A :=
  match l with
  | [] => [x]
  | y :: l' => if lex_ltb (key y) (key x) then y :: insert_by x l' else x :: l
  end.

(** [l.sort(key=...)], [sorted(l, key=...)]: the stable ascending order. *)
Fixpoint sort_by (l : list A) : list A :=
  match l with
  | [] => []
  | x :: l' => insert_by x (sort_by l')
  end.

(** [sorted(l, key=..., reverse=r)]: with [reverse] the list is reversed,
    sorted, and reversed again, which keeps the sort stable. *)
Definition sorted_by (reverse : bool) (l : list A) : list A :=
  if reverse then rev (sort_by (rev l)) else sort_by l.

(** [x] does not come after [y]. *)
Definition key_le (x y : A) : Prop := lex_ltb (key y) (key x) = false.

(** [x] comes strictly before [y]. *)
Definition key_lt (x y : A) : Prop := lex_ltb (key x) (key y) = true.

End Sort.

(** [d.isoformat()] of a date: [YYYY-MM-DD]. *)
Definition date_isoformat (d : date) : string :=
  string_of_list_ascii
    (zfill 4 (d_year d) ++ "-"%char :: zfill 2 (d_month d)
     ++ "-"%char :: zfill 2 (d_day d)).

(** The key an entry is grouped under: [dt.date().isoformat()]. *)
Definition day_key (e : journal_entry) : string :=
  date_isoformat (date_of (fst e)).

(** The key the entries are sorted on ([it[0]]), and the key the groups
    are ([kv[0]]). *)
Definition entry_key (it : journal_entry) : list Z := datetime_fields (fst it).
Definition group_key (kv : string * list journal_entry) : list Z := str_codes (fst kv).

(** [groups.setdefault(key, []).append(e)] on a dict in insertion order. *)
Fixpoint setdefault_append (key : string) (e : journal_entry)
    (groups : list (string * list journal_entry))
  : list (string * list journal_entry) :=
  match groups with
  | [] => [(key, [e])]
  | (k, es) :: rest =>
      if String.eqb k key then (k, es ++ [e]) :: rest
      else (k, es) :: setdefault_append key e rest
  end.

(** [group_by_date]; [newest] is [sort_var.get() == "newest"].  The sort
    compares timestamps; on the naive timestamps of this model it cannot
    fail.  (On a store that mixes in an offset-aware timestamp, read from a
    file, the comparison raises [TypeError]: the properties of this
    function are stated for stores of well-formed naive timestamps,
    [entries_ok].) *)
Definition group_by_date (u : User) (newest : bool)
  : list (string * list journal_entry) :=
  let entries := sort_by entry_key (get_journal_entries u) in
  let groups :=
    fold_left (fun groups e => setdefault_append (day_key e) e groups) entries [] in
  sorted_by group_key newest groups.

(** The entries of all groups, in the order of the groups. *)
Definition flatten (groups : list (string * list journal_entry)) : list journal_entry :=
  concat (map snd groups).

(** The code points of the day an entry is grouped under. *)
Definition day_codes (e : journal_entry) : list Z := str_codes (day_key e).

(** The [groups] dict of [group_by_date] when its loop is over, in
    insertion order. *)
Definition groups_dict (u : User) : list (string * list journal_entry) :=
  fold_left (fun groups e => setdefault_append (day_key e) e groups)
            (sort_by entry_key (get_journal_entries u)) [].

(** What the grouping loop keeps true of [groups] after the entries
    [done]: the keys are distinct, every group holds exactly the entries of
    its day in the order they came, and every entry's day has a group. *)
Definition grouped (groups : list (string * list journal_entry))
    (done : list journal_entry) : Prop :=
  NoDup (map fst groups)
  /\ (forall k es, In (k, es) groups ->
        es <> [] /\ es = filter (fun e => day_key e = k) done)
  /\ (forall e, In e done -> In (day_key e) (map fst groups)).

End Journey.
Export Journey.

(** *** [save_entry] and [save_mood]: what the two input screens store *)

Module Screens.

(** The digits of [int(s)]: decimal digits, with single underscores allowed
    between two digits. *)
Fixpoint int_digits (acc : Z) (after_digit : bool) (cs : list ascii) : option Z :=
  match cs with
  | [] => if after_digit then Some acc else None
  | c :: r =>
      if Ascii.eqb c "_" then
        if after_digit then int_digits acc false r else None
      else
        match digit_val c with
        | Some d => int_digits (10 * acc + d) true r
        | None => None
        end
  end.

(** The white space [int] drops around the digits of an ASCII string: tab
    to carriage return, and space.  The separators 0x1C to 0x1F, which
    [strip] drops, are not among them. *)
Definition int_space (c : ascii) : bool :=
  ((9 <=? code c) && (code c <=? 13)) || (code c =? 32).

(** The most digits [int] converts from a decimal string
    ([sys.int_info.default_max_str_digits]). *)
Definition max_str_digits : nat := 4300.

(** The digits of a string, underscores not counted. *)
Definition count_digits (cs : list ascii) : nat :=
  length (filter (fun c => is_digit c) cs).

(** [int(s)] on an ASCII string: white space around is dropped, one sign is
    allowed, and more than [max_str_digits] digits are refused; [None]
    stands for the [ValueError]. *)
Definition py_int (s : string) : option Z :=
  match rev (dropwhile int_space
               (rev (dropwhile int_space (list_ascii_of_string s)))) with
  | c :: ds =>
      let digits := if Ascii.eqb c "-" || Ascii.eqb c "+" then ds else c :: ds in
      n ← int_digits 0 false digits;
      if (max_str_digits <? count_digits digits)%nat then None
      else Some (if Ascii.eqb c "-" then - n else n)
  | [] => None
  end.

(** [int(s)] inside a [try]. *)
Definition int_of (s : string) : M Z :=
  match py_int s with
  | Some n => ret n
  | None => raise ValueError
  end.

(** [datetime.datetime(y, m, d, h, mi)]. *)
Definition datetime_of_fields (y m d h mi : Z) : M datetime :=
  match datetime_new y m d h mi 0 0 with
  | Some t => ret t
  | None => raise ValueError
  end.

(** [l[i]] with Python's negative indices. *)
Definition py_index {A} (l : list A) (i : Z) : result A :=
  let n := Z.of_nat (length l) in
  let j := if i <? 0 then i + n else i in
  if (j <? 0) || (n <=? j) then Raise IndexError
  else match l !! Z.to_nat j with
       | Some a => Ok a
       | None => Raise IndexError
       end.

(** What the journal screen holds when "Simpan Entri" is pressed: the five
    spin boxes and the text area. *)
Record journal_form : Type := mkjournal_form {
  day_sb : string; month_sb : string; year_sb : string;
  hour_sb_j : string; min_sb_j : string;
  text : string
}.

Inductive feedback : Type :=
  | Saved       (* "Entri jurnal tersimpan." *)
  | Empty.      (* "Isi dulu jurnalnya ya." *)

(** [save_entry] of [_open_healing_journal]. *)
Definition save_entry (u : User) (f : journal_form) : M (User * feedback) :=
  do entry_date <~
    try_except
      (do d <~ int_of (day_sb f) ;
       do m <~ int_of (month_sb f) ;
       do y <~ int_of (year_sb f) ;
       do h <~ int_of (hour_sb_j f) ;
       do mi <~ int_of (min_sb_j f) ;
       datetime_of_fields y m d h mi)
      (fun _ => now) ;
  let content := strip (text f) in
  if negb (is_empty content) then
    do u' <~ add_journal_entry u content (Some (ADatetime entry_date)) ;
    ret (u', Saved)
  else ret (u, Empty).

(** The items of the action stack: a mood record, or a saved affirmation. *)
Inductive action : Type :=
  | MoodAction (date : datetime) (mood : Z) (note : string)
  | SavedAffirmation (saved_aff : string) (date : datetime).

(** What the mood screen holds when "Simpan" is pressed. *)
Record mood_form : Type := mkmood_form {
  mood_var : Z; note_entry : string; hour_sb : string; min_sb : string
}.

Definition emojis : list string :=
  ["😢"; "😕"; "😐"; "🙂"; "😄"; "😂"; "🥰"; "😇"; "✨"; "🫶🏻"; "💸"].

(** The line break of the journal texts. *)
Definition newline : string := String (ascii_of_nat 10) EmptyString.

(** The message of the box, by mood. *)
Definition mood_message (mood : Z) : string :=
  if 4 <=? mood then
    "Kamu sudah melakukan hari ini dengan sangat baik. Istirahatlah untuk hadapi hari esok yang ceria 💖"
  else if mood =? 3 then
    "Kamu melakukan yang terbaik hari ini — beri dirimu istirahat ya."
  else
    "Terima kasih karena sudah bertahan hari ini. Istirahat dulu, besok coba lagi.".

(** [f"Mood: {emoji} ({mood})\n{note}"]. *)
Definition mood_content (mood : Z) (note : string) : string :=
  let emoji := match py_index emojis (mood - 1) with
               | Ok e => e
               | Raise _ => pretty mood
               end in
  ("Mood: " ++ emoji ++ " (" ++ pretty mood ++ ")" ++ newline ++ note)%string.

(** What the message box of [save_mood] shows. *)
Record mood_box : Type := mkmood_box { box_msg : string; box_affirmation : string }.

(** [save_mood] of [_open_mood_tracker], on the user and the action
    stack.  The home screen built at the end is presentation and left
    out. *)
Definition save_mood (u : User) (stack : StackManager action) (f : mood_form)
  : M (User * StackManager action * mood_box) :=
  let mood := mood_var f in
  let note := strip (note_entry f) in
  do entry_dt <~
    try_except
      (do h <~ int_of (hour_sb f) ;
       do mi <~ int_of (min_sb f) ;
       do t <~ now ;
       datetime_of_fields (year t) (month t) (day t) h mi)
      (fun _ => now) ;
  let stack' := push stack (MoodAction entry_dt mood note) in
  let msg := mood_message mood in
  do extra <~ get_affirmation affirmations ;
  do u' <~ add_journal_entry u (mood_content mood note) (Some (ADatetime entry_dt)) ;
  ret (u', stack', mkmood_box msg extra).

(** The date-time the spin boxes of the journal screen spell, when all
    five hold integers that form a real calendar date-time. *)
Definition form_date (f : journal_form) : option datetime :=
  d ← py_int (day_sb f); m ← py_int (month_sb f); y ← py_int (year_sb f);
  h ← py_int (hour_sb_j f); mi ← py_int (min_sb_j f);
  datetime_new y m d h mi 0 0.


End Screens.
Export Screens.

(** *** [_sub_partner] and the relationship scan *)

Module Scan.

(** [cs.startswith(old)]. *)
Fixpoint is_prefix (old cs : list ascii) : bool :=
  match old, cs with
  | [], _ => true
  | _ :: _, [] => false
  | a :: old', c :: cs' => Ascii.eqb a c && is_prefix old' cs'
  end.

(** [s.replace(old, new)] for a non-empty [old]: the occurrences are taken
    from the left and do not overlap.  [skip] counts the characters of an
    occurrence still to be passed over. *)
Fixpoint replace_from (old new : list ascii) (skip : nat) (cs : list ascii)
  : list ascii :=
  match cs with
  | [] => []
  | c :: r =>
      match skip with
      | S k => replace_from old new k r
      | O =>
          if is_prefix old cs
          then new ++ replace_from old new (length old - 1) r
          else c :: replace_from old new 0 r
      end
  end.

(** With an empty [old], [new] is put before every character and at the
    end. *)
Fixpoint intersperse (new cs : list ascii) : list ascii :=
  match cs with
  | [] => new
  | c :: r => new ++ c :: intersperse new r
  end.

Definition str_replace (s old new : string) : string :=
  let o := list_ascii_of_string old in
  let n := list_ascii_of_string new in
  let cs := list_ascii_of_string s in
  string_of_list_ascii
    (match o with
     | [] => intersperse n cs
     | _ => replace_from o n 0 cs
     end).

(** [f"'{partner}'"]. *)
Definition quoted (partner : string) : string := ("'" ++ partner ++ "'")%string.

(** [_sub_partner]; [current_user] is [None] before login, and then the
    attribute access fails and is caught. *)
Definition _sub_partner (current_user : option User) (text : string) : string :=
  match current_user with
  | None => text
  | Some u =>
      let partner := _partner u in
      if negb (is_empty partner) && negb (is_empty (strip partner))
         && negb (String.eqb partner partner_placeholder)
      then str_replace (str_replace text "pasanganmu" (quoted partner))
                       "pasangan" (quoted partner)
      else text
  end.

Definition base_questions : list string :=
  [ "Apakah pasanganmu mendukung impianmu?";
    "Apakah pasangan menghargai perasaanmu?";
    "Apakah komunikasi berjalan terbuka?";
    "Apakah ada pengendalian berlebih dari pasangan?";
    "Apakah pasangan mau minta maaf saat salah?";
    "Apakah kalian bisa berbagi tanggung jawab?";
    "Apakah pasangan mendengarkan ketika kamu butuh bicara?";
    "Apakah kamu merasa dihargai?";
    "Apakah ada rasa aman bersama pasangan?";
    "Apakah pasangan mendukung waktu pribadimu?";
    "Apakah pasangan menghormati batasanmu?";
    "Apakah konflik bisa diselesaikan dengan sehat?";
    "Apakah pasangan menunjukkan empati?";
    "Apakah pasangan memberimu ruang untuk tumbuh?";
    "Apakah pasangan terbuka soal perasaannya?";
    "Apakah pasangan mengapresiasi usahamu?";
    "Apakah hubungan kalian memberi rasa tenang?";
    "Apakah keputusan penting dibicarakan bersama?";
    "Apakah pasangan memberi dukungan emosional?";
    "Apakah ada kejujuran dalam hubungan?";
    "Apakah pasangan menghargai keluargamu?";
    "Apakah ada toleransi terhadap perbedaan?";
    "Apakah pasangan menjaga komitmen?";
    "Apakah pasangan mendorong kemandirianmu?";
    "Apakah pasangan hadir saat kamu butuh?";
    "Apakah komunikasi non-verbal terasa nyaman?";
    "Apakah pasangan menerima kekuranganmu?";
    "Apakah pasangan menyemangati mimpimu?";
    "Apakah pasangan mendukung kesehatan mentalmu?";
    "Apakah ada saling berbagi kegembiraan?";
    "Apakah pasangan menghindari perilaku merendahkan?";
    "Apakah pasangan memberi ruang untuk hobi?";
    "Apakah ada rasa saling percaya?";
    "Apakah pasangan bertanggung jawab secara finansial bersama?";
    "Apakah pasangan menghormati privasimu?";
    "Apakah pasangan membantu saat kamu lelah?";
    "Apakah pasangan menunjukkan rasa terima kasih?";
    "Apakah pasangan menghindari manipulasi emosional?";
    "Apakah ada upaya memperbaiki saat salah?";
    "Apakah hubungan memberikan energi positif?";
    "Apakah pasangan memberi umpan balik yang membangun?";
    "Apakah pasangan menghormati pendapatmu?";
    "Apakah ada rasa aman dalam berbagi rahasia?";
    "Apakah pasangan menepati janji?";
    "Apakah kalian menikmati waktu berkualitas bersama?";
    "Apakah pasangan peka terhadap kebutuhanmu?";
    "Apakah ada kemauan berkembang bersama?";
    "Apakah pasangan mendukung keputusan kariermu?";
    "Apakah komunikasi tetap hangat meski sibuk?" ].

(** [l[i]] of a list for an index that is not negative, inside the loop. *)
Definition list_get (l : list string) (i : Z) : result string :=
  match l !! Z.to_nat i with
  | Some q => Ok q
  | None => Raise IndexError
  end.

(** The loop [while len(questions) < 50: ...] of [_open_relationship_scan];
    [None] when the fuel runs out. *)
Fixpoint questions_loop (fuel : nat) (current_user : option User)
    (base : list string) (questions : list string) (i : Z)
  : option (result (list string)) :=
  if (length questions <? 50)%nat then
    match fuel with
    | O => None
    | S fuel' =>
        if (length base =? 0)%nat then Some (Raise ZeroDivisionError)
        else
          match list_get base (i mod Z.of_nat (length base)) with
          | Ok q =>
              questions_loop fuel' current_user base
                (questions ++ [_sub_partner current_user q]) (i + 1)
          | Raise e => Some (Raise e)
          end
    end
  else Some (Ok questions).

(** The questions of the scan. *)
Definition build_questions (fuel : nat) (current_user : option User)
    (base : list string) : option (result (list string)) :=
  questions_loop fuel current_user base [] 0.

(** The variables of [_open_relationship_scan] that [submit_answer]
    reads and writes, and the screen it leaves. *)
Record scan : Type := mkscan {
  questions : list string;
  current_idx : Z;
  set_count : Z;
  set_answers : list Z;
  q_label : string;          (* the question on display *)
  at_home : bool             (* the home screen replaced the scan *)
}.

(** What the user is shown by one call: the next question, or the score
    box with [score] out of [total]. *)
Inductive shown_box : Type :=
  | NextQuestion
  | ScoreBox (score total : Z).

(** [questions[start:stop]] with Python's clamping of the bounds. *)
Definition py_slice {A} (l : list A) (start stop : Z) : list A :=
  let n := Z.of_nat (length l) in
  let norm i := if i <? 0 then Z.max 0 (i + n) else Z.min i n in
  let a := norm start in
  let b := norm stop in
  take (Z.to_nat (b - a)) (drop (Z.to_nat a) l).

(** One line of the summary: [f"{i}. {qtext} — {'Ya' or 'Tidak'}"]. *)
Definition summary_line (i : nat) (qtext : string) (ans_val : Z) : string :=
  (pretty i ++ ". " ++ qtext ++ " — " ++ (if (ans_val =? 1)%Z then "Ya" else "Tidak"))%string.

(** The lines for [enumerate(zip(qs, set_answers), start=i)]. *)
Fixpoint summary_lines (i : nat) (qs : list string) (answers : list Z) : list string :=
  match qs, answers with
  | q :: qs', a :: answers' => summary_line i q a :: summary_lines (S i) qs' answers'
  | _, _ => []
  end.

(** ["\n".join(lines)]. *)
Fixpoint join_lines (lines : list string) : string :=
  match lines with
  | [] => EmptyString
  | [l] => l
  | l :: rest => (l ++ newline ++ join_lines rest)%string
  end.

(** The journal text of one finished set. *)
Definition scan_content (qs : list string) (answers : list Z) : string :=
  ("Relationship Scan — Score " ++ pretty (RedFlag.sum answers) ++ "/"
   ++ pretty (length answers) ++ newline
   ++ join_lines (summary_lines 1 qs answers))%string.

(** [submit_answer(ans)]; [continue] is the answer to the "Lanjut" dialog,
    read only when the dialog is shown. *)
Definition submit_answer (u : User) (s : scan) (ans continue : bool)
  : M (User * scan * shown_box) :=
  let set_answers := set_answers s ++ [if ans then 1 else 0] in
  let set_count := set_count s + 1 in
  let current_idx := current_idx s + 1 in
  let n := Z.of_nat (length (questions s)) in
  if (10 <=? set_count) || (n <=? current_idx) then
    let score := RedFlag.sum set_answers in
    do u' <~
      try_except
        (let start_idx := current_idx - Z.of_nat (length set_answers) in
         let qs := py_slice (questions s) start_idx current_idx in
         let content := scan_content qs set_answers in
         do t <~ now ;
         add_journal_entry u content (Some (ADatetime t)))
        (fun _ => ret u) ;
    let box := ScoreBox score (Z.of_nat (length set_answers)) in
    if (current_idx <? n) && continue then
      match list_get (questions s) current_idx with
      | Ok q => ret (u', mkscan (questions s) current_idx 0 [] q false, box)
      | Raise e => raise e
      end
    else ret (u', mkscan (questions s) current_idx set_count set_answers (q_label s) true, box)
  else
    match list_get (questions s) current_idx with
    | Ok q => ret (u, mkscan (questions s) current_idx set_count set_answers q false,
                   NextQuestion)
    | Raise e => raise e
    end.

(** The scan as [_open_relationship_scan] sets it up. *)
Definition open_scan (qs : list string) (first : string) : scan :=
  mkscan qs 0 0 [] first false.

(** A run of answers, all dialogs answered with [continue]; the scan stops
    taking answers once the home screen is shown. *)
Fixpoint answer_all (u : User) (s : scan) (answers : list bool) (continue : bool)
  : M (User * scan) :=
  match answers with
  | [] => ret (u, s)
  | a :: rest =>
      if at_home s then ret (u, s)
      else
        do r <~ submit_answer u s a continue ;
        answer_all (fst (fst r)) (snd (fst r)) rest continue
  end.

End Scan.
Export Scan.

(** *** Substrings *)

Module Substring.

(** [old in cs]: [old] starts at some position of [cs]. *)
Fixpoint occurs (old cs : list ascii) : bool :=
  is_prefix old cs
  || match cs with
     | [] => false
     | _ :: r => occurs old r
     end.

(** [old in s]. *)
Definition str_contains (s old : string) : bool :=
  occurs (list_ascii_of_string old) (list_ascii_of_string s).

(** No partner name that [_sub_partner] would use. *)
Definition no_partner (current_user : option User) : Prop :=
  match current_user with
  | None => True
  | Some u =>
      is_empty (strip (_partner u)) = true \/ _partner u = partner_placeholder
  end.

End Substring.
Export Substring.

(** One step of the option monad in a hypothesis. *)
Ltac option_step_in H := cbn [mbind option_bind] in H.

(** * Worked values *)

Example isoformat_ex1 :
  isoformat (mkdatetime 2024 3 9 7 5 0 0) = "2024-03-09T07:05:00".
Proof. reflexivity. Qed.

Example isoformat_ex2 :
  isoformat (mkdatetime 1 1 1 23 59 58 42) = "0001-01-01T23:59:58.000042".
Proof. reflexivity. Qed.

Example fromisoformat_ex1 :
  fromisoformat "2024-03-09T07:05:00" = Some (mkdatetime 2024 3 9 7 5 0 0).
Proof. reflexivity. Qed.

Example fromisoformat_ex2 :
  fromisoformat "2024-02-30T07:05:00" = None.
Proof. reflexivity. Qed.

Example fromisoformat_ex3 :
  fromisoformat "2024-02-29" = Some (mkdatetime 2024 2 29 0 0 0 0).
Proof. reflexivity. Qed.

Example fromisoformat_ex4 : fromisoformat "kemarin" = None.
Proof. reflexivity. Qed.

(** A date and a separator with no time after it are refused. *)
Example fromisoformat_ex5 : fromisoformat "2024-01-02T" = None.
Proof. reflexivity. Qed.

Example unparseable_ex1 : unparseable "kemarin" = true.
Proof. reflexivity. Qed.

Example unparseable_ex2 : unparseable "2024-13-45T99:00:00" = true.
Proof. reflexivity. Qed.

(** A timestamp with a UTC offset is neither read by [fromisoformat] nor
    among the strings of [unparseable]: the library parses it, into a value
    outside the model. *)
Example unparseable_ex3 :
  unparseable "2024-01-02T03:04:05+07:00" = false
  /\ fromisoformat "2024-01-02T03:04:05+07:00" = None.
Proof. split; reflexivity. Qed.

Example toordinal_ex1 : toordinal (mkdate 1 1 1) = 1.
Proof. reflexivity. Qed.

Example toordinal_ex2 : toordinal (mkdate 9999 12 31) = 3652059.
Proof. reflexivity. Qed.

Example toordinal_ex3 : toordinal (mkdate 2024 3 1) = 738946.
Proof. reflexivity. Qed.

(** * Properties *)

(** ** Timestamps: [fromisoformat] inverts [isoformat] *)

Lemma digit_val_digit_of (d : Z) :
  0 <= d <= 9 -> digit_val (digit_of d) = Some d.
Proof.
  intros H.
  assert (d = 0 \/ d = 1 \/ d = 2 \/ d = 3 \/ d = 4 \/ d = 5 \/ d = 6
          \/ d = 7 \/ d = 8 \/ d = 9) as Hd by lia.
  repeat (destruct Hd as [-> | Hd]; [reflexivity |]).
  subst d. reflexivity.
Qed.

Lemma length_zfill (k : nat) (n : Z) : length (zfill k n) = k.
Proof.
  revert n. induction k as [| k IH]; intros n; simpl; [reflexivity |].
  rewrite length_app, IH. simpl. lia.
Qed.

Lemma int_of_digits_app (a b : list ascii) (acc : Z) :
  int_of_digits acc (a ++ b) =
  match int_of_digits acc a with
  | Some x => int_of_digits x b
  | None => None
  end.
Proof.
  revert acc. induction a as [| c a IH]; intros acc; simpl; [reflexivity |].
  destruct (digit_val c); [apply IH | reflexivity].
Qed.

Lemma int_of_digits_zfill (k : nat) (n acc : Z) :
  0 <= n < 10 ^ Z.of_nat k ->
  int_of_digits acc (zfill k n) = Some (acc * 10 ^ Z.of_nat k + n).
Proof.
  revert n acc. induction k as [| k IH]; intros n acc Hn.
  - simpl in *. f_equal. lia.
  - rewrite Nat2Z.inj_succ, Z.pow_succ_r in * by lia.
    pose proof (Z.div_mod n 10 ltac:(lia)) as Hdm.
    pose proof (Z.mod_pos_bound n 10 ltac:(lia)) as Hmod.
    assert (0 <= n / 10 < 10 ^ Z.of_nat k) as Hq by lia.
    simpl. rewrite int_of_digits_app, IH by assumption.
    simpl. rewrite digit_val_digit_of by lia.
    f_equal. lia.
Qed.

Lemma zfill_not_nil (k : nat) (n : Z) : (0 < k)%nat -> zfill k n <> [].
Proof.
  intros Hk Hnil. apply (f_equal length) in Hnil.
  rewrite length_zfill in Hnil. simpl in Hnil. lia.
Qed.

Lemma parse_int_zfill (k : nat) (n : Z) :
  (0 < k)%nat -> 0 <= n < 10 ^ Z.of_nat k -> parse_int (zfill k n) = Some n.
Proof.
  intros Hk Hn. unfold parse_int.
  destruct (zfill k n) eqn:E; [exfalso; revert E; apply zfill_not_nil, Hk |].
  rewrite <- E, int_of_digits_zfill by assumption. f_equal; lia.
Qed.

Lemma take_int_zfill (k : nat) (n : Z) (rest : list ascii) :
  (0 < k)%nat -> 0 <= n < 10 ^ Z.of_nat k ->
  take_int k (zfill k n ++ rest) = Some (n, rest).
Proof.
  intros Hk Hn. unfold take_int.
  rewrite take_app_length' by (symmetry; apply length_zfill).
  rewrite drop_app_length' by (symmetry; apply length_zfill).
  rewrite length_zfill, Nat.eqb_refl, parse_int_zfill by assumption.
  reflexivity.
Qed.

Lemma expect_cons (c : ascii) (r : list ascii) : expect c (c :: r) = Some r.
Proof. unfold expect. rewrite Ascii.eqb_refl. reflexivity. Qed.

Lemma days_in_month_le (y m : Z) : 28 <= days_in_month y m <= 31.
Proof.
  unfold days_in_month.
  repeat match goal with |- context [if ?b then _ else _] => destruct b end; lia.
Qed.

Lemma date_fields_ok_bounds (y m d : Z) :
  date_fields_ok y m d = true ->
  0 <= y < 10 ^ 4 /\ 0 <= m < 10 ^ 2 /\ 0 <= d < 10 ^ 2.
Proof.
  unfold date_fields_ok. rewrite !andb_true_iff, !Z.leb_le.
  pose proof (days_in_month_le y m). lia.
Qed.

Lemma time_fields_ok_bounds (h mi s us : Z) :
  time_fields_ok h mi s us = true ->
  0 <= h < 10 ^ 2 /\ 0 <= mi < 10 ^ 2 /\ 0 <= s < 10 ^ 2 /\ 0 <= us < 10 ^ 6.
Proof.
  unfold time_fields_ok. rewrite !andb_true_iff, !Z.leb_le. lia.
Qed.

Lemma parse_isoformat_date_zfill (y m d : Z) (rest : list ascii) :
  0 <= y < 10 ^ 4 -> 0 <= m < 10 ^ 2 -> 0 <= d < 10 ^ 2 ->
  parse_isoformat_date
    (zfill 4 y ++ "-"%char :: zfill 2 m ++ "-"%char :: zfill 2 d ++ rest)
  = Some (y, m, d, rest).
Proof.
  intros Hy Hm Hd. unfold parse_isoformat_date.
  rewrite (take_int_zfill 4) by (simpl; lia). option_step.
  rewrite expect_cons. option_step.
  rewrite (take_int_zfill 2) by (simpl; lia). option_step.
  rewrite expect_cons. option_step.
  rewrite (take_int_zfill 2) by (simpl; lia). reflexivity.
Qed.

Lemma parse_fraction_zfill (us : Z) :
  0 <= us < 10 ^ 6 -> parse_fraction (zfill 6 us) = Some us.
Proof.
  intros H. unfold parse_fraction.
  rewrite length_zfill. simpl Nat.eqb. cbv iota.
  apply (parse_int_zfill 6); simpl; lia.
Qed.

Lemma parse_hh_mm_ss_ff_zfill (h mi s us : Z) :
  0 <= h < 10 ^ 2 -> 0 <= mi < 10 ^ 2 -> 0 <= s < 10 ^ 2 -> 0 <= us < 10 ^ 6 ->
  parse_hh_mm_ss_ff
    (zfill 2 h ++ ":"%char :: zfill 2 mi ++ ":"%char :: zfill 2 s
     ++ (if us =? 0 then [] else "."%char :: zfill 6 us))
  = Some (h, mi, s, us).
Proof.
  intros Hh Hmi Hs Hus. unfold parse_hh_mm_ss_ff.
  rewrite (take_int_zfill 2) by (simpl; lia). option_step.
  rewrite expect_cons. option_step.
  rewrite (take_int_zfill 2) by (simpl; lia). option_step.
  rewrite expect_cons. option_step.
  rewrite (take_int_zfill 2) by (simpl; lia). option_step.
  destruct (us =? 0) eqn:E.
  - apply Z.eqb_eq in E. subst us. reflexivity.
  - cbv iota beta. rewrite expect_cons. option_step.
    rewrite parse_fraction_zfill by assumption. reflexivity.
Qed.

(** Reading back what [isoformat] printed gives the timestamp itself. *)
Lemma fromisoformat_isoformat (t : datetime) :
  datetime_ok t = true -> fromisoformat (isoformat t) = Some t.
Proof.
  intros Hok. unfold fromisoformat, isoformat.
  rewrite list_ascii_of_string_of_list_ascii.
  pose proof Hok as Hok'. unfold datetime_ok in Hok'.
  apply andb_true_iff in Hok' as [Hd Ht].
  destruct (date_fields_ok_bounds _ _ _ Hd) as (Hy & Hm & Hday).
  destruct (time_fields_ok_bounds _ _ _ _ Ht) as (Hh & Hmi & Hs & Hus).
  unfold fromisoformat_chars, isoformat_chars.
  rewrite parse_isoformat_date_zfill by assumption. option_step.
  match goal with
  | |- context [parse_hh_mm_ss_ff ?l] =>
      pose proof (parse_hh_mm_ss_ff_zfill _ _ _ _ Hh Hmi Hs Hus) as Hp;
      destruct l as [| c0 r0] eqn:E
  end.
  - exfalso. apply (f_equal length) in E.
    rewrite length_app, length_zfill in E. simpl in E. lia.
  - rewrite Hp. option_step.
    unfold datetime_new. rewrite Hd, Ht. simpl. destruct t; reflexivity.
Qed.



(** ** The monad: how [bind] and [try_except] run *)

Section MonadLaws.
Context {A B : Type}.

Lemma bind_ok (m : M A) (k : A -> M B) (w w' : world) (a : A) :
  m w = (Ok a, w') -> bind m k w = k a w'.
Proof. intros H. unfold bind. rewrite H. reflexivity. Qed.

Lemma bind_raise (m : M A) (k : A -> M B) (w w' : world) (e : exn) :
  m w = (Raise e, w') -> bind m k w = (Raise e, w').
Proof. intros H. unfold bind. rewrite H. reflexivity. Qed.

Lemma try_except_ok (m : M A) (h : exn -> M A) (w w' : world) (a : A) :
  m w = (Ok a, w') -> try_except m h w = (Ok a, w').
Proof. intros H. unfold try_except. rewrite H. reflexivity. Qed.

Lemma try_except_raise (m : M A) (h : exn -> M A) (w w' : world) (e : exn) :
  m w = (Raise e, w') -> try_except m h w = h e w'.
Proof. intros H. unfold try_except. rewrite H. reflexivity. Qed.

(** A handler that returns a value makes the whole [try] return one. *)
Lemma try_except_ret_total (m : M A) (a0 : A) (w : world) :
  exists a w', try_except m (fun _ => ret a0) w = (Ok a, w').
Proof.
  unfold try_except. destruct (m w) as [[a | e] w']; eauto.
Qed.

End MonadLaws.

(** ** Saving *)

(** The world after [_save_journals]: the document written, the file left
    alone, or the file left truncated, as the fault ahead decides. *)
Lemma _save_journals_run (u : User) (w : world) :
  _save_journals u w =
  (Ok tt,
   match faults w with
   | [] =>
       mkworld (<[_journal_file u := Json (PyList (map record_of (_journal_entries u)))]>
                  (files w)) (clock w) (ticks w) []
   | NoFault :: fs =>
       mkworld (<[_journal_file u := Json (PyList (map record_of (_journal_entries u)))]>
                  (files w)) (clock w) (ticks w) fs
   | OpenFails :: fs => mkworld (files w) (clock w) (ticks w) fs
   | DumpFails :: fs =>
       mkworld (<[_journal_file u := Unreadable]> (files w)) (clock w) (ticks w) fs
   end).
Proof.
  unfold _save_journals, try_except, json_dump_file, ret.
  destruct (faults w) as [| [] fs]; reflexivity.
Qed.

Lemma _save_journals_ok (u : User) (w : world) :
  exists w', _save_journals u w = (Ok tt, w')
             /\ clock w' = clock w /\ ticks w' = ticks w.
Proof.
  rewrite _save_journals_run. eexists. split; [reflexivity |].
  destruct (faults w) as [| [] fs]; split; reflexivity.
Qed.

(** ** Appending *)

Lemma add_journal_entry_run (u : User) (content : string)
    (date : option date_arg) (w : world) :
  exists w',
    add_journal_entry u content date w =
    (Ok (with_entries u (_journal_entries u ++ [(stamp_of date w, PyStr content)])), w').
Proof.
  unfold add_journal_entry.
  set (stamp := match date with
                | None => now
                | Some (ADate d) => ret (midnight d)
                | Some (ADatetime t) => ret t
                end).
  assert (exists w1, stamp w = (Ok (stamp_of date w), w1)) as [w1 Hstamp].
  { subst stamp. destruct date as [[d | t] |]; eexists; reflexivity. }
  rewrite (bind_ok _ _ _ _ _ Hstamp).
  match goal with
  | |- context [_save_journals ?u'] =>
      destruct (_save_journals_ok u' w1) as (w2 & Hsave & _ & _)
  end.
  erewrite bind_ok; [| apply try_except_ok, Hsave].
  eexists. reflexivity.
Qed.

(** C2. After [add_journal_entry], [get_journal_entries] contains an entry
    with exactly the given content; its timestamp is midnight of the date
    when a bare date was given, the given timestamp when a date-time was
    given, and the current clock reading when none was given. *)
Theorem add_then_list_contains_entry (u : User) (content : string)
    (date : option date_arg) (w : world) :
  exists u' w',
    add_journal_entry u content date w = (Ok u', w')
    /\ match date with
       | Some (ADate d) =>
           In (mkdatetime (d_year d) (d_month d) (d_day d) 0 0 0 0, PyStr content)
              (get_journal_entries u')
       | Some (ADatetime t) => In (t, PyStr content) (get_journal_entries u')
       | None => In (clock w (ticks w), PyStr content) (get_journal_entries u')
       end.
Proof.
  destruct (add_journal_entry_run u content date w) as [w' Hrun].
  eexists _, w'. split; [exact Hrun |].
  unfold get_journal_entries, with_entries. simpl.
  destruct date as [[d | t] |]; apply in_or_app; right; left; reflexivity.
Qed.

(** C3. [add_journal_entry] returns normally in every world, whatever
    happens to the write: the store afterwards is the old one with the new
    entry at its end.  When the write fails the exception stays inside:
    the file holds no document of the new store, and the call still
    returns. *)
Theorem add_journal_entry_never_raises (u : User) (content : string)
    (date : option date_arg) (w : world) :
  exists u' w',
    add_journal_entry u content date w = (Ok u', w')
    /\ _journal_entries u' =
       _journal_entries u ++ [(stamp_of date w, PyStr content)]
    /\ In (stamp_of date w, PyStr content) (get_journal_entries u')
    /\ (forall fs, faults w = OpenFails :: fs -> files w' = files w)
    /\ (forall fs, faults w = DumpFails :: fs ->
          files w' !! _journal_file u = Some Unreadable).
Proof.
  unfold add_journal_entry.
  set (stamp := match date with
                | None => now
                | Some (ADate d) => ret (midnight d)
                | Some (ADatetime t) => ret t
                end).
  assert (exists w1, stamp w = (Ok (stamp_of date w), w1)
                     /\ files w1 = files w /\ faults w1 = faults w)
    as (w1 & Hstamp & Hfiles & Hfaults).
  { subst stamp. destruct date as [[d | t] |]; eexists; repeat split. }
  rewrite (bind_ok _ _ _ _ _ Hstamp).
  erewrite bind_ok; [| apply try_except_ok, _save_journals_run].
  eexists _, _. split; [reflexivity |].
  unfold get_journal_entries, with_entries. simpl.
  repeat split.
  - apply in_or_app. right. left. reflexivity.
  - intros fs Hf. rewrite Hfaults, Hf. simpl. exact Hfiles.
  - intros fs Hf. rewrite Hfaults, Hf. simpl. apply lookup_insert_eq.
Qed.

(** The write itself does raise in such a world. *)
Example json_dump_file_raises :
  fst (json_dump_file "journals_Mine.json" (PyList [])
         (mkworld ∅ (clock quiet_world) 0 [OpenFails]))
  = Raise OSError.
Proof. reflexivity. Qed.

Example add_journal_entry_failed_write :
  let w := mkworld ∅ (clock quiet_world) 0 [OpenFails] in
  let u := mkUser "Mine" "Budi" None [] "journals_Mine.json" in
  exists w',
    add_journal_entry u "hari ini" None w
    = (Ok (with_entries u [(mkdatetime 2024 3 9 7 5 30 0, PyStr "hari ini")]), w')
    /\ files w' = ∅.
Proof. exists (mkworld ∅ (clock quiet_world) 1 []). split; reflexivity. Qed.

(** ** Loading *)

Lemma with_entries_file (u : User) (es : list journal_entry) :
  _journal_file (with_entries u es) = _journal_file u.
Proof. reflexivity. Qed.

Lemma py_get_dict (d : gmap string pyval) (key : string) (dflt : pyval) (w : world) :
  py_get (PyDict d) key dflt w = (Ok (default dflt (d !! key)), w).
Proof. reflexivity. Qed.

(** The timestamp step of the loop on a dict record: the parsed value and
    the clock untouched, or a clock reading. *)
Lemma load_date_step (d : gmap string pyval) (w : world) :
  try_except
    (do v <~ py_get (PyDict d) "date" PyNone ; datetime_fromisoformat v)
    (fun _ => now) w
  = match parsed_date d with
    | Some t => (Ok t, w)
    | None => now w
    end.
Proof.
  unfold try_except, bind, parsed_date. rewrite py_get_dict.
  destruct (d !! "date") as [[| | | | s | |] |]; simpl; try reflexivity.
  unfold datetime_fromisoformat. destruct (fromisoformat s); reflexivity.
Qed.

Lemma loaded_from_widen (w : world) (lo hi lo' hi' : nat) (item : pyval) (e : journal_entry) :
  (lo' <= lo)%nat -> (hi <= hi')%nat ->
  loaded_from w lo hi item e -> loaded_from w lo' hi' item e.
Proof.
  intros Hlo Hhi (d & -> & Hc & Hd). exists d. repeat split; [exact Hc |].
  destruct (parsed_date d); [exact Hd |].
  destruct Hd as (k & Hk & Hd). exists k. split; [lia | exact Hd].
Qed.

Lemma load_items_cons (item : pyval) (rest : list pyval) (acc : list journal_entry) :
  load_items (item :: rest) acc =
  (do dt <~ try_except
              (do d <~ py_get item "date" PyNone ; datetime_fromisoformat d)
              (fun _ => now) ;
   do c <~ py_get item "content" (PyStr EmptyString) ;
   load_items rest (acc ++ [(dt, c)])).
Proof. reflexivity. Qed.

(** The loop over a list of dict records: one entry per record, in order;
    only the clock advances. *)
Lemma load_items_dicts (items : list pyval) :
  Forall (fun v => is_dict v = true) items ->
  forall (acc : list journal_entry) (w : world),
  exists es n,
    load_items items acc w =
      (Ok (acc ++ es), mkworld (files w) (clock w) (ticks w + n) (faults w))
    /\ Forall2 (loaded_from w (ticks w) (ticks w + n)) items es.
Proof.
  induction 1 as [| item items Hitem _ IH]; intros acc w.
  - exists [], 0%nat. split; [| constructor].
    simpl. unfold ret. rewrite app_nil_r, Nat.add_0_r. destruct w; reflexivity.
  - destruct item as [| | | | | | d]; try discriminate Hitem.
    rewrite load_items_cons.
    unfold bind at 1. rewrite load_date_step.
    destruct (parsed_date d) as [t |] eqn:Hpd.
    + unfold bind at 1. rewrite py_get_dict.
      destruct (IH (acc ++ [(t, default (PyStr EmptyString) (d !! "content"))]) w)
        as (es & n & Hrun & Hall).
      exists ((t, default (PyStr EmptyString) (d !! "content")) :: es), n.
      split.
      * rewrite Hrun, <- app_assoc. reflexivity.
      * constructor; [| exact Hall].
        exists d. repeat split. simpl. rewrite Hpd. reflexivity.
    + unfold now at 1.
      unfold bind at 1. rewrite py_get_dict.
      set (w1 := mkworld (files w) (clock w) (S (ticks w)) (faults w)).
      destruct (IH (acc ++ [(clock w (ticks w), default (PyStr EmptyString) (d !! "content"))]) w1)
        as (es & n & Hrun & Hall).
      exists ((clock w (ticks w), default (PyStr EmptyString) (d !! "content")) :: es), (S n).
      split.
      * rewrite Hrun, <- app_assoc. subst w1. simpl.
        replace (S (ticks w + n))%nat with (ticks w + S n)%nat by lia. reflexivity.
      * constructor.
        -- exists d. repeat split. simpl. rewrite Hpd.
           exists (ticks w). split; [lia | reflexivity].
        -- eapply Forall2_impl; [exact Hall |].
           intros item e He. subst w1. simpl in He.
           destruct He as (d' & -> & Hc & Hd'). exists d'. repeat split; [exact Hc |].
           destruct (parsed_date d'); [exact Hd' |].
           destruct Hd' as (k & Hk & Hd'). exists k. split; [lia | exact Hd'].
Qed.

Lemma path_exists_run (path : string) (w : world) :
  path_exists path w =
  (Ok (match files w !! path with Some _ => true | None => false end), w).
Proof.
  unfold path_exists. destruct (files w !! path); reflexivity.
Qed.

Lemma _load_journals_missing (u : User) (w : world) :
  files w !! _journal_file u = None -> _load_journals u w = (Ok u, w).
Proof.
  intros H. unfold _load_journals.
  erewrite bind_ok by apply path_exists_run. rewrite H. reflexivity.
Qed.

Lemma _load_journals_present (u : User) (w : world) (f : file_state) :
  files w !! _journal_file u = Some f ->
  _load_journals u w =
  try_except
    (do data <~ json_load_file (_journal_file u) ;
     do items <~ py_iter data ;
     do es <~ load_items items [] ;
     ret (with_entries u es))
    (fun _ => ret (with_entries u [])) w.
Proof.
  intros H. unfold _load_journals.
  erewrite bind_ok by apply path_exists_run. rewrite H. reflexivity.
Qed.


Lemma _load_journals_records (u : User) (w : world) (items : list pyval) :
  files w !! _journal_file u = Some (Json (PyList items)) ->
  Forall (fun v => is_dict v = true) items ->
  exists es n,
    _load_journals u w =
      (Ok (with_entries u es),
       mkworld (files w) (clock w) (ticks w + n) (faults w))
    /\ Forall2 (loaded_from w (ticks w) (ticks w + n)) items es.
Proof.
  intros H Hd. rewrite (_load_journals_present _ _ _ H).
  destruct (load_items_dicts items Hd [] w) as (es & n & Hrun & Hall).
  exists es, n. split; [| exact Hall].
  apply try_except_ok.
  erewrite bind_ok; [| unfold json_load_file; rewrite H; reflexivity].
  erewrite bind_ok; [| reflexivity].
  erewrite bind_ok; [| exact Hrun].
  reflexivity.
Qed.



Lemma _load_journals_total (u : User) (w : world) :
  exists u' w', _load_journals u w = (Ok u', w').
Proof.
  destruct (files w !! _journal_file u) as [f |] eqn:H.
  - rewrite (_load_journals_present _ _ _ H). apply try_except_ret_total.
  - rewrite (_load_journals_missing _ _ H). eauto.
Qed.


(** ** Round trip through the journal file *)

Lemma record_of_date (e : journal_entry) :
  datetime_ok (fst e) = true ->
  exists d, record_of e = PyDict d
            /\ parsed_date d = Some (fst e)
            /\ d !! "content" = Some (snd e).
Proof.
  intros Hok. eexists. split; [reflexivity |]. split.
  - unfold parsed_date.
    rewrite lookup_insert_ne by discriminate. rewrite lookup_insert_eq.
    apply fromisoformat_isoformat, Hok.
  - apply lookup_insert_eq.
Qed.

(** Reading back the records of a store rebuilds its entries, without
    consulting the clock. *)
Lemma load_items_records (es : list journal_entry) :
  Forall (fun e => datetime_ok (fst e) = true) es ->
  forall (acc : list journal_entry) (w : world),
    load_items (map record_of es) acc w = (Ok (acc ++ es), w).
Proof.
  induction 1 as [| e es He _ IH]; intros acc w.
  - simpl. unfold ret. rewrite app_nil_r. reflexivity.
  - destruct (record_of_date e He) as (d & Hrec & Hdate & Hcontent).
    rewrite map_cons, load_items_cons, Hrec.
    unfold bind at 1. rewrite load_date_step, Hdate.
    unfold bind at 1. rewrite py_get_dict, Hcontent. simpl default.
    rewrite IH, <- app_assoc. destruct e; reflexivity.
Qed.

(** C1. When the write goes through, saving a store whose timestamps are
    well-formed and loading the file again (into any user object bound to
    the same file) gives back the same entries, in the same order and with
    their full timestamps; so in particular the same multiset of
    (content, timestamp cut to the minute) pairs. *)
Theorem save_load_roundtrip (u u0 : User) (w : world) :
  Forall (fun e => datetime_ok (fst e) = true) (_journal_entries u) ->
  next_write_succeeds w = true ->
  _journal_file u0 = _journal_file u ->
  exists w1 w2 u',
    _save_journals u w = (Ok tt, w1)
    /\ _load_journals u0 w1 = (Ok u', w2)
    /\ _journal_entries u' = _journal_entries u
    /\ Permutation (map minute_key (_journal_entries u'))
                   (map minute_key (_journal_entries u)).
Proof.
  intros Hok Hw Hfile.
  set (doc := Json (PyList (map record_of (_journal_entries u)))).
  assert (exists w1, _save_journals u w = (Ok tt, w1)
                     /\ files w1 !! _journal_file u0 = Some doc)
    as (w1 & Hsave & Hdoc).
  { rewrite _save_journals_run. eexists. split; [reflexivity |].
    unfold next_write_succeeds in Hw. rewrite Hfile.
    destruct (faults w) as [| [] fs]; try discriminate Hw;
      simpl; apply lookup_insert_eq. }
  exists w1, w1, (with_entries u0 (_journal_entries u)).
  split; [exact Hsave |].
  assert (_load_journals u0 w1 = (Ok (with_entries u0 (_journal_entries u)), w1))
    as Hload.
  { rewrite (_load_journals_present _ _ _ Hdoc).
    apply try_except_ok.
    erewrite bind_ok; [| unfold json_load_file; rewrite Hdoc; reflexivity].
    erewrite bind_ok; [| reflexivity].
    erewrite bind_ok; [| apply load_items_records, Hok].
    reflexivity. }
  split; [exact Hload |]. split; reflexivity.
Qed.

Lemma save_load_roundtrip_witness :
  let u := mkUser "Mine" "Budi" (Some "Budi")
             [(mkdatetime 2024 3 9 7 5 30 123456, PyStr "hari yang baik");
              (mkdatetime 2023 12 31 23 59 0 0, PyStr EmptyString)]
             "journals_Mine.json" in
  exists w1 w2 u',
    _save_journals u quiet_world = (Ok tt, w1)
    /\ _load_journals u w1 = (Ok u', w2)
    /\ _journal_entries u' = _journal_entries u
    /\ Permutation (map minute_key (_journal_entries u'))
                   (map minute_key (_journal_entries u)).
Proof.
  intros u. apply (save_load_roundtrip u u quiet_world).
  - repeat constructor.
  - reflexivity.
  - reflexivity.
Defined.

(** ** Loading: concrete files *)

(** A record with an unparseable date is kept, stamped with the clock; its
    neighbour keeps its own timestamp. *)
Example load_unparseable_date :
  let doc := PyList
    [ PyDict (<["content" := PyStr "a"]> (<["date" := PyStr "kemarin"]> ∅));
      PyDict (<["content" := PyStr "b"]> (<["date" := PyStr "2024-01-02T03:04:05"]> ∅)) ] in
  let w := mkworld (<["journals_Mine.json" := Json doc]> ∅) (clock quiet_world) 0 [] in
  let u := mkUser "Mine" "Budi" None [] "journals_Mine.json" in
  fst (_load_journals u w)
  = Ok (with_entries u [ (mkdatetime 2024 3 9 7 5 30 0, PyStr "a");
                         (mkdatetime 2024 1 2 3 4 5 0, PyStr "b") ]).
Proof. vm_compute. reflexivity. Qed.

(** A record that is not an object makes the whole load give the empty
    store. *)
Example load_non_object_record :
  let doc := PyList
    [ PyDict (<["content" := PyStr "a"]> (<["date" := PyStr "2024-01-02T03:04:05"]> ∅));
      PyInt 7 ] in
  let w := mkworld (<["journals_Mine.json" := Json doc]> ∅) (clock quiet_world) 0 [] in
  let u := mkUser "Mine" "Budi" None [(mkdatetime 2020 1 1 0 0 0 0, PyStr "x")]
             "journals_Mine.json" in
  fst (_load_journals u w) = Ok (with_entries u []).
Proof. vm_compute. reflexivity. Qed.

(** A document that is not an array gives the empty store. *)
Example load_non_array_document :
  let w := mkworld (<["journals_Mine.json" := Json (PyInt 5)]> ∅) (clock quiet_world) 0 [] in
  let u := mkUser "Mine" "Budi" None [(mkdatetime 2020 1 1 0 0 0 0, PyStr "x")]
             "journals_Mine.json" in
  fst (_load_journals u w) = Ok (with_entries u []).
Proof. vm_compute. reflexivity. Qed.

(** ** Loading: the content of a record *)

(** C10. When the file is a JSON array of objects the load does not fail
    and gives one entry per record; a record without the [content] key
    gives an entry whose content is the empty string; a [content] that is
    present is loaded as it is; so when every [content] that is present is
    a string, as the file format has it, every loaded entry has a string
    content. *)
Theorem load_missing_content_is_empty_string (u : User) (w : world)
    (items : list pyval) :
  files w !! _journal_file u = Some (Json (PyList items)) ->
  Forall (fun v => is_dict v = true) items ->
  exists u' w',
    _load_journals u w = (Ok u', w')
    /\ length (_journal_entries u') = length items
    /\ (forall (i : nat) d, items !! i = Some (PyDict d) ->
          d !! "content" = None ->
          exists dt, _journal_entries u' !! i = Some (dt, PyStr EmptyString))
    /\ (forall (i : nat) d c, items !! i = Some (PyDict d) ->
          d !! "content" = Some c ->
          exists dt, _journal_entries u' !! i = Some (dt, c))
    /\ (Forall (fun v => forall d c, v = PyDict d -> d !! "content" = Some c ->
                                     is_str c = true) items ->
        Forall (fun e => is_str (snd e) = true) (_journal_entries u')).
Proof.
  intros Hfile Hd.
  destruct (_load_journals_records u w items Hfile Hd) as (es & n & Hrun & Hall).
  eexists _, _. split; [exact Hrun |]. cbn [_journal_entries with_entries].
  split; [symmetry; eapply Forall2_length, Hall |]. split; [| split].
  - intros i d Hi Hnone.
    destruct (Forall2_lookup_l _ _ _ _ _ Hall Hi) as ([dt c] & He & d' & [= <-] & Hc & _).
    exists dt. rewrite Hnone in Hc. simpl in Hc. subst c. exact He.
  - intros i d c0 Hi Hsome.
    destruct (Forall2_lookup_l _ _ _ _ _ Hall Hi) as ([dt c] & He & d' & [= <-] & Hc & _).
    exists dt. rewrite Hsome in Hc. simpl in Hc. subst c. exact He.
  - intros Hstr. clear Hrun Hfile Hd.
    induction Hall as [| item e items es (d & -> & Hc & _) _ IH]; [constructor |].
    apply Forall_cons in Hstr as [Hitem Hstr].
    constructor; [| apply IH, Hstr].
    rewrite Hc. destruct (d !! "content") as [c |] eqn:E; simpl.
    + apply (Hitem d c eq_refl E).
    + reflexivity.
Qed.

Lemma load_missing_content_is_empty_string_witness :
  let doc := PyList [ PyDict (<["date" := PyStr "2024-01-02T03:04:05"]> ∅) ] in
  let w := mkworld (<["journals_Mine.json" := Json doc]> ∅) (clock quiet_world) 0 [] in
  let u := mkUser "Mine" "Budi" None [] "journals_Mine.json" in
  exists u' w',
    _load_journals u w = (Ok u', w')
    /\ length (_journal_entries u') = 1%nat
    /\ (forall (i : nat) d,
          [PyDict (<["date" := PyStr "2024-01-02T03:04:05"]> ∅)] !! i = Some (PyDict d) ->
          d !! "content" = None ->
          exists dt, _journal_entries u' !! i = Some (dt, PyStr EmptyString))
    /\ (forall (i : nat) d c,
          [PyDict (<["date" := PyStr "2024-01-02T03:04:05"]> ∅)] !! i = Some (PyDict d) ->
          d !! "content" = Some c ->
          exists dt, _journal_entries u' !! i = Some (dt, c))
    /\ (Forall (fun v => forall d c, v = PyDict d -> d !! "content" = Some c ->
                                     is_str c = true)
               [PyDict (<["date" := PyStr "2024-01-02T03:04:05"]> ∅)] ->
        Forall (fun e => is_str (snd e) = true) (_journal_entries u')).
Proof.
  intros doc w u.
  apply (load_missing_content_is_empty_string u w
           [PyDict (<["date" := PyStr "2024-01-02T03:04:05"]> ∅)]).
  - reflexivity.
  - repeat constructor.
Defined.

(** A record without [content], loaded. *)
Example load_record_without_content :
  let doc := PyList [ PyDict (<["date" := PyStr "2024-01-02T03:04:05"]> ∅) ] in
  let w := mkworld (<["journals_Mine.json" := Json doc]> ∅) (clock quiet_world) 0 [] in
  let u := mkUser "Mine" "Budi" None [] "journals_Mine.json" in
  fst (_load_journals u w)
  = Ok (with_entries u [(mkdatetime 2024 1 2 3 4 5 0, PyStr EmptyString)]).
Proof. vm_compute. reflexivity. Qed.

(** The default is for a missing key only: a record that has the
    [content] key with the value [null] is loaded with that value. *)
Example load_null_content :
  let doc := PyList
    [ PyDict (<["content" := PyNone]> (<["date" := PyStr "2024-01-02T03:04:05"]> ∅)) ] in
  let w := mkworld (<["journals_Mine.json" := Json doc]> ∅) (clock quiet_world) 0 [] in
  let u := mkUser "Mine" "Budi" None [] "journals_Mine.json" in
  exists u' w',
    _load_journals u w = (Ok u', w')
    /\ _journal_entries u' = [(mkdatetime 2024 1 2 3 4 5 0, PyNone)]
    /\ ~ Forall (fun e => is_str (snd e) = true) (_journal_entries u').
Proof.
  intros doc w u.
  exists (with_entries u [(mkdatetime 2024 1 2 3 4 5 0, PyNone)]), w.
  split; [vm_compute; reflexivity |]. split; [reflexivity |].
  intros H. apply Forall_cons in H as [H _]. discriminate H.
Qed.

(** ** Daily affirmation *)

Lemma daily_index_bounds (ordinal : Z) (n : nat) :
  (0 < n)%nat -> 0 <= daily_index ordinal n < Z.of_nat n.
Proof.
  intros Hn. unfold daily_index. apply Z.mod_pos_bound. lia.
Qed.

Lemma get_affirmation_run (affs : list string) (w : world) :
  affs <> [] ->
  exists a,
    affs !! Z.to_nat (daily_index (toordinal (date_of (clock w (ticks w)))) (length affs))
      = Some a
    /\ get_affirmation affs w
       = (Ok a, mkworld (files w) (clock w) (S (ticks w)) (faults w)).
Proof.
  intros Hne.
  assert (0 < length affs)%nat as Hlen by (destruct affs; [congruence | simpl; lia]).
  pose proof (daily_index_bounds (toordinal (date_of (clock w (ticks w)))) _ Hlen) as Hb.
  destruct (lookup_lt_is_Some_2 affs
              (Z.to_nat (daily_index (toordinal (date_of (clock w (ticks w))))
                                     (length affs)))) as [a Ha]; [lia |].
  exists a. split; [exact Ha |].
  unfold get_affirmation.
  erewrite bind_ok; [| reflexivity].
  destruct (Nat.eqb_spec (length affs) 0) as [E | _]; [lia |].
  unfold list_index. cbn [date_of clock ticks]. rewrite Ha. reflexivity.
Qed.

(** C5. Over a non-empty list of [N] affirmations, [get_affirmation]
    returns the element at index (ordinal of today) mod [N]; that index is
    in [0, N-1] for every ordinal (day 1 and the last day of year 9999
    included); two calls on the same local date return the same text; and
    when two calls return different texts their local dates differ. *)
Theorem daily_affirmation_by_ordinal (affs : list string) (w : world) :
  affs <> [] ->
  let today_date := date_of (clock w (ticks w)) in
  let index := toordinal today_date mod Z.of_nat (length affs) in
  (exists a, affs !! Z.to_nat index = Some a
             /\ fst (get_affirmation affs w) = Ok a)
  /\ (forall ordinal : Z,
        0 <= daily_index ordinal (length affs) <= Z.of_nat (length affs) - 1)
  /\ 0 <= daily_index (toordinal (mkdate 1 1 1)) (length affs)
          <= Z.of_nat (length affs) - 1
  /\ 0 <= daily_index (toordinal (mkdate 9999 12 31)) (length affs)
          <= Z.of_nat (length affs) - 1
  /\ (forall w2 : world,
        date_of (clock w2 (ticks w2)) = today_date ->
        fst (get_affirmation affs w2) = fst (get_affirmation affs w))
  /\ (forall w2 : world,
        fst (get_affirmation affs w2) <> fst (get_affirmation affs w) ->
        date_of (clock w2 (ticks w2)) <> today_date).
Proof.
  intros Hne today_date index.
  assert (0 < length affs)%nat as Hlen by (destruct affs; [congruence | simpl; lia]).
  assert (forall ordinal : Z,
            0 <= daily_index ordinal (length affs) <= Z.of_nat (length affs) - 1)
    as Hall.
  { intros ordinal. pose proof (daily_index_bounds ordinal _ Hlen). lia. }
  assert (forall w2 : world,
            date_of (clock w2 (ticks w2)) = today_date ->
            fst (get_affirmation affs w2) = fst (get_affirmation affs w))
    as Hsame.
  { intros w2 Hd.
    destruct (get_affirmation_run affs w Hne) as (a & Ha & Hrun).
    destruct (get_affirmation_run affs w2 Hne) as (a2 & Ha2 & Hrun2).
    rewrite Hrun, Hrun2. simpl. rewrite Hd in Ha2. fold today_date in Ha.
    congruence. }
  split; [| repeat split; try apply Hall; [exact Hsame |]].
  - destruct (get_affirmation_run affs w Hne) as (a & Ha & Hrun).
    exists a. split; [exact Ha | rewrite Hrun; reflexivity].
  - intros w2 Hdiff Hd. apply Hdiff, Hsame, Hd.
Qed.

Lemma daily_affirmation_by_ordinal_witness :
  affirmations <> []
  /\ (exists a,
        affirmations !! Z.to_nat (toordinal (mkdate 2024 3 9) mod 20) = Some a
        /\ fst (get_affirmation affirmations quiet_world) = Ok a).
Proof.
  split; [discriminate |].
  apply (daily_affirmation_by_ordinal affirmations quiet_world). discriminate.
Defined.

Example get_affirmation_today :
  fst (get_affirmation affirmations quiet_world) = Ok "Kamu punya kekuatan dalam kelembutan.".
Proof. vm_compute. reflexivity. Qed.

Example get_affirmation_empty_list :
  fst (get_affirmation [] quiet_world) = Raise ZeroDivisionError.
Proof. reflexivity. Qed.

(** ** The action stack *)

Section StackFacts.
Context {A : Type}.

Lemma truthy_snoc (l : list A) (x : A) : truthy (l ++ [x]) = true.
Proof. destruct l; reflexivity. Qed.

Lemma pop_push (s : StackManager A) (x : A) : pop (push s x) = Ok (Some x, s).
Proof.
  destruct s as [l]. unfold pop, push, list_pop. cbn [_stack].
  rewrite truthy_snoc, last_snoc, removelast_last. reflexivity.
Qed.

Lemma peek_push (s : StackManager A) (x : A) : peek (push s x) = Ok (Some x).
Proof.
  destruct s as [l]. unfold peek, push, list_last. cbn [_stack].
  rewrite truthy_snoc, last_snoc. reflexivity.
Qed.

End StackFacts.

(** C6. Pushing [a], [b], [c] and popping three times gives [c], [b], [a]
    in that order and leaves the stack as it was; on the empty stack a
    further [pop], and [peek], return [None] and do not raise. *)
Theorem stack_is_lifo {A : Type} (s : StackManager A) (a b c : A) :
  pop (push (push (push s a) b) c) = Ok (Some c, push (push s a) b)
  /\ pop (push (push s a) b) = Ok (Some b, push s a)
  /\ pop (push s a) = Ok (Some a, s)
  /\ pop (@new_stack A) = Ok (None, new_stack)
  /\ peek (@new_stack A) = Ok None.
Proof.
  repeat split; try apply pop_push.
Qed.

Example stack_three_then_empty :
  let s3 := push (push (push new_stack 1) 2) 3 in
  exists s2 s1 s0,
    pop s3 = Ok (Some 3, s2) /\ pop s2 = Ok (Some 2, s1)
    /\ pop s1 = Ok (Some 1, s0) /\ pop s0 = Ok (None, s0).
Proof. eexists _, _, _. repeat split. Qed.

(** ** Red-flag scoring *)

Lemma classify_tiers (count : Z) :
  v_count (classify count) = count
  /\ (count = 0 -> v_level (classify count) = level_safe)
  /\ (1 <= count <= 2 -> v_level (classify count) = level_caution)
  /\ (3 <= count -> v_level (classify count) = level_risk).
Proof.
  unfold classify.
  destruct (Z.eqb_spec count 0) as [-> | Hne]; [repeat split; intros; lia |].
  destruct (Z.leb_spec count 2) as [Hle | Hgt]; repeat split; intros; lia.
Qed.

Lemma press_five_answers (a1 a2 a3 a4 a5 : bool) :
  shown (press start [a1; a2; a3; a4; a5])
  = Some (classify (yes_count [a1; a2; a3; a4; a5])).
Proof. destruct a1, a2, a3, a4, a5; reflexivity. Qed.

(** C7. After five answers the result box shows the number of yes answers
    and its tier: none is the safe tier, one or two the caution tier, three
    or more the risk tier. *)
Theorem red_flag_tiers (a1 a2 a3 a4 a5 : bool) :
  let clicks := [a1; a2; a3; a4; a5] in
  let count := yes_count clicks in
  shown (press start clicks) = Some (classify count)
  /\ v_count (classify count) = count
  /\ (count = 0 -> v_level (classify count) = level_safe)
  /\ (1 <= count <= 2 -> v_level (classify count) = level_caution)
  /\ (3 <= count -> v_level (classify count) = level_risk)
  /\ v_level (classify (yes_count [true; true; true; false; false])) = level_risk
  /\ v_level (classify (yes_count [false; false; false; false; false])) = level_safe
  /\ v_level (classify (yes_count [true; false; false; false; false])) = level_caution.
Proof.
  intros clicks count.
  split; [apply press_five_answers |].
  destruct (classify_tiers count) as (H0 & H1 & H2 & H3).
  repeat split; assumption || reflexivity.
Qed.

Example red_flag_three_yes :
  shown (press start [true; true; true; false; false])
  = Some (mkverdict 3 "Merah (Berisiko)"
            "Pertimbangkan dukungan profesional dan rencana keselamatan.").
Proof. reflexivity. Qed.

Example red_flag_no_yes :
  shown (press start [false; false; false; false; false])
  = Some (mkverdict 0 "Hijau (Aman)" "Terus pertahankan batas sehat.").
Proof. reflexivity. Qed.

Example red_flag_one_yes :
  shown (press start [true; false; false; false; false])
  = Some (mkverdict 1 "Kuning (Waspada)"
            "Waspadai, bicarakan dengan orang terpercaya.").
Proof. reflexivity. Qed.

(** Before the fifth answer nothing is shown. *)
Example red_flag_four_answers :
  shown (press start [true; true; true; true]) = None.
Proof. reflexivity. Qed.

(** ** The journal password *)

(** C8. Once a secret is set, [check_journal_password] is true exactly for
    the candidate equal to it, character for character: any other string,
    the empty string and case variants included, is refused.  Before a
    secret is set every candidate is refused. *)
Theorem check_journal_password_exact (u : User) (secret candidate : string) :
  (check_journal_password (set_journal_password u secret) candidate = true
     <-> candidate = secret)
  /\ (candidate <> secret ->
        check_journal_password (set_journal_password u secret) candidate = false)
  /\ (secret <> EmptyString ->
        check_journal_password (set_journal_password u secret) EmptyString = false)
  /\ check_journal_password (mkUser (_username u) (_partner u) None
                               (_journal_entries u) (_journal_file u))
                            candidate = false.
Proof.
  unfold check_journal_password, set_journal_password. cbn [_journal_password].
  repeat split.
  - intros H. apply String.eqb_eq in H. congruence.
  - intros ->. apply String.eqb_refl.
  - intros Hne. apply String.eqb_neq. congruence.
  - intros Hne. apply String.eqb_neq. exact Hne.
Qed.

Example check_journal_password_case_variant :
  let u := set_journal_password (mkUser "Mine" "Budi" None [] "journals_Mine.json") "Budi" in
  check_journal_password u "Budi" = true
  /\ check_journal_password u "budi" = false
  /\ check_journal_password u "BUDI" = false
  /\ check_journal_password u EmptyString = false
  /\ check_journal_password u "Budi " = false.
Proof. repeat split. Qed.

(** ** Login *)



(** An untouched partner field holds its placeholder text.  No partner name
    was supplied then: the password is the constant, and the placeholder
    text, which the session keeps as the partner name, does not open the
    journal. *)
Example do_login_placeholder_partner :
  exists u w',
    do_login (mkApp None) "Mine" "Nama pasangan (opsional)..." quiet_world
      = (Ok (mkApp (Some u)), w')
    /\ _partner u = "Nama pasangan (opsional)..."
    /\ is_empty (_partner u) = false
    /\ _journal_password u = Some "mine123"
    /\ _journal_password u <> Some (_partner u)
    /\ check_journal_password u (_partner u) = false.
Proof.
  exists (mkUser "Mine" "Nama pasangan (opsional)..." (Some "mine123") []
            "journals_Mine.json"), quiet_world.
  split; [vm_compute; reflexivity |].
  repeat split. discriminate.
Qed.

Example do_login_with_partner :
  fst (do_login (mkApp None) "  Mine " " Budi  " quiet_world)
  = Ok (mkApp (Some (mkUser "Mine" "Budi" (Some "Budi") [] "journals_Mine.json"))).
Proof. vm_compute. reflexivity. Qed.

Example do_login_without_partner :
  fst (do_login (mkApp None) "Mine" "   " quiet_world)
  = Ok (mkApp (Some (mkUser "Mine" EmptyString (Some "mine123") [] "journals_Mine.json"))).
Proof. vm_compute. reflexivity. Qed.

Example do_login_blank_name :
  do_login (mkApp None) "  " "Budi" quiet_world = (Ok (mkApp None), quiet_world).
Proof. reflexivity. Qed.

(** * Further properties *)

(** ** The action stack, in general *)

Section StackRunFacts.
Context {A : Type}.

Lemma push_all_stack (s : StackManager A) (items : list A) :
  _stack (push_all s items) = _stack s ++ items.
Proof.
  unfold push_all. revert s.
  induction items as [| x items IH]; intros s; cbn [fold_left].
  - rewrite app_nil_r. reflexivity.
  - rewrite IH. unfold push. cbn [_stack].
    rewrite <- app_assoc. reflexivity.
Qed.

Lemma push_all_snoc (s : StackManager A) (items : list A) (x : A) :
  push_all s (items ++ [x]) = push (push_all s items) x.
Proof. unfold push_all. rewrite fold_left_app. reflexivity. Qed.

Lemma pop_n_push_all (s : StackManager A) (items : list A) :
  pop_n (length items) (push_all s items) = Ok (map Some (rev items), s).
Proof.
  induction items as [| x items IH] using rev_ind.
  - reflexivity.
  - rewrite length_app, Nat.add_comm. cbn [length Nat.add pop_n].
    rewrite push_all_snoc, pop_push, IH, rev_unit. reflexivity.
Qed.

End StackRunFacts.

(** X1. Whatever was pushed is popped in reverse order: after pushing the
    items of a list on any stack, as many pops return them last-pushed
    first and leave the stack as it was before; one more pop on a stack
    that started empty returns [None]. *)
Theorem stack_pops_reverse_pushes {A : Type} (s : StackManager A) (items : list A) :
  pop_n (length items) (push_all s items) = Ok (map Some (rev items), s)
  /\ pop_n (S (length items)) (push_all new_stack items)
     = Ok (map Some (rev items) ++ [None], new_stack).
Proof.
  split; [apply pop_n_push_all |].
  replace (S (length items)) with (length items + 1)%nat by lia.
  generalize (pop_n_push_all (@new_stack A) items).
  generalize (push_all (@new_stack A) items).
  generalize (map Some (rev items)).
  induction (length items) as [| n IH]; intros out s0 H; simpl in *.
  - injection H as <- ->. reflexivity.
  - destruct (pop s0) as [[x s1] | e]; [| discriminate].
    destruct (pop_n n s1) as [[xs s2] | e] eqn:E; [| discriminate].
    injection H as <- ->.
    rewrite (IH xs s1 E). reflexivity.
Qed.

(** X2. [list_all] lists the items oldest first (in the order they were
    pushed, not in pop order), and [peek] returns exactly the item the next
    [pop] would return. *)
Theorem list_all_push_order_and_peek {A : Type} (s : StackManager A) (items : list A) :
  list_all (push_all s items) = list_all s ++ items
  /\ list_all (push_all new_stack items) = items
  /\ match pop s with
     | Ok (x, _) => peek s = Ok x
     | Raise _ => False
     end.
Proof.
  unfold list_all. repeat split.
  - apply push_all_stack.
  - apply (push_all_stack new_stack).
  - destruct s as [l]. unfold pop, peek, list_pop, list_last. cbn [_stack].
    destruct (truthy l) eqn:Ht; [| reflexivity].
    destruct (last l) eqn:Hl; [reflexivity |].
    apply last_None in Hl. subst l. discriminate Ht.
Qed.

(** ** Red-flag scoring, for every run of presses *)

Lemma sum_from (l : list Z) (acc : Z) : fold_left Z.add l acc = acc + RedFlag.sum l.
Proof.
  unfold RedFlag.sum. revert acc. induction l as [| x l IH]; intros acc; simpl.
  - lia.
  - rewrite (IH (acc + x)), (IH (0 + x)). lia.
Qed.

Lemma sum_answer_bits (clicks : list bool) :
  RedFlag.sum (map answer_bit clicks) = yes_count clicks.
Proof.
  induction clicks as [| b clicks IH]; [reflexivity |].
  unfold RedFlag.sum. cbn [map fold_left]. rewrite sum_from, IH.
  unfold yes_count. destruct b.
  - rewrite filter_cons_True by exact I. cbn [length answer_bit]. lia.
  - rewrite filter_cons_False by (intros []). cbn [answer_bit]. lia.
Qed.

Lemma yes_count_bounds (clicks : list bool) :
  0 <= yes_count clicks <= Z.of_nat (length clicks).
Proof.
  unfold yes_count. pose proof (length_filter (fun b : bool => Is_true b) clicks). lia.
Qed.

(** While fewer than five answers are in, each press records its answer and
    moves to the next question. *)
Lemma press_before_last (clicks : list bool) :
  forall c : checker,
    shown c = None ->
    idx c + Z.of_nat (length clicks) < n_items ->
    press c clicks
    = mkchecker (idx c + Z.of_nat (length clicks))
                (answers c ++ map answer_bit clicks) None.
Proof.
  induction clicks as [| b clicks IH]; intros c Hs Hlt.
  - simpl. rewrite Z.add_0_r, app_nil_r. destruct c; simpl in *. subst. reflexivity.
  - cbn [press]. rewrite Hs.
    assert (idx c + 1 < n_items) as Hi by (cbn [length] in Hlt; lia).
    assert ((if b then ans_yes c else ans_no c)
            = mkchecker (idx c + 1) (answers c ++ [answer_bit b]) None) as ->.
    { destruct b; unfold ans_yes, ans_no, next_q; cbn [idx answers shown];
        destruct (Z.ltb_spec (idx c + 1) n_items); try lia; rewrite Hs; reflexivity. }
    rewrite IH; cbn [idx answers shown length map] in *; [| reflexivity | lia].
    rewrite <- app_assoc. f_equal. lia.
Qed.

Lemma press_shown (clicks : list bool) (c : checker) (v : verdict) :
  shown c = Some v -> press c clicks = c.
Proof. intros H. destruct clicks; simpl; [| rewrite H]; reflexivity. Qed.

(** X3. For every run of presses on the red-flag screen: nothing is shown
    before the fifth answer; from the fifth answer on the result shown is
    the tier of the number of yes answers among the first five, a number
    between 0 and 5, and later presses change nothing. *)
Theorem red_flag_result_after_five (clicks : list bool) :
  ((length clicks < 5)%nat -> shown (press start clicks) = None)
  /\ ((5 <= length clicks)%nat ->
        shown (press start clicks) = Some (classify (yes_count (take 5 clicks)))
        /\ 0 <= yes_count (take 5 clicks) <= 5
        /\ press start clicks = press start (take 5 clicks)).
Proof.
  split.
  - intros Hlt. rewrite press_before_last; [reflexivity | reflexivity |].
    unfold n_items. simpl. lia.
  - intros Hge.
    assert (press start (take 5 clicks)
            = mkchecker 4 (map answer_bit (take 5 clicks))
                (Some (classify (yes_count (take 5 clicks))))) as H5.
    { destruct clicks as [| a1 [| a2 [| a3 [| a4 [| a5 rest]]]]];
        try (simpl in Hge; lia).
      change (take 5 (a1 :: a2 :: a3 :: a4 :: a5 :: rest)) with [a1; a2; a3; a4; a5].
      rewrite <- sum_answer_bits.
      change [a1; a2; a3; a4; a5] with ([a1; a2; a3; a4] ++ [a5]) at 1.
      destruct a1, a2, a3, a4, a5; reflexivity. }
    assert (press start clicks = press start (take 5 clicks)) as Heq.
    { rewrite <- (take_drop 5 clicks) at 1.
      generalize (drop 5 clicks). intros rest.
      assert (forall l1 l2 c, press c (l1 ++ l2) = press (press c l1) l2) as Happ.
      { induction l1 as [| b l1 IH]; intros l2 c; [reflexivity |].
        cbn [app press]. destruct (shown c) eqn:Hs.
        - symmetry. eapply press_shown, Hs.
        - apply IH. }
      rewrite Happ, H5. eapply press_shown. reflexivity. }
    split; [rewrite Heq, H5; reflexivity |]. split; [| exact Heq].
    pose proof (yes_count_bounds (take 5 clicks)) as Hb.
    rewrite length_take in Hb. lia.
Qed.

(** ** Stripping white space *)

Lemma dropwhile_idem (p : ascii -> bool) (l : list ascii) :
  dropwhile p (dropwhile p l) = dropwhile p l.
Proof.
  induction l as [| c l IH]; [reflexivity |].
  simpl. destruct (p c) eqn:E; [exact IH |]. simpl. rewrite E. reflexivity.
Qed.

Lemma dropwhile_snoc_stop (p : ascii -> bool) (l : list ascii) (c : ascii) :
  p c = false -> dropwhile p (l ++ [c]) = dropwhile p l ++ [c].
Proof.
  intros Hc. induction l as [| a l IH]; simpl.
  - rewrite Hc. reflexivity.
  - destruct (p a); [exact IH | reflexivity].
Qed.

Lemma rstrip_chars_idem (l : list ascii) :
  rstrip_chars (rstrip_chars l) = rstrip_chars l.
Proof.
  unfold rstrip_chars. rewrite rev_involutive, dropwhile_idem. reflexivity.
Qed.

Lemma rstrip_chars_head (c : ascii) (r : list ascii) :
  isspace c = false -> exists r', rstrip_chars (c :: r) = c :: r'.
Proof.
  intros Hc. unfold rstrip_chars. cbn [rev].
  rewrite dropwhile_snoc_stop by exact Hc.
  rewrite rev_unit. eauto.
Qed.

Lemma lstrip_chars_head (l : list ascii) :
  lstrip_chars l = [] \/ exists c r, lstrip_chars l = c :: r /\ isspace c = false.
Proof.
  unfold lstrip_chars. induction l as [| a l IH]; [left; reflexivity |].
  simpl. destruct (isspace a) eqn:E; [exact IH |]. right. eauto.
Qed.

Lemma strip_chars_idem (l : list ascii) :
  rstrip_chars (lstrip_chars (rstrip_chars (lstrip_chars l)))
  = rstrip_chars (lstrip_chars l).
Proof.
  destruct (lstrip_chars_head l) as [-> | (c & r & -> & Hc)]; [reflexivity |].
  destruct (rstrip_chars_head c r Hc) as [r' Hr].
  assert (lstrip_chars (rstrip_chars (c :: r)) = rstrip_chars (c :: r)) as ->.
  { rewrite Hr. unfold lstrip_chars. simpl. rewrite Hc. reflexivity. }
  apply rstrip_chars_idem.
Qed.

Lemma strip_idem (s : string) : strip (strip s) = strip s.
Proof.
  unfold strip. rewrite list_ascii_of_string_of_list_ascii, strip_chars_idem.
  reflexivity.
Qed.

Lemma eqb_empty (s : string) : String.eqb s EmptyString = is_empty s.
Proof. destruct s; reflexivity. Qed.

(** ** Login, the entry fields and the journal gate *)

(** What [do_login] builds when it accepts the user name. *)
Lemma do_login_accepts (app : App) (username_text partner_text : string) (w : world) :
  is_empty (strip username_text)
  || String.eqb (strip username_text) username_placeholder = false ->
  exists es w',
    do_login app username_text partner_text w
    = (Ok (mkApp (Some
         (mkUser (strip username_text) (strip partner_text)
            (Some (if negb (is_empty (strip partner_text))
                      && negb (String.eqb (strip partner_text) partner_placeholder)
                   then strip partner_text else fallback_password))
            es (journal_file_of (strip username_text))))), w').
Proof.
  intros Hacc. unfold do_login. rewrite Hacc. unfold User_init.
  set (u0 := mkUser (strip username_text) (strip partner_text) None []
               (journal_file_of (strip username_text))).
  destruct (_load_journals_total u0 w) as (u1 & w' & Hload).
  assert (exists es, u1 = with_entries u0 es) as [es ->].
  { revert Hload. unfold _load_journals.
    erewrite bind_ok by apply path_exists_run.
    destruct (files w !! _journal_file u0); cbn [negb].
    - unfold try_except, bind.
      destruct (json_load_file (_journal_file u0) w) as [[data | e] w2];
        [| intros [= <- _]; eauto].
      destruct (py_iter data w2) as [[items | e] w3]; [| intros [= <- _]; eauto].
      destruct (load_items items [] w3) as [[es | e] w4]; intros [= <- _]; eauto.
    - intros [= <- _]. exists []. reflexivity. }
  erewrite bind_ok by exact Hload.
  exists es, w'.
  destruct (negb (is_empty (strip partner_text))
            && negb (String.eqb (strip partner_text) partner_placeholder));
    reflexivity.
Qed.

(** X4. The journal screen opens only with the partner name given at login:
    after a login with ASCII texts that was accepted, the gate of [_open_healing_journal]
    opens exactly when a partner name was provided and the password typed
    equals it.  When none was provided the journal password is the fallback
    constant, [check_journal_password] accepts that constant, and yet no
    password opens the journal screen. *)
Theorem journal_gate_after_login (app : App) (username_text partner_text : string)
    (w : world) :
  is_ascii username_text -> is_ascii partner_text ->
  is_empty (strip username_text)
  || String.eqb (strip username_text) username_placeholder = false ->
  let provided := negb (is_empty (strip partner_text))
                  && negb (String.eqb (strip partner_text) partner_placeholder) in
  exists u w',
    do_login app username_text partner_text w = (Ok (mkApp (Some u)), w')
    /\ (forall pwd,
          _open_healing_journal u (Some pwd) = Opened
          <-> provided = true /\ pwd = strip partner_text)
    /\ (provided = true ->
          forall pwd, _open_healing_journal u (Some pwd) = Opened
                      <-> check_journal_password u pwd = true)
    /\ (provided = false ->
          check_journal_password u fallback_password = true
          /\ forall pwd, _open_healing_journal u (Some pwd) = NoPartner).
Proof.
  intros _ _ Hacc provided.
  destruct (do_login_accepts app username_text partner_text w Hacc) as (es & w' & Hrun).
  eexists _, w'. split; [exact Hrun |].
  unfold _open_healing_journal, check_journal_password.
  cbn [_partner _journal_password].
  rewrite strip_idem, eqb_empty, orb_diag. fold provided.
  assert (is_empty (strip partner_text)
          || String.eqb (strip partner_text) partner_placeholder = negb provided) as ->.
  { subst provided. rewrite negb_andb, !negb_involutive. reflexivity. }
  destruct provided; cbn [negb]; (split; [| split]).
  - intros pwd. destruct (String.eqb_spec pwd (strip partner_text)) as [-> | Hne];
      cbn [negb]; split; try discriminate; try tauto.
  - intros _ pwd. rewrite (String.eqb_sym (strip partner_text) pwd).
    destruct (String.eqb pwd (strip partner_text)); cbn [negb]; split;
      try discriminate; reflexivity.
  - discriminate.
  - intros pwd. split; [discriminate | intros [[=] _]].
  - discriminate.
  - intros _. split; [apply String.eqb_refl | reflexivity].
Qed.

Lemma journal_gate_after_login_witness :
  is_ascii "Mine" /\ is_ascii "   " /\
  exists u w',
    do_login (mkApp None) "Mine" "   " quiet_world = (Ok (mkApp (Some u)), w')
    /\ check_journal_password u "mine123" = true
    /\ _open_healing_journal u (Some "mine123") = NoPartner.
Proof.
  split; [repeat constructor |]. split; [repeat constructor |].
  destruct (journal_gate_after_login (mkApp None) "Mine" "   " quiet_world
              ltac:(repeat constructor) ltac:(repeat constructor) eq_refl)
    as (u & w' & Hrun & _ & _ & Hno).
  exists u, w'. split; [exact Hrun |].
  destruct (Hno eq_refl) as [Hc Hg]. split; [exact Hc | apply Hg].
Defined.

Lemma append_empty_r (s : string) : (s ++ EmptyString)%string = s.
Proof.
  induction s as [| c s IH]; [reflexivity |].
  change (String c (append s EmptyString) = String c s). f_equal. exact IH.
Qed.

(** A field the user never edits shows its placeholder or nothing. *)
Lemma field_text_untouched (placeholder : string) (evs : list field_event) :
  untouched evs ->
  field_text placeholder evs = placeholder \/ field_text placeholder evs = EmptyString.
Proof.
  unfold field_text, _add_placeholder. rewrite append_empty_r.
  assert (forall t, t = placeholder \/ t = EmptyString ->
            untouched evs ->
            fold_left (field_step placeholder) evs t = placeholder
            \/ fold_left (field_step placeholder) evs t = EmptyString) as H.
  { induction evs as [| ev evs IH]; intros t Ht Hu; [exact Ht |].
    apply Forall_cons in Hu as [Hev Hu]. cbn [fold_left].
    apply IH; [| exact Hu].
    destruct ev as [| | t']; [| | destruct Hev]; cbn [field_step].
    - right. unfold on_focus_in.
      destruct Ht as [-> | ->]; [rewrite String.eqb_refl; reflexivity |].
      destruct (String.eqb EmptyString placeholder); reflexivity.
    - left. unfold on_focus_out.
      destruct Ht as [-> | ->]; [destruct (is_empty placeholder) |]; reflexivity. }
  apply H. left. reflexivity.
Qed.

(** X5. Fields the user never typed into count as not filled in, whatever
    focus changes they went through: with an untouched user-name field the
    login is refused and nothing changes; with an untouched partner field
    an accepted login sets the fallback password, and no password opens the
    journal screen of that session. *)
Theorem untouched_fields_at_login (evs : list field_event) (app : App)
    (other_text : string) (w : world) :
  untouched evs ->
  is_ascii other_text ->
  do_login app (field_text username_placeholder evs) other_text w = (Ok app, w)
  /\ (is_empty (strip other_text)
       || String.eqb (strip other_text) username_placeholder = false ->
      exists u w',
        do_login app other_text (field_text partner_placeholder evs) w
        = (Ok (mkApp (Some u)), w')
        /\ _journal_password u = Some fallback_password
        /\ forall pwd, _open_healing_journal u (Some pwd) = NoPartner).
Proof.
  intros Hu _. split.
  - unfold do_login.
    destruct (field_text_untouched username_placeholder evs Hu) as [-> | ->];
      reflexivity.
  - intros Hacc.
    destruct (do_login_accepts app other_text
                (field_text partner_placeholder evs) w Hacc) as (es & w' & Hrun).
    eexists _, w'. split; [exact Hrun |].
    unfold _open_healing_journal. cbn [_journal_password _partner].
    destruct (field_text_untouched partner_placeholder evs Hu) as [-> | ->];
      split; reflexivity.
Qed.

Lemma untouched_fields_at_login_witness :
  untouched [FocusIn; FocusOut; FocusIn]
  /\ is_ascii "Budi"
  /\ do_login (mkApp None)
       (field_text username_placeholder [FocusIn; FocusOut; FocusIn]) "Budi"
       quiet_world
     = (Ok (mkApp None), quiet_world).
Proof.
  split; [repeat constructor |]. split; [repeat constructor |].
  apply (untouched_fields_at_login [FocusIn; FocusOut; FocusIn] (mkApp None) "Budi"
           quiet_world); repeat constructor.
Defined.

(** ** The journal file: what saving touches *)

Lemma _save_journals_writes_document (u : User) (w : world) :
  exists w',
    _save_journals u w = (Ok tt, w')
    /\ clock w' = clock w /\ ticks w' = ticks w
    /\ (next_write_succeeds w = true ->
          files w' !! _journal_file u
          = Some (Json (PyList (map record_of (_journal_entries u))))).
Proof.
  rewrite _save_journals_run. eexists. split; [reflexivity |].
  unfold next_write_succeeds.
  destruct (faults w) as [| [] fs]; cbn [files clock ticks]; repeat split;
    try discriminate; intros _; apply lookup_insert_eq.
Qed.

(** X6. [_save_journals] never raises and touches nothing but the user's
    own journal file: the clock is not read, every other path keeps what it
    held, and when the write goes through the file holds one record per
    entry of the store, in order. *)
Theorem save_touches_only_own_file (u : User) (w : world) :
  exists w',
    _save_journals u w = (Ok tt, w')
    /\ clock w' = clock w /\ ticks w' = ticks w
    /\ (forall path, path <> _journal_file u -> files w' !! path = files w !! path)
    /\ (next_write_succeeds w = true ->
          files w' !! _journal_file u
          = Some (Json (PyList (map record_of (_journal_entries u))))).
Proof.
  rewrite _save_journals_run. eexists. split; [reflexivity |].
  unfold next_write_succeeds.
  destruct (faults w) as [| [] fs]; cbn [files clock ticks]; repeat split;
    try discriminate;
    try (intros path Hne; apply lookup_insert_ne; congruence);
    try (intros _; apply lookup_insert_eq).
Qed.

(** ** Loading: all or nothing *)

Lemma load_items_not_dict (items : list pyval) :
  Exists (fun v => is_dict v = false) items ->
  forall (acc : list journal_entry) (w : world),
  exists e w', load_items items acc w = (Raise e, w').
Proof.
  induction items as [| item items IH]; intros Hex acc w.
  - apply Exists_nil in Hex. destruct Hex.
  - rewrite load_items_cons.
    destruct (is_dict item) eqn:Hd.
    + apply Exists_cons in Hex as [Hex | Hex]; [congruence |].
      destruct item as [| | | | | | d]; try discriminate Hd.
      unfold bind at 1. rewrite load_date_step.
      destruct (parsed_date d).
      * unfold bind at 1. rewrite py_get_dict. apply IH, Hex.
      * unfold now at 1. unfold bind at 1. rewrite py_get_dict. apply IH, Hex.
    + destruct item as [| | | | | | d]; try discriminate Hd;
        eexists _, _; reflexivity.
Qed.

Lemma forallb_false_Exists {A : Type} (p : A -> bool) (l : list A) :
  forallb p l = false -> Exists (fun x => p x = false) l.
Proof.
  induction l as [| x l IH]; simpl; [discriminate |].
  intros H. apply andb_false_iff in H as [H | H].
  - left. exact H.
  - right. apply IH, H.
Qed.

(** X7. Loading is all or nothing.  When the file decodes to anything but
    an array of objects (a scalar, an object, a string, or an array with
    one item that is not an object) the load still returns, and the store
    is empty: the records before and after the bad item are dropped, and so
    is whatever the store held. *)
Theorem load_all_or_nothing (u : User) (w : world) (v : pyval) :
  files w !! _journal_file u = Some (Json v) ->
  is_record_array v = false ->
  exists w', _load_journals u w = (Ok (with_entries u []), w').
Proof.
  intros Hfile Hv. rewrite (_load_journals_present _ _ _ Hfile).
  unfold try_except, bind at 1, json_load_file. rewrite Hfile.
  assert (forall items w0,
            Exists (fun v => is_dict v = false) items ->
            exists w',
              (let (r, w') := (do items0 <~ ret items;
                               do es <~ load_items items0 []; ret (with_entries u es)) w0 in
               match r with
               | Ok a => (Ok a, w')
               | Raise e => ret (with_entries u []) w'
               end) = (Ok (with_entries u []), w')) as Hbad.
  { intros items w0 Hex.
    destruct (load_items_not_dict items Hex [] w0) as (e & w' & Hrun).
    exists w'. unfold bind, ret. rewrite Hrun. reflexivity. }
  destruct v as [| b | z | bits | s | items | d]; try (eexists; reflexivity).
  - (* a string: its characters are not objects *)
    destruct (list_ascii_of_string s) as [| c cs] eqn:Hs.
    + eexists. unfold py_iter, bind, ret. rewrite Hs. reflexivity.
    + unfold py_iter. rewrite Hs. apply Hbad. left. reflexivity.
  - (* an array with an item that is not an object *)
    apply Hbad, forallb_false_Exists, Hv.
  - (* an object: its keys are not objects *)
    destruct (map_to_list d) as [| kv kvs] eqn:Hd.
    + eexists. unfold py_iter, bind, ret. rewrite Hd. reflexivity.
    + unfold py_iter. rewrite Hd. apply Hbad. left. reflexivity.
Qed.

Lemma load_all_or_nothing_witness :
  let doc := PyList
    [ PyDict (<["content" := PyStr "a"]> (<["date" := PyStr "2024-01-02T03:04:05"]> ∅));
      PyStr "b" ] in
  let w := mkworld (<["journals_Mine.json" := Json doc]> ∅) (clock quiet_world) 0 [] in
  let u := mkUser "Mine" "Budi" None [(mkdatetime 2020 1 1 0 0 0 0, PyStr "x")]
             "journals_Mine.json" in
  exists w', _load_journals u w = (Ok (with_entries u []), w').
Proof.
  intros doc w u. apply (load_all_or_nothing u w doc); reflexivity.
Defined.

(** ** Timestamps of the store are always real date-times *)

Lemma datetime_new_ok (y m d h mi s us : Z) (t : datetime) :
  datetime_new y m d h mi s us = Some t -> datetime_ok t = true.
Proof.
  unfold datetime_new.
  destruct (date_fields_ok y m d && time_fields_ok h mi s us) eqn:E; [| discriminate].
  intros [= <-]. exact E.
Qed.

Lemma fromisoformat_ok (s : string) (t : datetime) :
  fromisoformat s = Some t -> datetime_ok t = true.
Proof.
  unfold fromisoformat, fromisoformat_chars.
  destruct (parse_isoformat_date (list_ascii_of_string s)) as [[[[y m] d] r] |];
    [| discriminate].
  option_step.
  match goal with
  | |- context [mbind _ ?o] => destruct o as [[[[h mi] sec] us] |]; [| discriminate]
  end.
  option_step. apply datetime_new_ok.
Qed.

Lemma parsed_date_ok (d : gmap string pyval) (t : datetime) :
  parsed_date d = Some t -> datetime_ok t = true.
Proof.
  unfold parsed_date.
  destruct (d !! "date") as [[| | | | s | |] |]; try discriminate.
  apply fromisoformat_ok.
Qed.

Lemma entries_ok_snoc (es : list journal_entry) (e : journal_entry) :
  entries_ok es -> datetime_ok (fst e) = true -> entries_ok (es ++ [e]).
Proof.
  intros Hes He. apply Forall_app. split; [exact Hes |]. constructor; [exact He | constructor].
Qed.

Lemma load_items_entries_ok (items : list pyval) :
  forall (acc es : list journal_entry) (w w' : world),
    clock_ok w -> entries_ok acc ->
    load_items items acc w = (Ok es, w') -> entries_ok es.
Proof.
  induction items as [| item items IH]; intros acc es w w' Hclock Hacc Hrun.
  - injection Hrun as <- _. exact Hacc.
  - rewrite load_items_cons in Hrun.
    destruct item as [| | | | | | d]; try discriminate Hrun.
    unfold bind at 1 in Hrun. rewrite load_date_step in Hrun.
    destruct (parsed_date d) as [t |] eqn:Hpd.
    + unfold bind at 1 in Hrun. rewrite py_get_dict in Hrun.
      eapply IH; [exact Hclock | | exact Hrun].
      apply entries_ok_snoc; [exact Hacc | eapply parsed_date_ok, Hpd].
    + unfold now at 1 in Hrun. unfold bind at 1 in Hrun. rewrite py_get_dict in Hrun.
      eapply IH; [| | exact Hrun].
      * intros k. apply Hclock.
      * apply entries_ok_snoc; [exact Hacc | apply Hclock].
Qed.

Lemma _load_journals_entries_ok (u u' : User) (w w' : world) :
  clock_ok w -> entries_ok (_journal_entries u) ->
  _load_journals u w = (Ok u', w') -> entries_ok (_journal_entries u').
Proof.
  intros Hclock Hu. unfold _load_journals.
  erewrite bind_ok by apply path_exists_run.
  destruct (files w !! _journal_file u) as [f |] eqn:Hf; cbn [negb].
  - unfold try_except, bind, json_load_file. rewrite Hf.
    destruct f as [| v]; [intros [= <- _]; constructor |].
    destruct (py_iter v w) as [[items | e] w1] eqn:Hiter;
      [| intros [= <- _]; constructor].
    assert (w1 = w) as ->.
    { destruct v; simpl in Hiter; try discriminate Hiter; injection Hiter as _ <-;
        reflexivity. }
    destruct (load_items items [] w) as [[es | e] w2] eqn:Hitems;
      [| intros [= <- _]; constructor].
    intros [= <- _]. cbn [_journal_entries with_entries].
    eapply load_items_entries_ok; [exact Hclock | constructor | exact Hitems].
  - intros [= <- _]. exact Hu.
Qed.

Lemma midnight_ok (d : date) : date_ok d = true -> datetime_ok (midnight d) = true.
Proof.
  unfold date_ok, datetime_ok, midnight. cbn [year month day hour minute second microsecond].
  intros ->. reflexivity.
Qed.

Lemma stamp_of_ok (date : option date_arg) (w : world) :
  clock_ok w -> date_arg_ok date -> datetime_ok (stamp_of date w) = true.
Proof.
  intros Hclock Hdate. destruct date as [[d | t] |]; cbn [stamp_of date_arg_ok] in *.
  - apply midnight_ok, Hdate.
  - exact Hdate.
  - apply Hclock.
Qed.

(** X8. The timestamps of the store stay real calendar date-times.  If
    the clock gives real date-times and the store holds only such, then so
    does the store after [_load_journals] of a file whose records carry
    dates the model covers (timestamps as [isoformat] lays them out, or
    dates the library cannot parse, which are replaced by clock readings),
    and after [add_journal_entry] with a real date, a real date-time or no
    date at all. *)
Theorem timestamps_stay_wellformed (u : User) (w : world) :
  clock_ok w ->
  entries_ok (_journal_entries u) ->
  (forall v, files w !! _journal_file u = Some (Json v) -> dates_in_model v = true) ->
  (exists u' w', _load_journals u w = (Ok u', w')
                 /\ entries_ok (_journal_entries u'))
  /\ (forall (content : string) (date : option date_arg),
        date_arg_ok date ->
        exists u' w', add_journal_entry u content date w = (Ok u', w')
                      /\ entries_ok (_journal_entries u')).
Proof.
  intros Hclock Hu _. split.
  - destruct (_load_journals_total u w) as (u' & w' & Hrun).
    exists u', w'. split; [exact Hrun |].
    eapply _load_journals_entries_ok; eassumption.
  - intros content date Hdate.
    destruct (add_journal_entry_run u content date w) as [w' Hrun].
    eexists _, w'. split; [exact Hrun |].
    cbn [_journal_entries with_entries].
    apply entries_ok_snoc; [exact Hu | apply stamp_of_ok; assumption].
Qed.

Lemma timestamps_stay_wellformed_witness :
  let doc := PyList
    [ PyDict (<["content" := PyStr "a"]> (<["date" := PyStr "2024-13-45T99:00:00"]> ∅));
      PyDict (<["content" := PyStr "b"]> (<["date" := PyStr "2024-01-02T03:04:05"]> ∅));
      PyDict (<["content" := PyStr "c"]> ∅) ] in
  let w := mkworld (<["journals_Mine.json" := Json doc]> ∅) (clock quiet_world) 0 [] in
  let u := mkUser "Mine" "Budi" None [] "journals_Mine.json" in
  exists u' w', _load_journals u w = (Ok u', w')
                /\ entries_ok (_journal_entries u').
Proof.
  intros doc w u.
  apply (timestamps_stay_wellformed u w).
  - intros k. reflexivity.
  - constructor.
  - intros v [= <-]. reflexivity.
Defined.

(** ** Saving what was loaded *)

(** Saving a store of real date-times, when the write goes through, leaves
    a file from which any user object bound to it loads the same entries,
    without reading the clock. *)
Lemma save_then_load (u : User) (w : world) :
  entries_ok (_journal_entries u) ->
  next_write_succeeds w = true ->
  exists w1,
    _save_journals u w = (Ok tt, w1)
    /\ clock w1 = clock w /\ ticks w1 = ticks w
    /\ forall u0, _journal_file u0 = _journal_file u ->
         _load_journals u0 w1 = (Ok (with_entries u0 (_journal_entries u)), w1).
Proof.
  intros Hok Hw.
  destruct (_save_journals_writes_document u w) as (w1 & Hsave & Hc & Ht & Hdoc).
  exists w1. split; [exact Hsave |]. split; [exact Hc |]. split; [exact Ht |].
  intros u0 Hfile. specialize (Hdoc Hw). rewrite <- Hfile in Hdoc.
  rewrite (_load_journals_present _ _ _ Hdoc).
  apply try_except_ok.
  erewrite bind_ok; [| unfold json_load_file; rewrite Hdoc; reflexivity].
  erewrite bind_ok; [| reflexivity].
  erewrite bind_ok; [| apply load_items_records, Hok].
  reflexivity.
Qed.

(** X9. Whatever the journal file held, the store that was loaded from it
    survives a save and a reload unchanged: after [_load_journals], a
    [_save_journals] whose write goes through followed by another
    [_load_journals] gives back the very same user object, and the clock is
    not consulted again (no timestamp falls back to the current time a
    second time). *)
Theorem loaded_store_is_stable (u u1 : User) (w w1 : world) :
  clock_ok w ->
  entries_ok (_journal_entries u) ->
  _load_journals u w = (Ok u1, w1) ->
  next_write_succeeds w1 = true ->
  exists w2,
    _save_journals u1 w1 = (Ok tt, w2)
    /\ _load_journals u1 w2 = (Ok u1, w2)
    /\ ticks w2 = ticks w1.
Proof.
  intros Hclock Hu Hload Hw.
  pose proof (_load_journals_entries_ok u u1 w w1 Hclock Hu Hload) as Hok.
  destruct (save_then_load u1 w1 Hok Hw) as (w2 & Hsave & _ & Ht & Hreload).
  exists w2. split; [exact Hsave |]. split; [| exact Ht].
  rewrite (Hreload u1 eq_refl). destruct u1; reflexivity.
Qed.

Lemma loaded_store_is_stable_witness :
  let doc := PyList
    [ PyDict (<["mood" := PyInt 3]> (<["date" := PyStr "kemarin"]> ∅));
      PyDict (<["content" := PyStr "b"]> (<["date" := PyStr "2024-01-02"]> ∅)) ] in
  let w := mkworld (<["journals_Mine.json" := Json doc]> ∅) (clock quiet_world) 0 [] in
  let u := mkUser "Mine" "Budi" None [] "journals_Mine.json" in
  let u1 := with_entries u [ (mkdatetime 2024 3 9 7 5 30 0, PyStr EmptyString);
                             (mkdatetime 2024 1 2 0 0 0 0, PyStr "b") ] in
  let w1 := mkworld (files w) (clock w) 1 [] in
  _load_journals u w = (Ok u1, w1)
  /\ exists w2,
       _save_journals u1 w1 = (Ok tt, w2)
       /\ _load_journals u1 w2 = (Ok u1, w2)
       /\ ticks w2 = ticks w1.
Proof.
  intros doc w u u1 w1.
  assert (_load_journals u w = (Ok u1, w1)) as Hload by (vm_compute; reflexivity).
  split; [exact Hload |].
  apply (loaded_store_is_stable u u1 w w1).
  - intros k. reflexivity.
  - constructor.
  - exact Hload.
  - reflexivity.
Defined.

(** X10. An entry that was written survives a restart.  When the write of
    [add_journal_entry] goes through, a user object created afterwards for
    the same user name starts with the old entries followed by the new one,
    timestamp and content intact; its journal password is unset until
    login sets it. *)
Theorem entry_survives_restart (u : User) (username partner content : string)
    (date : option date_arg) (w : world) :
  _journal_file u = journal_file_of username ->
  clock_ok w ->
  entries_ok (_journal_entries u) ->
  date_arg_ok date ->
  next_write_succeeds w = true ->
  exists u1 w1 u2 w2,
    add_journal_entry u content date w = (Ok u1, w1)
    /\ User_init username partner w1 = (Ok u2, w2)
    /\ _journal_entries u2 = _journal_entries u ++ [(stamp_of date w, PyStr content)]
    /\ _journal_entries u2 = _journal_entries u1
    /\ _journal_password u2 = None.
Proof.
  intros Hfile Hclock Hu Hdate Hw.
  set (u1 := with_entries u (_journal_entries u ++ [(stamp_of date w, PyStr content)])).
  assert (entries_ok (_journal_entries u1)) as Hok1.
  { apply entries_ok_snoc; [exact Hu | apply stamp_of_ok; assumption]. }
  unfold add_journal_entry.
  set (stamp := match date with
                | None => now
                | Some (ADate d) => ret (midnight d)
                | Some (ADatetime t) => ret t
                end).
  assert (exists w0, stamp w = (Ok (stamp_of date w), w0) /\ faults w0 = faults w)
    as (w0 & Hstamp & Hfaults).
  { subst stamp. destruct date as [[d | t] |]; eexists; split; reflexivity. }
  rewrite (bind_ok _ _ _ _ _ Hstamp). fold u1.
  assert (next_write_succeeds w0 = true) as Hw0.
  { unfold next_write_succeeds in *. rewrite Hfaults. exact Hw. }
  destruct (save_then_load u1 w0 Hok1 Hw0) as (w1 & Hsave & _ & _ & Hreload).
  erewrite bind_ok; [| apply try_except_ok, Hsave].
  exists u1, w1. eexists _, w1. split; [reflexivity |].
  unfold User_init. rewrite Hreload by (symmetry; exact Hfile).
  repeat split.
Qed.

Lemma entry_survives_restart_witness :
  let u := mkUser "Mine" "Budi" (Some "Budi")
             [(mkdatetime 2024 3 8 21 0 0 0, PyStr "kemarin")]
             (journal_file_of "Mine") in
  exists u1 w1 u2 w2,
    add_journal_entry u "hari ini" (Some (ADate (mkdate 2024 3 9))) quiet_world
      = (Ok u1, w1)
    /\ User_init "Mine" "Budi" w1 = (Ok u2, w2)
    /\ _journal_entries u2
       = _journal_entries u
         ++ [(stamp_of (Some (ADate (mkdate 2024 3 9))) quiet_world, PyStr "hari ini")]
    /\ _journal_entries u2 = _journal_entries u1
    /\ _journal_password u2 = None.
Proof.
  intros u.
  apply (entry_survives_restart u "Mine" "Budi" "hari ini"
           (Some (ADate (mkdate 2024 3 9))) quiet_world).
  - reflexivity.
  - intros k. reflexivity.
  - repeat constructor.
  - reflexivity.
  - reflexivity.
Defined.

(** ** The daily affirmation cycles through the list *)

Lemma mod_window_unique (n a k k' : Z) :
  0 < n -> 0 <= k < n -> 0 <= k' < n ->
  (a + k) mod n = (a + k') mod n -> k = k'.
Proof.
  intros Hn Hk Hk' H.
  pose proof (Z.div_mod (a + k) n ltac:(lia)) as E1.
  pose proof (Z.div_mod (a + k') n ltac:(lia)) as E2.
  rewrite H in E1.
  assert ((a + k) / n = (a + k') / n) as Hq by nia.
  rewrite Hq in E1. lia.
Qed.

(** X11. The daily affirmation walks through the list one step a day and
    wraps around: the index of the next ordinal day is the next index
    modulo [N]; [N] days later the same affirmation is returned; and in any
    [N] consecutive days every position of the list is selected on exactly
    one day. *)
Theorem daily_affirmation_cycles (affs : list string) (ordinal : Z) :
  affs <> [] ->
  let n := length affs in
  daily_index (ordinal + 1) n = (daily_index ordinal n + 1) mod Z.of_nat n
  /\ (forall w1 w2 : world,
        toordinal (date_of (clock w2 (ticks w2)))
        = toordinal (date_of (clock w1 (ticks w1))) + Z.of_nat n ->
        fst (get_affirmation affs w2) = fst (get_affirmation affs w1))
  /\ (forall i : Z, 0 <= i < Z.of_nat n ->
        exists k : Z,
          0 <= k < Z.of_nat n
          /\ daily_index (ordinal + k) n = i
          /\ forall k' : Z, 0 <= k' < Z.of_nat n ->
               daily_index (ordinal + k') n = i -> k' = k).
Proof.
  intros Hne n.
  assert (0 < Z.of_nat n) as Hn by (subst n; destruct affs; [congruence | simpl; lia]).
  unfold daily_index. repeat split.
  - rewrite Z.add_mod_idemp_l by lia. reflexivity.
  - intros w1 w2 Hord.
    destruct (get_affirmation_run affs w1 Hne) as (a1 & Ha1 & Hrun1).
    destruct (get_affirmation_run affs w2 Hne) as (a2 & Ha2 & Hrun2).
    rewrite Hrun1, Hrun2. simpl. f_equal.
    unfold daily_index in Ha1, Ha2. fold n in Ha1, Ha2.
    rewrite Hord in Ha2.
    rewrite <- (Z.mul_1_l (Z.of_nat n)) in Ha2 at 1.
    rewrite Z.mod_add in Ha2 by lia. congruence.
  - intros i Hi. exists ((i - ordinal) mod Z.of_nat n).
    pose proof (Z.mod_pos_bound (i - ordinal) (Z.of_nat n) Hn) as Hb.
    split; [exact Hb |]. split.
    + rewrite Z.add_mod_idemp_r by lia.
      replace (ordinal + (i - ordinal)) with i by lia.
      apply Z.mod_small, Hi.
    + intros k' Hk' Hsel.
      apply (mod_window_unique (Z.of_nat n) ordinal); [lia | exact Hk' | exact Hb |].
      rewrite Hsel. rewrite Z.add_mod_idemp_r by lia.
      replace (ordinal + (i - ordinal)) with i by lia.
      symmetry. apply Z.mod_small, Hi.
Qed.

Lemma daily_affirmation_cycles_witness :
  affirmations <> []
  /\ daily_index (738954 + 1) 20 = (daily_index 738954 20 + 1) mod 20.
Proof.
  split; [discriminate |].
  apply (daily_affirmation_cycles affirmations 738954). discriminate.
Defined.

(** ** The name of the journal file *)

Lemma list_ascii_of_string_append (a b : string) :
  list_ascii_of_string (append a b) = list_ascii_of_string a ++ list_ascii_of_string b.
Proof.
  induction a as [| c a IH]; [reflexivity |].
  change (c :: list_ascii_of_string (append a b)
          = c :: (list_ascii_of_string a ++ list_ascii_of_string b)).
  f_equal. exact IH.
Qed.

Lemma In_dropwhile (p : ascii -> bool) (l : list ascii) (c : ascii) :
  In c (dropwhile p l) -> In c l.
Proof.
  induction l as [| a l IH]; simpl; [tauto |].
  destruct (p a); [right; apply IH; assumption | tauto].
Qed.

Lemma In_rstrip_chars (l : list ascii) (c : ascii) :
  In c (rstrip_chars l) -> In c l.
Proof.
  unfold rstrip_chars. intros H.
  apply in_rev in H. apply In_dropwhile in H. apply in_rev. exact H.
Qed.

Lemma rstrip_idem (s : string) : rstrip (rstrip s) = rstrip s.
Proof.
  unfold rstrip. rewrite list_ascii_of_string_of_list_ascii, rstrip_chars_idem.
  reflexivity.
Qed.

(** X12. The journal file name is built from harmless characters only.
    For an ASCII user name every character of [safe_name] is a letter, a
    digit, a space, a dot or an underscore, so the file name holds no path
    separator; [safe_name] has no trailing white space; and a character
    that fails the test leaves no trace: two user names that differ only by
    such characters get the same journal file. *)
Theorem journal_file_name_is_safe (username : string) :
  is_ascii username ->
  (forall c, In c (list_ascii_of_string (safe_name username)) ->
             kept_in_file_name c = true
             /\ c <> "/"%char /\ c <> "\"%char /\ c <> ":"%char)
  /\ rstrip (safe_name username) = safe_name username
  /\ (forall (a b : string) (c : ascii),
        username = append a (String c b) ->
        kept_in_file_name c = false ->
        safe_name username = safe_name (append a b)
        /\ journal_file_of username = journal_file_of (append a b)).
Proof.
  intros _. split; [| split].
  - intros c Hin. unfold safe_name, rstrip in Hin.
    rewrite !list_ascii_of_string_of_list_ascii in Hin.
    apply In_rstrip_chars in Hin.
    apply list_elem_of_In, list_elem_of_filter in Hin as [Hkept _].
    apply Is_true_true in Hkept. fold (kept_in_file_name c) in Hkept.
    split; [exact Hkept |].
    repeat split; intros ->; discriminate Hkept.
  - unfold safe_name. apply rstrip_idem.
  - intros a b c -> Hc.
    assert (safe_name (append a (String c b)) = safe_name (append a b)) as Heq.
    { unfold safe_name. do 2 f_equal.
      rewrite !list_ascii_of_string_append.
      change (list_ascii_of_string (String c b)) with (c :: list_ascii_of_string b).
      rewrite !filter_app. f_equal.
      apply filter_cons_False. fold (kept_in_file_name c). rewrite Hc. intros []. }
    split; [exact Heq |]. unfold journal_file_of. rewrite Heq. reflexivity.
Qed.

Lemma journal_file_name_is_safe_witness :
  is_ascii "../Mine/.. "
  /\ rstrip (safe_name "../Mine/.. ") = safe_name "../Mine/.. ".
Proof.
  split; [repeat constructor |].
  apply (journal_file_name_is_safe "../Mine/.. "). repeat constructor.
Defined.

Example journal_file_of_dots : journal_file_of "../Mine/.. " = "journals_..Mine...json".
Proof. vm_compute. reflexivity. Qed.

(** ** Sorting by a key *)

Lemma lex_compare_refl (a : list Z) : lex_compare a a = Eq.
Proof.
  induction a as [| x a IH]; [reflexivity |]. simpl. rewrite Z.compare_refl. exact IH.
Qed.

Lemma lex_compare_eq (a b : list Z) : lex_compare a b = Eq -> a = b.
Proof.
  revert b. induction a as [| x a IH]; intros [| y b]; simpl; try discriminate;
    [reflexivity |].
  destruct (Z.compare_spec x y) as [Hxy | Hxy | Hxy]; try discriminate.
  intros Hrest. subst y. f_equal. apply IH, Hrest.
Qed.

Lemma lex_compare_antisym (a b : list Z) :
  lex_compare b a = CompOpp (lex_compare a b).
Proof.
  revert b. induction a as [| x a IH]; intros [| y b]; simpl; try reflexivity.
  rewrite (Z.compare_antisym x y).
  destruct (x ?= y); simpl; [apply IH | reflexivity | reflexivity].
Qed.

Lemma lex_compare_trans_lt (a b c : list Z) :
  lex_compare a b = Lt -> lex_compare b c = Lt -> lex_compare a c = Lt.
Proof.
  revert b c. induction a as [| x a IH]; intros [| y b] [| z c]; simpl;
    try discriminate; try reflexivity.
  destruct (Z.compare_spec x y) as [Hxy | Hxy | Hxy];
    destruct (Z.compare_spec y z) as [Hyz | Hyz | Hyz];
    try discriminate; intros H1 H2.
  - subst. rewrite Z.compare_refl. eapply IH; eassumption.
  - subst. apply Z.compare_lt_iff in Hyz. rewrite Hyz. reflexivity.
  - subst. apply Z.compare_lt_iff in Hxy. rewrite Hxy. reflexivity.
  - assert (x < z) as Hxz by lia. apply Z.compare_lt_iff in Hxz. rewrite Hxz. reflexivity.
Qed.

Lemma lex_ltb_asym (a b : list Z) : lex_ltb a b = true -> lex_ltb b a = false.
Proof.
  unfold lex_ltb. rewrite (lex_compare_antisym a b).
  destruct (lex_compare a b); simpl; congruence.
Qed.

Lemma lex_ltb_total (a b : list Z) : lex_ltb b a = false -> a <> b -> lex_ltb a b = true.
Proof.
  unfold lex_ltb. rewrite (lex_compare_antisym a b).
  destruct (lex_compare a b) eqn:E; simpl; try congruence.
  intros _ Hne. apply lex_compare_eq in E. contradiction.
Qed.

(** "Not greater" is transitive. *)
Lemma lex_le_trans (a b c : list Z) :
  lex_ltb b a = false -> lex_ltb c b = false -> lex_ltb c a = false.
Proof.
  intros Hab Hbc.
  destruct (lex_ltb c a) eqn:Hca; [| reflexivity].
  destruct (lex_compare b a) eqn:Eba.
  - apply lex_compare_eq in Eba. subst b. congruence.
  - unfold lex_ltb in Hab. rewrite Eba in Hab. discriminate.
  - assert (lex_compare a b = Lt) as Eab.
    { rewrite (lex_compare_antisym b a), Eba. reflexivity. }
    assert (lex_compare c b = Lt) as Ecb.
    { unfold lex_ltb in Hca. destruct (lex_compare c a) eqn:Eca; try discriminate.
      eapply lex_compare_trans_lt; eassumption. }
    unfold lex_ltb in Hbc. rewrite Ecb in Hbc. discriminate.
Qed.

Lemma lex_lt_trans (a b c : list Z) :
  lex_ltb a b = true -> lex_ltb b c = true -> lex_ltb a c = true.
Proof.
  unfold lex_ltb.
  destruct (lex_compare a b) eqn:E1; try discriminate.
  destruct (lex_compare b c) eqn:E2; try discriminate.
  rewrite (lex_compare_trans_lt a b c E1 E2). reflexivity.
Qed.

Section SortFacts.
Context {A : Type} (key : A -> list Z).

Lemma insert_by_perm (x : A) (l : list A) : Permutation (insert_by key x l) (x :: l).
Proof.
  induction l as [| y l IH]; simpl; [reflexivity |].
  destruct (lex_ltb (key y) (key x)); [| reflexivity].
  rewrite IH. apply perm_swap.
Qed.

Lemma sort_by_perm (l : list A) : Permutation (sort_by key l) l.
Proof.
  induction l as [| x l IH]; simpl; [reflexivity |].
  rewrite insert_by_perm, IH. reflexivity.
Qed.

Lemma sorted_by_perm (reverse : bool) (l : list A) :
  Permutation (sorted_by key reverse l) l.
Proof.
  unfold sorted_by. destruct reverse; [| apply sort_by_perm].
  rewrite <- Permutation_rev, sort_by_perm, <- Permutation_rev. reflexivity.
Qed.

Lemma insert_by_sorted (x : A) (l : list A) :
  StronglySorted (key_le key) l -> StronglySorted (key_le key) (insert_by key x l).
Proof.
  induction 1 as [| y l Hl IH Hy]; simpl.
  - constructor; constructor.
  - destruct (lex_ltb (key y) (key x)) eqn:E.
    + constructor; [exact IH |].
      rewrite insert_by_perm. constructor; [| exact Hy].
      unfold key_le. apply lex_ltb_asym, E.
    + constructor; [constructor; assumption |].
      constructor; [exact E |].
      eapply Forall_impl; [exact Hy |].
      intros z Hz. unfold key_le in *. eapply lex_le_trans; eassumption.
Qed.

Lemma sort_by_sorted (l : list A) : StronglySorted (key_le key) (sort_by key l).
Proof.
  induction l as [| x l IH]; simpl; [constructor | apply insert_by_sorted, IH].
Qed.

Lemma sorted_le_to_lt (l : list A) :
  NoDup (map key l) -> StronglySorted (key_le key) l -> StronglySorted (key_lt key) l.
Proof.
  induction l as [| x l IH]; intros Hnd Hs; [constructor |].
  apply NoDup_cons in Hnd as [Hx Hnd]. inversion Hs as [| ? ? Hs' Hall]; subst.
  constructor; [apply IH; assumption |].
  apply Forall_forall. intros y Hy.
  rewrite Forall_forall in Hall. specialize (Hall y Hy).
  apply lex_ltb_total; [exact Hall |].
  intros Heq. apply Hx. rewrite Heq. apply list_elem_of_fmap_2. exact Hy.
Qed.

(** Two strictly sorted lists with the same items are the same list. *)
Lemma strictly_sorted_unique (l l' : list A) :
  StronglySorted (key_lt key) l -> StronglySorted (key_lt key) l' -> Permutation l l' -> l = l'.
Proof.
  revert l'. induction l as [| x l IH]; intros l' Hs Hs' Hp.
  - apply Permutation_nil in Hp. congruence.
  - destruct l' as [| y l'];
      [symmetry in Hp; apply Permutation_nil in Hp; discriminate |].
    inversion Hs as [| ? ? Hsl Hxl]; inversion Hs' as [| ? ? Hsl' Hyl']; subst.
    assert (x = y) as ->.
    { assert (In x (y :: l')) as Hx by (eapply Permutation_in; [exact Hp | left; reflexivity]).
      assert (In y (x :: l)) as Hy
        by (eapply Permutation_in; [symmetry; exact Hp | left; reflexivity]).
      destruct Hx as [-> | Hx]; [reflexivity |].
      destruct Hy as [-> | Hy]; [reflexivity |].
      rewrite Forall_forall in Hxl, Hyl'.
      pose proof (Hxl y ltac:(apply list_elem_of_In; exact Hy)) as H1.
      pose proof (Hyl' x ltac:(apply list_elem_of_In; exact Hx)) as H2.
      unfold key_lt in *. apply lex_ltb_asym in H1. congruence. }
    f_equal. apply IH; [assumption | assumption |].
    eapply Permutation_cons_inv, Hp.
Qed.

Lemma StronglySorted_filter (R : A -> A -> Prop) (P : A -> Prop)
    `{forall x, Decision (P x)} (l : list A) :
  StronglySorted R l -> StronglySorted R (filter P l).
Proof.
  induction 1 as [| x l Hl IH Hx]; [constructor |].
  destruct (decide (P x)) as [HP | HP].
  - rewrite filter_cons_True by exact HP. constructor; [exact IH |].
    apply Forall_forall. intros y Hy. apply list_elem_of_filter in Hy as [_ Hy].
    rewrite Forall_forall in Hx. apply Hx, Hy.
  - rewrite filter_cons_False by exact HP. exact IH.
Qed.

Lemma StronglySorted_snoc (R : A -> A -> Prop) (l : list A) (x : A) :
  StronglySorted R l -> Forall (fun y => R y x) l -> StronglySorted R (l ++ [x]).
Proof.
  induction 1 as [| z l Hl IH Hz]; intros Hall; simpl.
  - constructor; constructor.
  - apply Forall_cons in Hall as [Hzx Hall].
    constructor; [apply IH, Hall |].
    apply Forall_app. split; [exact Hz | constructor; [exact Hzx | constructor]].
Qed.

Lemma StronglySorted_rev_flip (R : A -> A -> Prop) (l : list A) :
  StronglySorted R l -> StronglySorted (fun a b => R b a) (rev l).
Proof.
  induction 1 as [| x l Hl IH Hx]; [constructor |].
  simpl. apply StronglySorted_snoc; [exact IH |].
  apply Forall_rev. exact Hx.
Qed.

End SortFacts.

(** ** Grouping the journal by day *)

Lemma str_codes_inj (a b : string) : str_codes a = str_codes b -> a = b.
Proof.
  unfold str_codes. intros H.
  rewrite <- (string_of_list_ascii_of_string a), <- (string_of_list_ascii_of_string b).
  f_equal. revert H.
  generalize (list_ascii_of_string a) (list_ascii_of_string b).
  induction l as [| x l IH]; intros [| y l']; simpl; try discriminate; [reflexivity |].
  intros [= Hc Hl]. f_equal; [| apply IH, Hl].
  unfold code in Hc. apply N2Z.inj in Hc.
  rewrite <- (ascii_N_embedding x), <- (ascii_N_embedding y), Hc. reflexivity.
Qed.

Lemma flatten_setdefault_append (key : string) (e : journal_entry)
    (groups : list (string * list journal_entry)) :
  Permutation (flatten (setdefault_append key e groups)) (e :: flatten groups).
Proof.
  unfold flatten. induction groups as [| [k es] rest IH]; simpl; [reflexivity |].
  destruct (String.eqb k key); simpl.
  - rewrite <- app_assoc. simpl. symmetry. apply Permutation_middle.
  - rewrite IH. symmetry. apply Permutation_middle.
Qed.

Lemma flatten_perm (g g' : list (string * list journal_entry)) :
  Permutation g g' -> Permutation (flatten g) (flatten g').
Proof.
  unfold flatten. induction 1 as [| x l l' _ IH | x y l | l l' l'' _ IH1 _ IH2]; simpl.
  - reflexivity.
  - rewrite IH. reflexivity.
  - rewrite !app_assoc. apply Permutation_app_tail, Permutation_app_comm.
  - rewrite IH1. exact IH2.
Qed.

Lemma setdefault_append_keys (key : string) (e : journal_entry)
    (groups : list (string * list journal_entry)) :
  (In key (map fst groups) ->
     map fst (setdefault_append key e groups) = map fst groups)
  /\ (~ In key (map fst groups) ->
        map fst (setdefault_append key e groups) = map fst groups ++ [key]).
Proof.
  induction groups as [| [k es] rest [IH1 IH2]]; simpl.
  - split; [intros [] | reflexivity].
  - destruct (String.eqb_spec k key) as [-> | Hne]; simpl.
    + split; [reflexivity | intros H; exfalso; apply H; left; reflexivity].
    + split.
      * intros [Hk | Hin]; [contradiction |]. rewrite (IH1 Hin). reflexivity.
      * intros Hnot. rewrite IH2; [reflexivity |]. intros Hin. apply Hnot. right. exact Hin.
Qed.

Lemma In_setdefault_append (key : string) (e : journal_entry)
    (groups : list (string * list journal_entry)) (k' : string)
    (es' : list journal_entry) :
  NoDup (map fst groups) ->
  In (k', es') (setdefault_append key e groups) ->
  (k' <> key /\ In (k', es') groups)
  \/ (k' = key /\ ((exists es0, In (key, es0) groups /\ es' = es0 ++ [e])
                  \/ (~ In key (map fst groups) /\ es' = [e]))).
Proof.
  induction groups as [| [k es] rest IH]; simpl; intros Hnd.
  - intros [[= <- <-] | []]. right. split; [reflexivity |]. right. split; [tauto | reflexivity].
  - apply NoDup_cons in Hnd as [Hk Hnd].
    destruct (String.eqb_spec k key) as [-> | Hne]; simpl.
    + intros [[= <- <-] | Hin].
      * right. split; [reflexivity |]. left. exists es. split; [left; reflexivity | reflexivity].
      * left. split; [| right; exact Hin].
        intros ->. apply Hk, list_elem_of_In.
        change key with (fst (key, es')). apply in_map, Hin.
    + intros [[= <- <-] | Hin].
      * left. split; [exact Hne | left; reflexivity].
      * destruct (IH Hnd Hin) as [[Hk' Hin'] | [-> [(es0 & Hin0 & ->) | [Hnot ->]]]].
        -- left. split; [exact Hk' | right; exact Hin'].
        -- right. split; [reflexivity |]. left. exists es0. split; [right; exact Hin0 | reflexivity].
        -- right. split; [reflexivity |]. right. split; [| reflexivity].
           intros [Hk' | Hin']; [contradiction | exact (Hnot Hin')].
Qed.

Lemma filter_none {A : Type} (P : A -> Prop) `{forall x, Decision (P x)} (l : list A) :
  (forall x, In x l -> ~ P x) -> filter P l = [].
Proof.
  induction l as [| x l IH]; intros Hall; [reflexivity |].
  rewrite filter_cons_False by (apply Hall; left; reflexivity).
  apply IH. intros y Hy. apply Hall. right. exact Hy.
Qed.

Lemma grouped_step (groups : list (string * list journal_entry))
    (done : list journal_entry) (e : journal_entry) :
  grouped groups done ->
  grouped (setdefault_append (day_key e) e groups) (done ++ [e]).
Proof.
  intros (Hnd & Hgroups & Hcover).
  destruct (setdefault_append_keys (day_key e) e groups) as [Hin Hnot].
  split; [| split].
  - destruct (in_dec string_dec (day_key e) (map fst groups)) as [Hk | Hk].
    + rewrite (Hin Hk). exact Hnd.
    + rewrite (Hnot Hk). apply NoDup_app. split; [exact Hnd |]. split.
      * intros x Hx Hx'. apply list_elem_of_In in Hx.
        apply list_elem_of_singleton in Hx'. subst x. contradiction.
      * apply NoDup_singleton.
  - intros k es Hmem. rewrite filter_app.
    destruct (In_setdefault_append _ _ _ _ _ Hnd Hmem)
      as [[Hk Hmem'] | [-> [(es0 & Hmem0 & ->) | [Hk ->]]]].
    + destruct (Hgroups k es Hmem') as [Hne ->]. split; [exact Hne |].
      rewrite filter_cons_False by congruence. rewrite filter_nil, app_nil_r. reflexivity.
    + destruct (Hgroups _ _ Hmem0) as [_ ->].
      split; [intros H; apply app_eq_nil in H as [_ H]; discriminate |].
      rewrite filter_cons_True by reflexivity. rewrite filter_nil. reflexivity.
    + split; [discriminate |].
      rewrite filter_cons_True by reflexivity. rewrite filter_nil.
      rewrite filter_none; [reflexivity |].
      intros e0 He0 Heq. apply Hk. rewrite <- Heq. apply Hcover, He0.
  - intros e0 He0.
    assert (forall k, In k (map fst groups) ->
                      In k (map fst (setdefault_append (day_key e) e groups))) as Hmono.
    { intros k Hk.
      destruct (in_dec string_dec (day_key e) (map fst groups)) as [Hk' | Hk'].
      - rewrite (Hin Hk'). exact Hk.
      - rewrite (Hnot Hk'). apply in_or_app. left. exact Hk. }
    apply in_app_or in He0 as [He0 | [<- | []]].
    + apply Hmono, Hcover, He0.
    + destruct (in_dec string_dec (day_key e) (map fst groups)) as [Hk' | Hk'].
      * rewrite (Hin Hk'). exact Hk'.
      * rewrite (Hnot Hk'). apply in_or_app. right. left. reflexivity.
Qed.

Lemma grouped_fold (todo : list journal_entry) :
  forall (groups : list (string * list journal_entry)) (done : list journal_entry),
    grouped groups done ->
    grouped (fold_left (fun groups e => setdefault_append (day_key e) e groups) todo groups)
            (done ++ todo).
Proof.
  induction todo as [| e todo IH]; intros groups done Hg; simpl.
  - rewrite app_nil_r. exact Hg.
  - replace (done ++ e :: todo) with ((done ++ [e]) ++ todo)
      by (rewrite <- app_assoc; reflexivity).
    apply IH, grouped_step, Hg.
Qed.

Lemma flatten_fold (todo : list journal_entry) :
  forall groups : list (string * list journal_entry),
    Permutation
      (flatten (fold_left (fun groups e => setdefault_append (day_key e) e groups)
                          todo groups))
      (flatten groups ++ todo).
Proof.
  induction todo as [| e todo IH]; intros groups; simpl.
  - rewrite app_nil_r. reflexivity.
  - rewrite IH, flatten_setdefault_append. apply Permutation_middle.
Qed.

(** The groups before the final sort, and what holds of them. *)
Lemma group_by_date_raw (u : User) (newest : bool) :
  Permutation (group_by_date u newest) (groups_dict u)
  /\ group_by_date u newest = sorted_by group_key newest (groups_dict u)
  /\ grouped (groups_dict u) (sort_by entry_key (get_journal_entries u))
  /\ Permutation (flatten (groups_dict u)) (get_journal_entries u).
Proof.
  split; [apply sorted_by_perm |]. split; [reflexivity |]. split.
  - apply (grouped_fold _ [] []).
    split; [constructor |]. split; [intros k es [] | intros e []].
  - unfold groups_dict. rewrite flatten_fold. apply sort_by_perm.
Qed.

(** X13. The journey screen shows every entry exactly once, under its own
    day.  On a store of real (naive) date-times, the groups of
    [group_by_date], taken together, are a rearrangement of the journal's
    entries; no day has two groups and no group is empty; and a group holds
    exactly the entries of its day, in the order the chronological (stable)
    sort of the journal puts them. *)
Theorem group_by_date_partition (u : User) (newest : bool) :
  entries_ok (get_journal_entries u) ->
  let groups := group_by_date u newest in
  let sorted_entries := sort_by entry_key (get_journal_entries u) in
  Permutation (flatten groups) (get_journal_entries u)
  /\ NoDup (map fst groups)
  /\ (forall k es, In (k, es) groups ->
        es <> [] /\ es = filter (fun e => day_key e = k) sorted_entries)
  /\ (forall e, In e (get_journal_entries u) ->
        exists es, In (day_key e, es) groups /\ In e es).
Proof.
  intros _ groups sorted_entries.
  destruct (group_by_date_raw u newest)
    as (Hperm & _ & (Hnd & Hgroups & Hcover) & Hflat).
  set (raw := groups_dict u) in *.
  fold groups in Hperm. fold sorted_entries in Hgroups, Hcover.
  assert (forall k es, In (k, es) groups ->
            es <> [] /\ es = filter (fun e => day_key e = k) sorted_entries) as Hg.
  { intros k es Hin. apply Hgroups. eapply Permutation_in; [exact Hperm | exact Hin]. }
  split; [| split; [| split]].
  - rewrite (flatten_perm _ _ Hperm). exact Hflat.
  - assert (Permutation (map fst groups) (map fst raw)) as ->
      by apply Permutation_map, Hperm.
    exact Hnd.
  - exact Hg.
  - intros e He.
    assert (In e sorted_entries) as Hs
      by (eapply Permutation_in; [symmetry; apply sort_by_perm | exact He]).
    specialize (Hcover e Hs). apply in_map_iff in Hcover as ([k es] & Hk & Hin).
    simpl in Hk. subst k. exists es.
    assert (In (day_key e, es) groups) as Hin'
      by (eapply Permutation_in; [symmetry; exact Hperm | exact Hin]).
    split; [exact Hin' |].
    destruct (Hg _ _ Hin') as [_ ->].
    apply list_elem_of_In, list_elem_of_filter. split; [reflexivity |].
    apply list_elem_of_In. exact Hs.
Qed.

Lemma group_by_date_partition_witness :
  let u := mkUser "Mine" "Budi" None
             [ (mkdatetime 2024 3 9 21 0 0 0, PyStr "malam");
               (mkdatetime 2024 3 8 7 30 0 0, PyStr "kemarin");
               (mkdatetime 2024 3 9 6 15 0 0, PyStr "pagi") ]
             "journals_Mine.json" in
  let groups := group_by_date u true in
  let sorted_entries := sort_by entry_key (get_journal_entries u) in
  Permutation (flatten groups) (get_journal_entries u)
  /\ NoDup (map fst groups)
  /\ (forall k es, In (k, es) groups ->
        es <> [] /\ es = filter (fun e => day_key e = k) sorted_entries)
  /\ (forall e, In e (get_journal_entries u) ->
        exists es, In (day_key e, es) groups /\ In e es).
Proof.
  intros u. apply (group_by_date_partition u true). repeat constructor.
Defined.

Lemma group_keys_nodup (raw l : list (string * list journal_entry)) :
  NoDup (map fst raw) -> Permutation l raw -> NoDup (map group_key l).
Proof.
  intros Hnd Hperm.
  assert (map group_key l = map str_codes (map fst l)) as ->
    by (rewrite map_map; reflexivity).
  apply (NoDup_fmap_2 (A := string)); [intros a b; apply str_codes_inj |].
  assert (Permutation (map fst l) (map fst raw)) as -> by apply Permutation_map, Hperm.
  exact Hnd.
Qed.

(** X14. The days of the journey screen come in order.  On a store of real
    (naive) date-times: oldest first, the group keys are strictly
    increasing; newest first is exactly the reverse list; and inside every
    group the entries are in chronological order. *)
Theorem group_by_date_order (u : User) :
  entries_ok (get_journal_entries u) ->
  StronglySorted (key_lt group_key) (group_by_date u false)
  /\ group_by_date u true = rev (group_by_date u false)
  /\ (forall newest k es, In (k, es) (group_by_date u newest) ->
        StronglySorted (key_le entry_key) es).
Proof.
  intros _.
  destruct (group_by_date_raw u false) as (_ & Heq & (Hnd & Hgroups & _) & _).
  destruct (group_by_date_raw u true) as (_ & Heq' & _).
  assert (forall l, Permutation l (groups_dict u) ->
            StronglySorted (key_lt group_key) (sort_by group_key l)) as Hstrict.
  { intros l Hl. apply sorted_le_to_lt; [| apply sort_by_sorted].
    apply (group_keys_nodup (groups_dict u)); [exact Hnd |].
    rewrite sort_by_perm. exact Hl. }
  split; [| split].
  - rewrite Heq. apply Hstrict. reflexivity.
  - rewrite Heq, Heq'. unfold sorted_by. f_equal.
    apply (strictly_sorted_unique group_key).
    + apply Hstrict. symmetry. apply Permutation_rev.
    + apply Hstrict. reflexivity.
    + rewrite !sort_by_perm. symmetry. apply Permutation_rev.
  - intros newest k es Hin.
    destruct (group_by_date_raw u newest) as (Hperm & _).
    destruct (Hgroups k es) as [_ ->];
      [eapply Permutation_in; [exact Hperm | exact Hin] |].
    apply StronglySorted_filter, sort_by_sorted.
Qed.

Lemma group_by_date_order_witness :
  let u := mkUser "Mine" "Budi" None
             [ (mkdatetime 2024 3 9 21 0 0 0, PyStr "malam");
               (mkdatetime 2024 3 8 7 30 0 0, PyStr "kemarin");
               (mkdatetime 2024 3 9 6 15 0 0, PyStr "pagi") ]
             "journals_Mine.json" in
  StronglySorted (key_lt group_key) (group_by_date u false)
  /\ group_by_date u true = rev (group_by_date u false)
  /\ (forall newest k es, In (k, es) (group_by_date u newest) ->
        StronglySorted (key_le entry_key) es).
Proof.
  intros u. apply (group_by_date_order u). repeat constructor.
Defined.

Example group_by_date_two_days :
  let u := mkUser "Mine" "Budi" None
             [ (mkdatetime 2024 3 9 21 0 0 0, PyStr "malam");
               (mkdatetime 2024 3 8 7 30 0 0, PyStr "kemarin");
               (mkdatetime 2024 3 9 6 15 0 0, PyStr "pagi") ]
             "journals_Mine.json" in
  group_by_date u true
  = [ ("2024-03-09", [ (mkdatetime 2024 3 9 6 15 0 0, PyStr "pagi");
                       (mkdatetime 2024 3 9 21 0 0 0, PyStr "malam") ]);
      ("2024-03-08", [ (mkdatetime 2024 3 8 7 30 0 0, PyStr "kemarin") ]) ].
Proof. vm_compute. reflexivity. Qed.

(** ** The journal screen and the mood screen *)

Example py_int_spaces_and_sign :
  py_int " 29" = Some 29 /\ py_int "+30" = Some 30 /\ py_int "-7 " = Some (-7)
  /\ py_int "+ 5" = None /\ py_int "   " = None.
Proof. repeat split. Qed.

Example py_int_underscores :
  py_int "1_000" = Some 1000 /\ py_int "1__0" = None /\ py_int "_1" = None
  /\ py_int "1_" = None.
Proof. repeat split. Qed.

(** The separator 0x1C is white space for [strip] and not for [int]. *)
Example py_int_separator :
  py_int (String (ascii_of_nat 28) "5") = None
  /\ strip (String (ascii_of_nat 28) "5") = "5".
Proof. split; reflexivity. Qed.

(** 4300 digits are converted, 4301 are not. *)
Example py_int_digit_limit :
  py_int (string_of_list_ascii (repeat "1"%char 4300)) <> None
  /\ py_int (string_of_list_ascii (repeat "1"%char 4301)) = None.
Proof. split; [vm_compute; discriminate | vm_compute; reflexivity]. Qed.

Lemma int_of_run (s : string) (w : world) :
  int_of s w = match py_int s with
               | Some n => (Ok n, w)
               | None => (Raise ValueError, w)
               end.
Proof. unfold int_of. destruct (py_int s); reflexivity. Qed.

(** The timestamp step of [save_entry]. *)
Lemma save_entry_date_step (f : journal_form) (w : world) :
  try_except
    (do d <~ int_of (day_sb f) ;
     do m <~ int_of (month_sb f) ;
     do y <~ int_of (year_sb f) ;
     do h <~ int_of (hour_sb_j f) ;
     do mi <~ int_of (min_sb_j f) ;
     datetime_of_fields y m d h mi)
    (fun _ => now) w
  = match form_date f with
    | Some t => (Ok t, w)
    | None => now w
    end.
Proof.
  unfold try_except, bind, form_date, datetime_of_fields. rewrite !int_of_run.
  destruct (py_int (day_sb f)) as [d |]; [| reflexivity]. option_step.
  rewrite !int_of_run.
  destruct (py_int (month_sb f)) as [m |]; [| reflexivity]. option_step.
  rewrite !int_of_run.
  destruct (py_int (year_sb f)) as [y |]; [| reflexivity]. option_step.
  rewrite !int_of_run.
  destruct (py_int (hour_sb_j f)) as [h |]; [| reflexivity]. option_step.
  rewrite !int_of_run.
  destruct (py_int (min_sb_j f)) as [mi |]; [| reflexivity]. option_step.
  destruct (datetime_new y m d h mi 0 0); reflexivity.
Qed.

(** X15. [save_entry] never raises (the fields of the form being ASCII
    text).  A text that is blank after stripping
    is refused: the user object is returned as it was and no file is
    written.  Any other text is stored stripped, as one new entry at the
    end; its timestamp is the date-time of the spin boxes when they spell a
    real calendar date-time, and the current clock reading otherwise (an
    impossible date such as 31 February is not an error); so the store
    keeps holding real date-times only. *)
Theorem save_entry_behaviour (u : User) (f : journal_form) (w : world) :
  Forall is_ascii [day_sb f; month_sb f; year_sb f; hour_sb_j f; min_sb_j f; text f] ->
  let stamp := match form_date f with
               | Some t => t
               | None => clock w (ticks w)
               end in
  exists u' fb w',
    save_entry u f w = (Ok (u', fb), w')
    /\ (is_empty (strip (text f)) = true ->
          u' = u /\ fb = Empty /\ files w' = files w /\ faults w' = faults w)
    /\ (is_empty (strip (text f)) = false ->
          fb = Saved
          /\ _journal_entries u' = _journal_entries u ++ [(stamp, PyStr (strip (text f)))])
    /\ (clock_ok w -> entries_ok (_journal_entries u) ->
          entries_ok (_journal_entries u')).
Proof.
  intros _ stamp. unfold save_entry.
  assert (exists w0,
            try_except
              (do d <~ int_of (day_sb f) ;
               do m <~ int_of (month_sb f) ;
               do y <~ int_of (year_sb f) ;
               do h <~ int_of (hour_sb_j f) ;
               do mi <~ int_of (min_sb_j f) ;
               datetime_of_fields y m d h mi)
              (fun _ => now) w = (Ok stamp, w0)
            /\ files w0 = files w /\ faults w0 = faults w
            /\ (clock_ok w -> datetime_ok stamp = true))
    as (w0 & Hstep & Hfiles & Hfaults & Hstamp).
  { rewrite save_entry_date_step. subst stamp.
    destruct (form_date f) as [t |] eqn:Hf.
    - exists w. repeat split. intros _.
      unfold form_date in Hf.
      destruct (py_int (day_sb f)); [| discriminate]. option_step_in Hf.
      destruct (py_int (month_sb f)); [| discriminate]. option_step_in Hf.
      destruct (py_int (year_sb f)); [| discriminate]. option_step_in Hf.
      destruct (py_int (hour_sb_j f)); [| discriminate]. option_step_in Hf.
      destruct (py_int (min_sb_j f)); [| discriminate]. option_step_in Hf.
      eapply datetime_new_ok, Hf.
    - eexists. split; [reflexivity |]. repeat split. intros Hc. apply Hc. }
  rewrite (bind_ok _ _ _ _ _ Hstep).
  destruct (is_empty (strip (text f))) eqn:Hblank; cbn [negb].
  - exists u, Empty, w0. split; [reflexivity |].
    split; [intros _; repeat split; assumption |].
    split; [discriminate |]. intros _ Hu. exact Hu.
  - destruct (add_journal_entry_run u (strip (text f)) (Some (ADatetime stamp)) w0)
      as [w1 Hadd].
    erewrite bind_ok by exact Hadd.
    eexists _, Saved, w1. split; [reflexivity |].
    cbn [_journal_entries with_entries stamp_of].
    split; [discriminate |]. split; [intros _; split; reflexivity |].
    intros Hc Hu. apply entries_ok_snoc; [exact Hu | apply Hstamp, Hc].
Qed.

Lemma save_entry_behaviour_witness :
  let f := mkjournal_form "31" "2" "2024" "10" "30" "   " in
  let u := mkUser "Mine" "Budi" None [] "journals_Mine.json" in
  Forall is_ascii [day_sb f; month_sb f; year_sb f; hour_sb_j f; min_sb_j f; text f]
  /\ exists u' fb w', save_entry u f quiet_world = (Ok (u', fb), w') /\ u' = u /\ fb = Empty.
Proof.
  intros f u.
  assert (Forall is_ascii
            [day_sb f; month_sb f; year_sb f; hour_sb_j f; min_sb_j f; text f]) as Hasc
    by repeat constructor.
  split; [exact Hasc |].
  destruct (save_entry_behaviour u f quiet_world Hasc)
    as (u' & fb & w' & Hrun & Hblank & _).
  exists u', fb, w'. split; [exact Hrun |].
  destruct (Hblank eq_refl) as (Hu & Hfb & _). split; assumption.
Defined.

Example save_entry_impossible_date :
  let f := mkjournal_form "31" "2" "2024" "10" "30" " halo " in
  let u := mkUser "Mine" "Budi" None [] "journals_Mine.json" in
  fst (save_entry u f quiet_world)
  = Ok (with_entries u [(mkdatetime 2024 3 9 7 5 30 0, PyStr "halo")], Saved).
Proof. vm_compute. reflexivity. Qed.

(** A day box that [int] refuses: the entry is stamped with the clock. *)
Example save_entry_day_not_a_number :
  let f := mkjournal_form (String (ascii_of_nat 28) "5") "3" "2024" "10" "30" "halo" in
  let u := mkUser "Mine" "Budi" None [] "journals_Mine.json" in
  fst (save_entry u f quiet_world)
  = Ok (with_entries u [(mkdatetime 2024 3 9 7 5 30 0, PyStr "halo")], Saved).
Proof. vm_compute. reflexivity. Qed.

Example save_entry_given_date :
  let f := mkjournal_form " 29" "2" "2024" "10" "+30" "halo" in
  let u := mkUser "Mine" "Budi" None [] "journals_Mine.json" in
  fst (save_entry u f quiet_world)
  = Ok (with_entries u [(mkdatetime 2024 2 29 10 30 0 0, PyStr "halo")], Saved).
Proof. vm_compute. reflexivity. Qed.





Example save_mood_at_given_time :
  let f := mkmood_form 5 "lelah tapi senang" "21" "05" in
  let u := mkUser "Mine" "Budi" None [] "journals_Mine.json" in
  fst (save_mood u new_stack f quiet_world)
  = Ok (with_entries u
          [(mkdatetime 2024 3 9 21 5 0 0,
            PyStr ("Mood: 😄 (5)" ++ newline ++ "lelah tapi senang")%string)],
        push new_stack (MoodAction (mkdatetime 2024 3 9 21 5 0 0) 5 "lelah tapi senang"),
        mkmood_box (mood_message 5) "Kamu punya kekuatan dalam kelembutan.").
Proof. vm_compute. reflexivity. Qed.

(** ** The questions of the relationship scan *)

Lemma questions_loop_run (current_user : option User) (base : list string) :
  base <> [] ->
  forall (k fuel : nat) (questions : list string),
    (length questions + k = 50)%nat -> (k <= fuel)%nat ->
    questions_loop fuel current_user base questions (Z.of_nat (length questions))
    = Some (Ok (questions
                ++ map (fun j => _sub_partner current_user
                                   (nth (j mod length base) base EmptyString))
                       (seq (length questions) k))).
Proof.
  intros Hne.
  assert (0 < length base)%nat as Hlen by (destruct base; [congruence | simpl; lia]).
  induction k as [| k IH]; intros fuel questions Hk Hfuel.
  - assert ((length questions <? 50)%nat = false) as E by (apply Nat.ltb_ge; lia).
    destruct fuel; simpl; rewrite E, app_nil_r; reflexivity.
  - assert ((length questions <? 50)%nat = true) as E by (apply Nat.ltb_lt; lia).
    destruct fuel as [| fuel]; [lia |].
    cbn [questions_loop]. rewrite E.
    destruct (Nat.eqb_spec (length base) 0) as [E0 | _]; [lia |].
    assert (list_get base (Z.of_nat (length questions) mod Z.of_nat (length base))
            = Ok (nth (length questions mod length base) base EmptyString)) as ->.
    { unfold list_get.
      rewrite <- Nat2Z.inj_mod, Nat2Z.id.
      assert (length questions mod length base < length base)%nat as Hm
        by (apply Nat.mod_upper_bound; lia).
      destruct (lookup_lt_is_Some_2 base _ Hm) as [q Hq].
      rewrite Hq. f_equal. symmetry. apply nth_lookup_Some with (d := EmptyString) in Hq.
      exact Hq. }
    replace (Z.of_nat (length questions) + 1)
      with (Z.of_nat (length (questions
                ++ [_sub_partner current_user
                      (nth (length questions mod length base) base EmptyString)])))
      by (rewrite length_app; simpl; lia).
    rewrite IH by (rewrite ?length_app; simpl; lia).
    rewrite length_app. cbn [length seq map]. rewrite Nat.add_1_r, <- app_assoc.
    reflexivity.
Qed.

(** X17. The relationship scan always has fifty questions, taken from the
    base list in order and starting over when it runs out.  For every
    non-empty base list the loop ends (fifty rounds of fuel are enough) with
    exactly fifty questions, the [i]-th being [_sub_partner] of base
    question [i mod len(base)]; with the application's list of forty-nine
    the fiftieth question repeats the first.  An empty base list raises
    [ZeroDivisionError]. *)
Theorem scan_questions_cycle (current_user : option User) (base : list string)
    (fuel : nat) :
  (50 <= fuel)%nat ->
  (base = [] -> build_questions fuel current_user base = Some (Raise ZeroDivisionError))
  /\ (base <> [] ->
      exists qs,
        build_questions fuel current_user base = Some (Ok qs)
        /\ length qs = 50%nat
        /\ (forall i : nat, (i < 50)%nat ->
              qs !! i = Some (_sub_partner current_user
                                (nth (i mod length base) base EmptyString)))
        /\ (length base = 49%nat -> qs !! 49%nat = qs !! 0%nat)).
Proof.
  intros Hfuel. split.
  - intros ->. destruct fuel; [lia | reflexivity].
  - intros Hne. unfold build_questions.
    pose proof (questions_loop_run current_user base Hne 50 fuel [] eq_refl Hfuel) as Hrun.
    cbn [length app] in Hrun. change (Z.of_nat 0) with 0 in Hrun.
    eexists. split; [exact Hrun |].
    assert (forall i : nat, (i < 50)%nat ->
              map (fun j => _sub_partner current_user
                              (nth (j mod length base) base EmptyString)) (seq 0 50) !! i
              = Some (_sub_partner current_user
                        (nth (i mod length base) base EmptyString))) as Hnth.
    { intros i Hi. rewrite list_lookup_fmap.
      rewrite (lookup_seq_lt 0 50 i Hi). reflexivity. }
    split; [rewrite length_map, length_seq; reflexivity |].
    split; [exact Hnth |].
    intros H49. rewrite (Hnth 49%nat), (Hnth 0%nat) by lia. rewrite H49. reflexivity.
Qed.

Lemma scan_questions_cycle_witness :
  (50 <= 50)%nat
  /\ exists qs,
       build_questions 50 None base_questions = Some (Ok qs)
       /\ length qs = 50%nat
       /\ qs !! 49%nat = qs !! 0%nat.
Proof.
  split; [lia |].
  destruct (scan_questions_cycle None base_questions 50 ltac:(lia)) as [_ H].
  destruct (H ltac:(discriminate)) as (qs & Hrun & Hlen & _ & Hlast).
  exists qs. split; [exact Hrun |]. split; [exact Hlen |]. apply Hlast. reflexivity.
Defined.

(** ** Answering the relationship scan *)

Lemma list_get_lt (l : list string) (i : Z) :
  0 <= i < Z.of_nat (length l) -> exists q, list_get l i = Ok q.
Proof.
  intros Hi. unfold list_get.
  destruct (lookup_lt_is_Some_2 l (Z.to_nat i)) as [q Hq]; [lia |].
  rewrite Hq. eauto.
Qed.

(** An answer that does not complete the set only moves to the next
    question. *)
Lemma submit_answer_mid (u : User) (s : scan) (ans continue : bool) (w : world) :
  set_count s + 1 < 10 ->
  0 <= current_idx s ->
  current_idx s + 1 < Z.of_nat (length (questions s)) ->
  exists q,
    submit_answer u s ans continue w
    = (Ok (u, mkscan (questions s) (current_idx s + 1) (set_count s + 1)
                (set_answers s ++ [answer_bit ans]) q false, NextQuestion), w).
Proof.
  intros Hc H0 Hi. unfold submit_answer.
  destruct (Z.leb_spec 10 (set_count s + 1)); [lia |].
  destruct (Z.leb_spec (Z.of_nat (length (questions s))) (current_idx s + 1)); [lia |].
  cbn [orb].
  destruct (list_get_lt (questions s) (current_idx s + 1) ltac:(lia)) as [q Hq].
  rewrite Hq. exists q. reflexivity.
Qed.

Lemma answer_all_mid (answers : list bool) :
  forall (u : User) (s : scan) (continue : bool) (w : world),
    at_home s = false ->
    set_count s + Z.of_nat (length answers) < 10 ->
    0 <= current_idx s ->
    current_idx s + Z.of_nat (length answers) < Z.of_nat (length (questions s)) ->
    exists q,
      answer_all u s answers continue w
      = (Ok (u, mkscan (questions s) (current_idx s + Z.of_nat (length answers))
                  (set_count s + Z.of_nat (length answers))
                  (set_answers s ++ map answer_bit answers)
                  q false), w).
Proof.
  induction answers as [| a answers IH]; intros u s continue w Hhome Hc H0 Hi.
  - exists (q_label s). cbn [answer_all length map]. unfold ret.
    rewrite !Z.add_0_r, app_nil_r. destruct s; simpl in *. subst. reflexivity.
  - cbn [answer_all]. rewrite Hhome. cbn [length] in Hc, Hi.
    destruct (submit_answer_mid u s a continue w ltac:(lia) H0 ltac:(lia)) as [q Hq].
    erewrite bind_ok by exact Hq. cbn [fst snd].
    match goal with
    | |- context [answer_all u ?s1 answers continue w] =>
        destruct (IH u s1 continue w) as [q' Hq']; cbn [at_home set_count current_idx questions];
          try reflexivity; try lia
    end.
    exists q'. rewrite Hq'. cbn [questions current_idx set_count set_answers map length].
    rewrite <- app_assoc.
    replace (current_idx s + Z.of_nat (S (length answers)))
      with (current_idx s + 1 + Z.of_nat (length answers)) by lia.
    replace (set_count s + Z.of_nat (S (length answers)))
      with (set_count s + 1 + Z.of_nat (length answers)) by lia.
    reflexivity.
Qed.

Lemma py_slice_block {A : Type} (l : list A) (start len : nat) :
  (start + len <= length l)%nat ->
  py_slice l (Z.of_nat start) (Z.of_nat start + Z.of_nat len) = take len (drop start l).
Proof.
  intros H. unfold py_slice.
  destruct (Z.ltb_spec (Z.of_nat start) 0); [lia |].
  destruct (Z.ltb_spec (Z.of_nat start + Z.of_nat len) 0); [lia |].
  rewrite !Z.min_l by lia.
  replace (Z.to_nat (Z.of_nat start + Z.of_nat len - Z.of_nat start)) with len by lia.
  rewrite Nat2Z.id. reflexivity.
Qed.

(** The answer that completes a set of ten. *)
Lemma submit_answer_tenth (u : User) (s : scan) (ans continue : bool) (w : world)
    (start : nat) :
  set_count s = 9 ->
  length (set_answers s) = 9%nat ->
  current_idx s = Z.of_nat start + 9 ->
  (start + 10 <= length (questions s))%nat ->
  let answers := set_answers s ++ [answer_bit ans] in
  let u' := with_entries u
              (_journal_entries u
               ++ [(clock w (ticks w),
                    PyStr (scan_content (take 10 (drop start (questions s))) answers))]) in
  exists s' w',
    submit_answer u s ans continue w
    = (Ok (u', s', ScoreBox (RedFlag.sum answers) 10), w')
    /\ questions s' = questions s
    /\ current_idx s' = Z.of_nat start + 10
    /\ (if (Z.of_nat start + 10 <? Z.of_nat (length (questions s))) && continue
        then at_home s' = false /\ set_count s' = 0 /\ set_answers s' = []
        else at_home s' = true).
Proof.
  intros Hc Hlen Hi Hq answers u'. unfold submit_answer.
  destruct (Z.leb_spec 10 (set_count s + 1)); [| lia]. cbn [orb].
  fold (answer_bit ans). fold answers.
  assert (length answers = 10%nat) as Hla
    by (subst answers; rewrite length_app, Hlen; reflexivity).
  rewrite Hla.
  replace (current_idx s + 1 - Z.of_nat 10) with (Z.of_nat start) by lia.
  replace (current_idx s + 1) with (Z.of_nat start + Z.of_nat 10) by lia.
  rewrite py_slice_block by exact Hq.
  destruct (add_journal_entry_run u
              (scan_content (take 10 (drop start (questions s))) answers)
              (Some (ADatetime (clock w (ticks w))))
              (mkworld (files w) (clock w) (S (ticks w)) (faults w))) as [w' Hadd].
  cbn [stamp_of] in Hadd. fold u' in Hadd.
  erewrite bind_ok.
  2:{ apply try_except_ok. erewrite bind_ok by reflexivity. exact Hadd. }
  change (Z.of_nat 10) with 10.
  destruct ((Z.of_nat start + 10 <? Z.of_nat (length (questions s))) && continue) eqn:E.
  - apply andb_true_iff in E as [E _]. apply Z.ltb_lt in E.
    destruct (list_get_lt (questions s) (Z.of_nat start + 10) ltac:(lia)) as [q Hget].
    rewrite Hget. eexists _, w'. split; [reflexivity |].
    cbn [questions current_idx at_home set_count set_answers]. repeat split.
  - eexists _, w'. split; [reflexivity |].
    cbn [questions current_idx at_home]. repeat split.
Qed.

Lemma answer_all_home (u : User) (s : scan) (answers : list bool) (continue : bool)
    (w : world) :
  at_home s = true -> answer_all u s answers continue w = (Ok (u, s), w).
Proof. intros H. destruct answers; cbn [answer_all]; [| rewrite H]; reflexivity. Qed.

Lemma answer_all_app (l1 l2 : list bool) :
  forall (u : User) (s : scan) (continue : bool) (w : world),
    answer_all u s (l1 ++ l2) continue w
    = match answer_all u s l1 continue w with
      | (Ok (u1, s1), w1) => answer_all u1 s1 l2 continue w1
      | (Raise e, w1) => (Raise e, w1)
      end.
Proof.
  induction l1 as [| a l1 IH]; intros u s continue w; [reflexivity |].
  cbn [app answer_all].
  destruct (at_home s) eqn:Hhome.
  - unfold ret. rewrite answer_all_home by exact Hhome. reflexivity.
  - unfold bind.
    destruct (submit_answer u s a continue w) as [[[[u1 s1] box] | e] w1];
      [apply IH | reflexivity].
Qed.

(** One set of ten answers, from a fresh set to the score box. *)
Lemma scan_set_run (u : User) (qs : list string) (label : string) (j : nat)
    (answers : list bool) (continue : bool) (w : world) :
  length qs = 50%nat -> (j < 5)%nat -> length answers = 10%nat ->
  let s := mkscan qs (Z.of_nat (10 * j)) 0 [] label false in
  let bits := map answer_bit answers in
  (forall k : nat, (k < 10)%nat ->
     exists s1, answer_all u s (take k answers) continue w = (Ok (u, s1), w))
  /\ exists u' s' w',
       answer_all u s answers continue w = (Ok (u', s'), w')
       /\ _journal_entries u'
          = _journal_entries u
            ++ [(clock w (ticks w),
                 PyStr (scan_content (take 10 (drop (10 * j) qs)) bits))]
       /\ RedFlag.sum bits = yes_count answers
       /\ 0 <= yes_count answers <= 10
       /\ questions s' = qs
       /\ if (j <? 4)%nat && continue
          then at_home s' = false /\ current_idx s' = Z.of_nat (10 * (j + 1))
               /\ set_count s' = 0 /\ set_answers s' = []
          else at_home s' = true.
Proof.
  intros Hqs Hj Hlen s bits. subst s. split.
  - intros k Hk.
    destruct (answer_all_mid (take k answers) u
                (mkscan qs (Z.of_nat (10 * j)) 0 [] label false) continue w)
      as [q Hq].
    + reflexivity.
    + cbn [set_count]. rewrite length_take. lia.
    + cbn [current_idx]. lia.
    + cbn [current_idx questions]. rewrite length_take, Hqs. lia.
    + eexists. exact Hq.
  - destruct (exists_last (l := answers)) as (answers' & a & ->);
      [intros ->; discriminate Hlen |].
    rewrite length_app in Hlen. cbn [length] in Hlen.
    destruct (answer_all_mid answers' u
                (mkscan qs (Z.of_nat (10 * j)) 0 [] label false) continue w)
      as [q Hq].
    + reflexivity.
    + cbn [set_count]. lia.
    + cbn [current_idx]. lia.
    + cbn [current_idx questions]. rewrite Hqs. lia.
    + rewrite answer_all_app, Hq.
      cbn [set_count current_idx questions set_answers app].
      set (s9 := mkscan qs (Z.of_nat (10 * j) + Z.of_nat (length answers'))
                   (0 + Z.of_nat (length answers')) (map answer_bit answers') q false).
      destruct (submit_answer_tenth u s9 a continue w (10 * j))
        as (s' & w' & Hten & Hq' & Hidx & Hnext).
      * subst s9. cbn [set_count]. lia.
      * subst s9. cbn [set_answers]. rewrite length_map. lia.
      * subst s9. cbn [current_idx]. lia.
      * subst s9. cbn [questions]. rewrite Hqs. lia.
      * subst s9. cbn [set_answers questions] in Hten, Hnext, Hq'.
        cbn [answer_all at_home]. erewrite bind_ok by exact Hten.
        cbn [fst snd]. unfold ret.
        eexists _, s', w'. split; [reflexivity |].
        cbn [_journal_entries with_entries].
        subst bits. rewrite map_app. cbn [map].
        split; [reflexivity |].
        split; [rewrite <- sum_answer_bits, map_app; reflexivity |].
        split.
        { pose proof (yes_count_bounds (answers' ++ [a])) as Hb.
          rewrite length_app in Hb. cbn [length] in Hb. lia. }
        split; [exact Hq' |].
        rewrite Hqs in Hnext.
        assert ((Z.of_nat (10 * j) + 10 <? Z.of_nat 50) = (j <? 4)%nat) as Hcmp.
        { destruct (Nat.ltb_spec j 4); [apply Z.ltb_lt | apply Z.ltb_ge]; lia. }
        rewrite Hcmp in Hnext.
        destruct ((j <? 4)%nat && continue).
        -- destruct Hnext as (Hh & Hc & Ha). repeat split; try assumption.
           rewrite Hidx. lia.
        -- exact Hnext.
Qed.



(** X19. A scan that is carried on to the end takes exactly fifty answers.
    With every "go on" dialog answered yes, fifty answers end on the home
    screen and leave exactly five new journal entries, one per set, after
    the entries the journal already had; answers beyond the fiftieth are
    not taken. *)
Theorem scan_of_fifty_answers (u : User) (qs : list string) (label : string)
    (answers more : list bool) (w : world) :
  length qs = 50%nat -> length answers = 50%nat ->
  exists u' s' w' new,
    answer_all u (open_scan qs label) answers true w = (Ok (u', s'), w')
    /\ at_home s' = true
    /\ _journal_entries u' = _journal_entries u ++ new
    /\ length new = 5%nat
    /\ answer_all u (open_scan qs label) (answers ++ more) true w = (Ok (u', s'), w').
Proof.
  intros Hqs Hlen.
  assert (forall (m j : nat), (j + m = 5)%nat -> (1 <= m)%nat ->
            forall (u : User) (label : string) (w : world) (answers : list bool),
              length answers = (10 * m)%nat ->
              exists u' s' w' new,
                answer_all u (mkscan qs (Z.of_nat (10 * j)) 0 [] label false)
                  answers true w = (Ok (u', s'), w')
                /\ at_home s' = true
                /\ _journal_entries u' = _journal_entries u ++ new
                /\ length new = m) as Hsets.
  { induction m as [| m IH]; intros j Hjm Hm u0 label0 w0 answers0 Hl; [lia |].
    rewrite <- (take_drop 10 answers0), answer_all_app.
    destruct (scan_set_run u0 qs label0 j (take 10 answers0) true w0 Hqs ltac:(lia))
      as (_ & u1 & s1 & w1 & Hrun & Hent & _ & _ & Hq1 & Hnext).
    { rewrite length_take. lia. }
    rewrite Hrun.
    destruct (Nat.ltb_spec j 4) as [Hj4 | Hj4]; cbn [andb] in Hnext.
    - destruct Hnext as (Hh & Hidx & Hc & Ha).
      assert (s1 = mkscan qs (Z.of_nat (10 * (j + 1))) 0 [] (q_label s1) false) as ->
        by (destruct s1; simpl in *; subst; reflexivity).
      destruct (IH (j + 1)%nat ltac:(lia) ltac:(lia) u1 (q_label s1) w1 (drop 10 answers0))
        as (u' & s' & w' & new & Hrun' & Hhome & Hent' & Hnew).
      { rewrite length_drop. lia. }
      exists u', s', w', ((clock w0 (ticks w0),
                          PyStr (scan_content (take 10 (drop (10 * j) qs))
                                   (map answer_bit (take 10 answers0)))) :: new).
      split; [exact Hrun' |]. split; [exact Hhome |].
      split; [rewrite Hent', Hent, <- app_assoc; reflexivity | simpl; lia].
    - rewrite answer_all_home by exact Hnext.
      eexists u1, s1, w1, _. split; [reflexivity |]. split; [exact Hnext |].
      split; [exact Hent |]. simpl. lia. }
  destruct (Hsets 5%nat 0%nat eq_refl ltac:(lia) u label w answers Hlen)
    as (u' & s' & w' & new & Hrun & Hhome & Hent & Hnew).
  change (mkscan qs (Z.of_nat (10 * 0)) 0 [] label false) with (open_scan qs label) in Hrun.
  exists u', s', w', new. repeat split; try assumption.
  rewrite answer_all_app, Hrun. apply answer_all_home, Hhome.
Qed.

Lemma scan_of_fifty_answers_witness :
  let qs := map (fun i => pretty (i : nat)) (seq 0 50) in
  let answers := repeat true 50 in
  length qs = 50%nat /\ length answers = 50%nat
  /\ exists u' s' w',
       answer_all (mkUser "Mine" "Budi" None [] "journals_Mine.json")
         (open_scan qs "0") answers true quiet_world = (Ok (u', s'), w')
       /\ at_home s' = true.
Proof.
  intros qs answers. split; [reflexivity |]. split; [reflexivity |].
  destruct (scan_of_fifty_answers (mkUser "Mine" "Budi" None [] "journals_Mine.json")
              qs "0" answers [] quiet_world eq_refl eq_refl)
    as (u' & s' & w' & new & Hrun & Hhome & _).
  exists u', s', w'. split; [exact Hrun | exact Hhome].
Defined.

Example scan_content_of_two :
  scan_content ["Satu?"; "Dua?"] [1; 0]
  = ("Relationship Scan — Score 1/2" ++ newline
     ++ "1. Satu? — Ya" ++ newline ++ "2. Dua? — Tidak")%string.
Proof. vm_compute. reflexivity. Qed.

(** ** The journey screen, oldest first, is the chronological list *)

Lemma lex_compare_app (p1 p2 s1 s2 : list Z) :
  length p1 = length p2 ->
  lex_compare (p1 ++ s1) (p2 ++ s2)
  = match lex_compare p1 p2 with
    | Eq => lex_compare s1 s2
    | c => c
    end.
Proof.
  revert p2. induction p1 as [| x p1 IH]; intros [| y p2] Hlen; try discriminate Hlen.
  - reflexivity.
  - simpl. destruct (x ?= y); [apply IH; simpl in Hlen; lia | reflexivity | reflexivity].
Qed.

Lemma code_digit_of (d : Z) : 0 <= d <= 9 -> code (digit_of d) = 48 + d.
Proof.
  intros H.
  assert (d = 0 \/ d = 1 \/ d = 2 \/ d = 3 \/ d = 4 \/ d = 5 \/ d = 6
          \/ d = 7 \/ d = 8 \/ d = 9) as Hd by lia.
  repeat (destruct Hd as [-> | Hd]; [reflexivity |]).
  subst d. reflexivity.
Qed.

(** Zero-padded numbers of one width compare as strings the way they
    compare as numbers. *)
Lemma lex_compare_zfill (k : nat) :
  forall a b : Z,
    0 <= a < 10 ^ Z.of_nat k -> 0 <= b < 10 ^ Z.of_nat k ->
    lex_compare (map code (zfill k a)) (map code (zfill k b)) = (a ?= b).
Proof.
  induction k as [| k IH]; intros a b Ha Hb.
  - simpl in *. assert (a = 0) as -> by lia. assert (b = 0) as -> by lia. reflexivity.
  - rewrite Nat2Z.inj_succ, Z.pow_succ_r in Ha, Hb by lia.
    cbn [zfill]. rewrite !map_app.
    rewrite lex_compare_app by (rewrite !length_map, !length_zfill; reflexivity).
    pose proof (Z.div_mod a 10 ltac:(lia)) as Ea.
    pose proof (Z.div_mod b 10 ltac:(lia)) as Eb.
    pose proof (Z.mod_pos_bound a 10 ltac:(lia)) as Ma.
    pose proof (Z.mod_pos_bound b 10 ltac:(lia)) as Mb.
    rewrite IH by lia.
    cbn [map lex_compare]. rewrite !code_digit_of by lia.
    destruct (Z.compare_spec (a / 10) (b / 10)) as [Hq | Hq | Hq].
    + destruct (Z.compare_spec (48 + a mod 10) (48 + b mod 10)) as [Hr | Hr | Hr];
        symmetry; [apply Z.compare_eq_iff | apply Z.compare_lt_iff | apply Z.compare_gt_iff];
        lia.
    + symmetry. apply Z.compare_lt_iff. lia.
    + symmetry. apply Z.compare_gt_iff. lia.
Qed.

(** The day keys of two real dates compare the way the dates do. *)
Lemma day_key_compare (a b : journal_entry) :
  datetime_ok (fst a) = true -> datetime_ok (fst b) = true ->
  lex_compare (str_codes (day_key a)) (str_codes (day_key b))
  = lex_compare [year (fst a); month (fst a); day (fst a)]
                [year (fst b); month (fst b); day (fst b)].
Proof.
  intros Ha Hb.
  unfold datetime_ok in Ha, Hb.
  apply andb_true_iff in Ha as [Ha _]. apply andb_true_iff in Hb as [Hb _].
  destruct (date_fields_ok_bounds _ _ _ Ha) as (Hy & Hm & Hd).
  destruct (date_fields_ok_bounds _ _ _ Hb) as (Hy' & Hm' & Hd').
  unfold str_codes, day_key, date_isoformat, date_of.
  rewrite !list_ascii_of_string_of_list_ascii. cbn [d_year d_month d_day].
  rewrite !map_app. cbn [map]. rewrite !map_app. cbn [map].
  rewrite lex_compare_app by (rewrite !length_map, !length_zfill; reflexivity).
  rewrite (lex_compare_zfill 4) by (simpl; lia).
  cbn [lex_compare].
  destruct (year (fst a) ?= year (fst b)); try reflexivity.
  rewrite Z.compare_refl.
  rewrite lex_compare_app by (rewrite !length_map, !length_zfill; reflexivity).
  rewrite (lex_compare_zfill 2) by (simpl; lia).
  destruct (month (fst a) ?= month (fst b)); try reflexivity.
  cbn [lex_compare]. rewrite Z.compare_refl.
  rewrite <- (app_nil_r (map code (zfill 2 (day (fst a))))).
  rewrite <- (app_nil_r (map code (zfill 2 (day (fst b))))).
  rewrite lex_compare_app by (rewrite !length_map, !length_zfill; reflexivity).
  rewrite (lex_compare_zfill 2) by (simpl; lia).
  destruct (day (fst a) ?= day (fst b)); reflexivity.
Qed.

(** An entry that is not later than another is not on a later day. *)
Lemma day_key_monotone (a b : journal_entry) :
  datetime_ok (fst a) = true -> datetime_ok (fst b) = true ->
  key_le entry_key a b ->
  lex_ltb (str_codes (day_key b)) (str_codes (day_key a)) = false.
Proof.
  intros Ha Hb Hle. unfold key_le, entry_key, lex_ltb, datetime_fields in Hle.
  unfold lex_ltb. rewrite (day_key_compare b a Hb Ha).
  change [year (fst b); month (fst b); day (fst b); hour (fst b); minute (fst b);
          second (fst b); microsecond (fst b)]
    with ([year (fst b); month (fst b); day (fst b)]
          ++ [hour (fst b); minute (fst b); second (fst b); microsecond (fst b)]) in Hle.
  change [year (fst a); month (fst a); day (fst a); hour (fst a); minute (fst a);
          second (fst a); microsecond (fst a)]
    with ([year (fst a); month (fst a); day (fst a)]
          ++ [hour (fst a); minute (fst a); second (fst a); microsecond (fst a)]) in Hle.
  rewrite lex_compare_app in Hle by reflexivity.
  destruct (lex_compare [year (fst b); month (fst b); day (fst b)]
                        [year (fst a); month (fst a); day (fst a)]);
    [reflexivity | discriminate Hle | reflexivity].
Qed.

Lemma sort_by_sorted_id {A : Type} (key : A -> list Z) (l : list A) :
  StronglySorted (key_lt key) l -> sort_by key l = l.
Proof.
  induction 1 as [| x l Hl IH Hx]; [reflexivity |].
  cbn [sort_by]. rewrite IH.
  destruct l as [| y l']; [reflexivity |].
  cbn [insert_by]. apply Forall_cons in Hx as [Hxy _].
  unfold key_lt in Hxy. rewrite (lex_ltb_asym _ _ Hxy). reflexivity.
Qed.

Lemma group_key_lt_total (k k' : string) :
  lex_ltb (str_codes k') (str_codes k) = false -> k <> k' ->
  lex_ltb (str_codes k) (str_codes k') = true.
Proof.
  intros Hle Hne. apply lex_ltb_total; [exact Hle |].
  intros Heq. apply Hne, str_codes_inj, Heq.
Qed.

(** Adding an entry whose day is not before any group's day keeps the
    groups in day order, and puts the entry last. *)
Lemma setdefault_append_sorted (e : journal_entry)
    (groups : list (string * list journal_entry)) :
  StronglySorted (key_lt group_key) groups ->
  (forall kv, In kv groups -> lex_ltb (day_codes e) (group_key kv) = false) ->
  flatten (setdefault_append (day_key e) e groups) = flatten groups ++ [e]
  /\ StronglySorted (key_lt group_key) (setdefault_append (day_key e) e groups).
Proof.
  unfold flatten.
  induction 1 as [| [k es] rest Hrest IH Hk]; intros Hle.
  - split; [reflexivity |]. constructor; constructor.
  - cbn [setdefault_append].
    destruct (String.eqb_spec k (day_key e)) as [-> | Hne].
    + assert (rest = []) as ->.
      { destruct rest as [| kv rest']; [reflexivity |]. exfalso.
        apply Forall_cons in Hk as [Hk _]. unfold key_lt, group_key in Hk. cbn [fst] in Hk.
        specialize (Hle kv ltac:(right; left; reflexivity)).
        unfold day_codes, group_key in Hle. congruence. }
      split; [cbn [map concat snd]; rewrite !app_nil_r; reflexivity |].
      constructor; constructor.
    + destruct IH as [IHflat IHsorted].
      { intros kv Hin. apply Hle. right. exact Hin. }
      split; [cbn [map concat snd] in *; rewrite IHflat, app_assoc; reflexivity |].
      constructor; [exact IHsorted |].
      assert (lex_ltb (str_codes k) (day_codes e) = true) as Hlt.
      { apply group_key_lt_total; [| exact Hne].
        apply (Hle (k, es)). left. reflexivity. }
      apply Forall_forall. intros kv Hin. apply list_elem_of_In in Hin.
      assert (In (fst kv) (map fst (setdefault_append (day_key e) e rest))) as Hkey
        by (apply in_map, Hin).
      destruct (setdefault_append_keys (day_key e) e rest) as [Hin' Hnot].
      destruct (in_dec string_dec (day_key e) (map fst rest)) as [Hd | Hd].
      * rewrite (Hin' Hd) in Hkey. apply in_map_iff in Hkey as (kv' & Hfst & Hkv').
        rewrite Forall_forall in Hk. specialize (Hk kv' ltac:(apply list_elem_of_In; exact Hkv')).
        unfold key_lt, group_key in *. rewrite <- Hfst. exact Hk.
      * rewrite (Hnot Hd) in Hkey. apply in_app_or in Hkey as [Hkey | [Hkey | []]].
        -- apply in_map_iff in Hkey as (kv' & Hfst & Hkv').
           rewrite Forall_forall in Hk.
           specialize (Hk kv' ltac:(apply list_elem_of_In; exact Hkv')).
           unfold key_lt, group_key in *. rewrite <- Hfst. exact Hk.
        -- unfold key_lt, group_key. cbn [fst]. rewrite <- Hkey. exact Hlt.
Qed.

Lemma StronglySorted_app_In {A : Type} (R : A -> A -> Prop) (l1 l2 : list A) (x y : A) :
  StronglySorted R (l1 ++ l2) -> In x l1 -> In y l2 -> R x y.
Proof.
  induction l1 as [| a l1 IH]; intros Hs Hx Hy; [destruct Hx |].
  cbn [app] in Hs. inversion Hs as [| ? ? Hs' Ha]; subst.
  destruct Hx as [-> | Hx]; [| apply IH; assumption].
  rewrite Forall_forall in Ha. apply Ha, list_elem_of_In, in_or_app. right. exact Hy.
Qed.

Lemma grouping_of_sorted (todo : list journal_entry) :
  forall (groups : list (string * list journal_entry)) (done : list journal_entry),
    StronglySorted (key_le day_codes) (done ++ todo) ->
    flatten groups = done ->
    StronglySorted (key_lt group_key) groups ->
    (forall kv, In kv groups -> exists x, In x done /\ day_key x = fst kv) ->
    let result :=
      fold_left (fun groups e => setdefault_append (day_key e) e groups) todo groups in
    flatten result = done ++ todo /\ StronglySorted (key_lt group_key) result.
Proof.
  induction todo as [| e todo IH]; intros groups done Hs Hflat Hsorted Hkeys.
  - cbn [fold_left]. rewrite app_nil_r. split; assumption.
  - cbn [fold_left].
    destruct (setdefault_append_sorted e groups Hsorted) as [Hflat' Hsorted'].
    { intros kv Hin. destruct (Hkeys kv Hin) as (x & Hx & Hkx).
      unfold group_key. rewrite <- Hkx. fold (day_codes x).
      apply (StronglySorted_app_In _ _ _ x e Hs Hx). left. reflexivity. }
    replace (done ++ e :: todo) with ((done ++ [e]) ++ todo) in *
      by (rewrite <- app_assoc; reflexivity).
    apply IH; [exact Hs | rewrite Hflat', Hflat; reflexivity | exact Hsorted' |].
    intros kv Hin.
    assert (In (fst kv) (map fst (setdefault_append (day_key e) e groups))) as Hkey
      by (apply in_map, Hin).
    assert (In (fst kv) (map fst groups) \/ fst kv = day_key e) as [Hold | Hnew].
    { destruct (setdefault_append_keys (day_key e) e groups) as [Hin' Hnot].
      destruct (in_dec string_dec (day_key e) (map fst groups)) as [Hd | Hd].
      - rewrite (Hin' Hd) in Hkey. left. exact Hkey.
      - rewrite (Hnot Hd) in Hkey. apply in_app_or in Hkey as [Hkey | [Hkey | []]];
          [left; exact Hkey | right; symmetry; exact Hkey]. }
    + apply in_map_iff in Hold as (kv' & Hfst & Hkv').
      destruct (Hkeys kv' Hkv') as (x & Hx & Hkx).
      exists x. split; [apply in_or_app; left; exact Hx | congruence].
    + exists e. split; [apply in_or_app; right; left; reflexivity | congruence].
Qed.

Lemma StronglySorted_impl_In {A : Type} (R R' : A -> A -> Prop) (l : list A) :
  (forall a b, In a l -> In b l -> R a b -> R' a b) ->
  StronglySorted R l -> StronglySorted R' l.
Proof.
  intros Himpl Hs. induction Hs as [| x l Hl IH Hx]; [constructor |].
  constructor.
  - apply IH. intros a b Ha Hb. apply Himpl; right; assumption.
  - apply Forall_forall. intros y Hy. rewrite Forall_forall in Hx.
    apply Himpl; [left; reflexivity | right; apply list_elem_of_In; exact Hy |].
    apply Hx, Hy.
Qed.

(** X20. Oldest first, the journey screen is the chronological list.  For
    a store of real date-times, reading the groups of [group_by_date] from
    the first day to the last gives exactly the journal sorted by
    timestamp (entries with equal timestamps in the order they were
    written); so sorting the days by their text key agrees with sorting by
    date. *)
Theorem journey_oldest_first_is_chronological (u : User) :
  entries_ok (_journal_entries u) ->
  flatten (group_by_date u false) = sort_by entry_key (get_journal_entries u)
  /\ group_by_date u false = groups_dict u
  /\ StronglySorted (key_le entry_key) (flatten (group_by_date u false)).
Proof.
  intros Hok.
  set (S := sort_by entry_key (get_journal_entries u)).
  assert (forall e, In e S -> datetime_ok (fst e) = true) as HokS.
  { intros e He. unfold entries_ok in Hok. rewrite Forall_forall in Hok.
    apply Hok, list_elem_of_In.
    eapply Permutation_in; [apply sort_by_perm | exact He]. }
  assert (StronglySorted (key_le day_codes) S) as Hday.
  { eapply StronglySorted_impl_In; [| apply sort_by_sorted].
    intros a b Ha Hb Hle. apply day_key_monotone; auto. }
  destruct (grouping_of_sorted S [] []) as [Hflat Hsorted]; try assumption.
  { reflexivity. }
  { constructor. }
  { intros kv []. }
  change (flatten (groups_dict u) = S) in Hflat.
  change (StronglySorted (key_lt group_key) (groups_dict u)) in Hsorted.
  assert (group_by_date u false = groups_dict u) as Heq
    by (apply (sort_by_sorted_id group_key), Hsorted).
  rewrite Heq. split; [exact Hflat |]. split; [reflexivity |].
  rewrite Hflat. apply sort_by_sorted.
Qed.

Lemma journey_oldest_first_is_chronological_witness :
  let u := mkUser "Mine" "Budi" None
             [ (mkdatetime 2024 3 9 21 0 0 0, PyStr "malam");
               (mkdatetime 2023 12 31 7 30 0 0, PyStr "tahun lalu");
               (mkdatetime 2024 3 9 6 15 0 0, PyStr "pagi") ]
             "journals_Mine.json" in
  entries_ok (_journal_entries u)
  /\ flatten (group_by_date u false) = sort_by entry_key (get_journal_entries u).
Proof.
  intros u. split; [repeat constructor |].
  apply (journey_oldest_first_is_chronological u). repeat constructor.
Defined.

(** ** [_sub_partner] leaves other text alone *)

Lemma is_prefix_app_l (a b cs : list ascii) :
  is_prefix (a ++ b) cs = true -> is_prefix a cs = true.
Proof.
  revert cs. induction a as [| x a IH]; intros cs H; [reflexivity |].
  destruct cs as [| c cs]; [discriminate H |].
  cbn [app is_prefix] in *. apply andb_true_iff in H as [Hx H].
  rewrite Hx. apply IH, H.
Qed.

Lemma occurs_app_l (a b cs : list ascii) :
  occurs a cs = false -> occurs (a ++ b) cs = false.
Proof.
  induction cs as [| c cs IH]; cbn [occurs]; intros H.
  - apply orb_false_iff in H as [H _]. rewrite orb_false_r in *.
    destruct (is_prefix (a ++ b) []) eqn:E; [| reflexivity].
    apply is_prefix_app_l in E. congruence.
  - apply orb_false_iff in H as [H1 H2]. rewrite (IH H2), orb_false_r.
    destruct (is_prefix (a ++ b) (c :: cs)) eqn:E; [| reflexivity].
    apply is_prefix_app_l in E. congruence.
Qed.

Lemma replace_from_absent (old new cs : list ascii) :
  occurs old cs = false -> replace_from old new 0 cs = cs.
Proof.
  induction cs as [| c cs IH]; [reflexivity |].
  cbn [occurs replace_from]. intros H.
  apply orb_false_iff in H as [H1 H2]. rewrite H1, (IH H2). reflexivity.
Qed.

Lemma str_replace_absent (s old new : string) :
  old <> EmptyString -> str_contains s old = false -> str_replace s old new = s.
Proof.
  intros Hne H. unfold str_replace, str_contains in *.
  destruct old as [| c old]; [congruence |].
  cbn [list_ascii_of_string] in *.
  rewrite replace_from_absent by exact H.
  apply string_of_list_ascii_of_string.
Qed.

Lemma strip_empty : strip EmptyString = EmptyString.
Proof. reflexivity. Qed.

(** X21. [_sub_partner] changes nothing but the word it is after.  A text
    in which "pasangan" does not occur is returned as it is, whoever the
    partner is; and without a partner name (before login, or with a blank
    name or the placeholder of the partner field) every text is returned
    as it is. *)
Theorem sub_partner_leaves_text (current_user : option User) (text : string) :
  (str_contains text "pasangan" = false -> _sub_partner current_user text = text)
  /\ (no_partner current_user -> _sub_partner current_user text = text).
Proof.
  split.
  - intros H. unfold _sub_partner.
    destruct current_user as [u |]; [| reflexivity].
    destruct (negb (is_empty (_partner u)) && negb (is_empty (strip (_partner u)))
              && negb (String.eqb (_partner u) partner_placeholder)); [| reflexivity].
    assert (str_replace text "pasanganmu" (quoted (_partner u)) = text) as ->.
    { apply str_replace_absent; [discriminate |].
      unfold str_contains in *.
      change (list_ascii_of_string "pasanganmu")
        with (list_ascii_of_string "pasangan" ++ list_ascii_of_string "mu").
      apply occurs_app_l, H. }
    apply str_replace_absent; [discriminate | exact H].
  - unfold no_partner, _sub_partner.
    destruct current_user as [u |]; [| reflexivity].
    intros [H | H].
    + rewrite H. cbn [negb]. rewrite andb_false_r. reflexivity.
    + rewrite H, String.eqb_refl. cbn [negb]. rewrite andb_false_r. reflexivity.
Qed.

Example sub_partner_names_partner :
  _sub_partner (Some (mkUser "Mine" "Budi" None [] "journals_Mine.json"))
    "Apakah pasanganmu mendukung impianmu?"
  = "Apakah 'Budi' mendukung impianmu?".
Proof. vm_compute. reflexivity. Qed.

Example sub_partner_named_like_the_word :
  _sub_partner (Some (mkUser "Mine" "pasangan" None [] "journals_Mine.json"))
    "Apakah pasanganmu mendukung impianmu?"
  = "Apakah ''pasangan'' mendukung impianmu?".
Proof. vm_compute. reflexivity. Qed.
